(** * Finance tracker backend: transaction parser, analytics windows and updates

    Shallow embedding of [backend/src/services/aiService.js] and of the
    route handlers of [backend/src/routes/transactions.js] (the transaction
    router and the analytics router) used by the properties below, and of
    [getDateRangeFromPeriod] of [frontend/src/utils/dateUtils.ts].

    Modelling conventions.
    - Strings are Stdlib strings over [ascii]; [toLowerCase] is the ASCII
      case mapping (the texts handled below are ASCII).  The currency glyphs
      [₹ € £ ¥] of the amount regex are outside this alphabet; only [$] is
      modelled.
    - JS numbers are rationals [Q] (floating-point rounding is not modelled).
    - JS [Date]s are millisecond timestamps [Z]; the server's local time is
      taken to be UTC (no offset, no daylight saving); the browser's offset
      from UTC is a parameter of the dashboard model.
    - A thrown exception is the [Throw] case of the [Exc] type. *)

From Stdlib Require Import ZArith QArith Qabs Qround Bool List Lia.
From Stdlib Require Import Strings.String Strings.Ascii.
From Stdlib Require Import Sorting.Permutation Sorting.Sorted Lqa.
Import ListNotations.
Open Scope string_scope.
Set Warnings "-register-all".

(* ------------------------------------------------------------------ *)
(** ** JS string primitives *)

Module JSString.

Definition is_upper (c : ascii) : bool :=
  let n := nat_of_ascii c in (65 <=? n)%nat && (n <=? 90)%nat.

Definition lower_char (c : ascii) : ascii :=
  if is_upper c then ascii_of_nat (nat_of_ascii c + 32) else c.

(** [String.prototype.toLowerCase] *)
Fixpoint toLowerCase (s : string) : string :=
  match s with
  | EmptyString => EmptyString
  | String c r => String (lower_char c) (toLowerCase r)
  end.

(** [s.includes(k)]: [k] occurs in [s] at some position. *)
Fixpoint includes (s k : string) : bool :=
  prefix k s || match s with
                | EmptyString => false
                | String _ r => includes r k
                end.

(** [s.substring(0, n)] *)
Definition substring0 (s : string) (n : nat) : string := substring 0 n s.

(** [xs.some(k => s.includes(k))] *)
Definition some_includes (s : string) (ks : list string) : bool :=
  existsb (includes s) ks.

End JSString.

Import JSString.

(* ------------------------------------------------------------------ *)
(** ** Category taxonomy ([COMMON_CATEGORIES]) *)

Definition COMMON_CATEGORIES : list string :=
  [ "Food & Dining"; "Gas & Fuel"; "Groceries"; "Shopping";
    "Entertainment"; "Bills & Utilities"; "Travel"; "Healthcare";
    "Education"; "Transportation"; "Salary"; "Freelance"; "Investment";
    "Business"; "Gift"; "Other" ].

(** [COMMON_CATEGORIES.includes(c)] *)
Definition in_taxonomy (c : string) : bool :=
  existsb (String.eqb c) COMMON_CATEGORIES.

(* ------------------------------------------------------------------ *)
(** ** Fallback parser ([simpleParseTransaction]) *)

Module Fallback.

Definition is_digit (c : ascii) : bool :=
  let n := nat_of_ascii c in (48 <=? n)%nat && (n <=? 57)%nat.

(** The glyph class [[\$₹€£¥]] restricted to the ASCII alphabet. *)
Definition is_glyph (c : ascii) : bool := Ascii.eqb c "$".

(** Greedy [\d+]: the maximal run of digits at the front, and the rest. *)
Fixpoint digit_run (s : string) : string * string :=
  match s with
  | EmptyString => (EmptyString, EmptyString)
  | String c r =>
      if is_digit c then let (d, rest) := digit_run r in (String c d, rest)
      else (EmptyString, s)
  end.

(** Greedy optional group [(?:\.\d{2})?] *)
Definition frac_part (s : string) : string :=
  match s with
  | String p (String d1 (String d2 _)) =>
      if Ascii.eqb p "." && is_digit d1 && is_digit d2
      then String p (String d1 (String d2 EmptyString))
      else EmptyString
  | _ => EmptyString
  end.

(** Capture group 1, [(\d+(?:\.\d{2})?)], matched at the front of [s]. *)
Definition capture_at (s : string) : option string :=
  let (d, rest) := digit_run s in
  match d with
  | EmptyString => None
  | _ => Some (d ++ frac_part rest)
  end.

(** [text.match(/[\$₹€£¥]?(\d+(?:\.\d{2})?)/)], giving [amountMatch[1]]:
    the leftmost position where the pattern matches; at each position the
    optional glyph is tried first, then the pattern without it. *)
Fixpoint amountMatch (s : string) : option string :=
  match s with
  | EmptyString => None
  | String c r =>
      match (if is_glyph c then capture_at r else None) with
      | Some g => Some g
      | None =>
          match capture_at s with
          | Some g => Some g
          | None => amountMatch r
          end
      end
  end.

Definition digit_val (c : ascii) : Z := Z.of_nat (nat_of_ascii c - 48).

Fixpoint digits_value_acc (acc : Z) (s : string) : Z :=
  match s with
  | EmptyString => acc
  | String c r => digits_value_acc (10 * acc + digit_val c) r
  end.

(** [parseFloat] of a string of the shape [\d+(\.\d\d)?] *)
Definition parseFloat_capture (g : string) : Q :=
  let (d, rest) := digit_run g in
  match rest with
  | String _ (String d1 (String d2 _)) =>
      (inject_Z (digits_value_acc 0 d) + Qmake (10 * digit_val d1 + digit_val d2) 100)%Q
  | _ => inject_Z (digits_value_acc 0 d)
  end.

Definition incomeKeywords : list string :=
  ["salary"; "income"; "received"; "deposit"; "bonus"; "wage";
   "paycheck"; "freelance"].

(** [categoryKeywords], in the insertion order of the object literal
    (which is the iteration order of [Object.entries]). *)
Definition categoryKeywords : list (string * list string) :=
  [ ("Food & Dining", ["restaurant"; "dining"; "food"; "lunch"; "dinner";
      "breakfast"; "cafe"; "coffee"; "pizza"; "burger"; "mcdonald"; "kfc";
      "subway"; "starbucks"; "domino"; "delivery"]);
    ("Gas & Fuel", ["gas"; "fuel"; "petrol"; "diesel"; "shell"; "bp";
      "exxon"; "chevron"; "station"]);
    ("Groceries", ["grocery"; "supermarket"; "walmart"; "target"; "costco";
      "kroger"; "safeway"; "market"; "food shopping"]);
    ("Shopping", ["amazon"; "shopping"; "store"; "retail"; "clothing";
      "electronics"; "mall"; "online"; "purchase"]);
    ("Entertainment", ["movie"; "netflix"; "spotify"; "gaming"; "steam";
      "entertainment"; "subscription"; "streaming"; "concert"; "theater"]);
    ("Bills & Utilities", ["electric"; "electricity"; "water"; "internet";
      "phone"; "utility"; "bill"; "cable"; "mobile"]);
    ("Travel", ["hotel"; "flight"; "airplane"; "vacation"; "travel";
      "booking"; "airbnb"; "uber"; "taxi"]);
    ("Transportation", ["uber"; "taxi"; "bus"; "train"; "metro";
      "transport"; "parking"; "toll"]);
    ("Healthcare", ["doctor"; "medical"; "pharmacy"; "hospital"; "health";
      "medicine"; "clinic"]);
    ("Education", ["course"; "education"; "book"; "tuition"; "school";
      "university"; "training"]) ].

(** The [for ... of Object.entries(categoryKeywords)] loop with [break];
    [category] starts as ["Other"]. *)
Fixpoint scan_categories (lowerText : string)
    (entries : list (string * list string)) : string :=
  match entries with
  | [] => "Other"
  | (cat, keywords) :: rest =>
      if some_includes lowerText keywords then cat
      else scan_categories lowerText rest
  end.

End Fallback.

(** JS values, as produced by [JSON.parse] (plus [undefined]). *)
Inductive JVal :=
| JUndef
| JNull
| JBool (b : bool)
| JNum (q : Q)
| JStr (s : string)
| JArr (xs : list JVal)
| JObj (fields : list (string * JVal)).

(** A parsed transaction: the object literal returned by the parsers.
    [description] and [date] are JS values in general (see [enhance]); the
    fallback parser always puts strings there. *)
Record ParsedTransaction := mkParsed {
  pt_amount : Q;
  pt_description : JVal;
  pt_category : string;
  pt_type : string;
  pt_date : JVal
}.

(** [simpleParseTransaction(text)]; [today] is
    [new Date().toISOString().split("T")[0]] at the time of the call. *)
Definition simpleParseTransaction (today text : string) : ParsedTransaction :=
  let amount := match Fallback.amountMatch text with
                | Some g => Fallback.parseFloat_capture g
                | None => 0%Q
                end in
  let lowerText := toLowerCase text in
  let type_ := if some_includes lowerText Fallback.incomeKeywords
               then "income" else "expense" in
  let category := Fallback.scan_categories lowerText Fallback.categoryKeywords in
  mkParsed amount (JStr (substring0 text 100)) category type_ (JStr today).

(* ------------------------------------------------------------------ *)
(** ** Exceptions *)

Inductive Exc (A : Type) :=
| Ok (a : A)
| Throw (error : string).
Arguments Ok {A} a.
Arguments Throw {A} error.

Definition exc_bind {A B} (m : Exc A) (k : A -> Exc B) : Exc B :=
  match m with
  | Ok a => k a
  | Throw e => Throw e
  end.

Notation "x <- m ;; k" := (exc_bind m (fun x => k))
  (at level 61, m at next level, right associativity).

(** [try { m } catch (error) { return h(error); }] *)
Definition try_catch {A} (m : Exc A) (h : string -> Exc A) : Exc A :=
  match m with
  | Ok a => Ok a
  | Throw e => h e
  end.

(* ------------------------------------------------------------------ *)
(** ** JS value primitives *)

Module JS.

(** Truthiness of a JS value ([NaN] is not among the modelled numbers). *)
Definition truthy (v : JVal) : bool :=
  match v with
  | JUndef | JNull => false
  | JBool b => b
  | JNum q => negb (Qeq_bool q 0)
  | JStr s => negb (String.eqb s "")
  | JArr _ | JObj _ => true
  end.

(** Property read [v.k]: throws a [TypeError] on [null] and [undefined];
    primitives and arrays have none of the fields read below.  Of
    duplicate keys in a parsed object the last one counts. *)
Definition get (v : JVal) (k : string) : Exc JVal :=
  match v with
  | JUndef | JNull => Throw "TypeError"
  | JObj fs =>
      Ok (match find (fun kv => String.eqb (fst kv) k) (rev fs) with
          | Some (_, x) => x
          | None => JUndef
          end)
  | _ => Ok JUndef
  end.

(** [v?.toLowerCase()]: [undefined] on nullish values, a [TypeError] when
    [v] is not a string. *)
Definition opt_toLowerCase (v : JVal) : Exc (option string) :=
  match v with
  | JUndef | JNull => Ok None
  | JStr s => Ok (Some (toLowerCase s))
  | _ => Throw "TypeError"
  end.

Definition is_space (c : ascii) : bool :=
  let n := nat_of_ascii c in (n =? 32)%nat || ((9 <=? n)%nat && (n <=? 13)%nat).

Fixpoint trim_start (s : string) : string :=
  match s with
  | String c r => if is_space c then trim_start r else s
  | EmptyString => EmptyString
  end.

Fixpoint rev_string (s : string) : string :=
  match s with
  | EmptyString => EmptyString
  | String c r => rev_string r ++ String c EmptyString
  end.

(** [s.trim()] *)
Definition trim (s : string) : string :=
  rev_string (trim_start (rev_string (trim_start s))).

Definition fence : string := "```".

(** [s.replace(/```json\s*/, "")]: the first occurrence is removed. *)
Fixpoint replace_json_fence (s : string) : string :=
  if prefix (fence ++ "json") s
  then trim_start (substring 7 (length s) s)
  else match s with
       | EmptyString => EmptyString
       | String c r => String c (replace_json_fence r)
       end.

Fixpoint all_space (s : string) : bool :=
  match s with
  | EmptyString => true
  | String c r => is_space c && all_space r
  end.

(** [s.replace(/```\s*$/, "")]: the leftmost fence followed only by
    white space up to the end is removed, with that white space. *)
Fixpoint replace_trailing_fence (s : string) : string :=
  if prefix fence s && all_space (substring 3 (length s) s)
  then EmptyString
  else match s with
       | EmptyString => EmptyString
       | String c r => String c (replace_trailing_fence r)
       end.

(** [/^\d{4}-\d{2}-\d{2}$/.test(s)] *)
Definition ymd_shape (s : string) : bool :=
  match s with
  | String y1 (String y2 (String y3 (String y4 (String h1
      (String m1 (String m2 (String h2 (String d1 (String d2 EmptyString))))))))) =>
      Fallback.is_digit y1 && Fallback.is_digit y2 && Fallback.is_digit y3
      && Fallback.is_digit y4 && Ascii.eqb h1 "-" && Fallback.is_digit m1
      && Fallback.is_digit m2 && Ascii.eqb h2 "-" && Fallback.is_digit d1
      && Fallback.is_digit d2
  | _ => false
  end.

End JS.

(* ------------------------------------------------------------------ *)
(** ** The AI parser adapter *)

Section AIService.

(** Library behaviour taken as given: [parseFloat] on a JS value ([None] is
    [NaN]), the string conversion of a JS value, and whether [new Date(s)]
    is a valid date. *)
Variable js_parseFloat : JVal -> option Q.
Variable js_ToString : JVal -> string.
Variable date_parses : string -> bool.

(** [isValidDate(dateString)] *)
Definition isValidDate (v : JVal) : bool :=
  JS.truthy v && JS.ymd_shape (js_ToString v) && date_parses (js_ToString v).

(** The category predicate of [COMMON_CATEGORIES.find(cat => ...)]; with
    [lowerCategory] undefined, [includes(undefined)] searches for the
    string ["undefined"] and the optional call yields [undefined]. *)
Definition close_match (lowerCategory : option string) (cat : string) : bool :=
  match lowerCategory with
  | Some l =>
      String.eqb (toLowerCase cat) l || includes (toLowerCase cat) l
      || includes l (toLowerCase cat)
  | None => includes (toLowerCase cat) "undefined"
  end.

(** The category validation of [enhanceTransaction]. *)
Definition validCategory (today : string) (category : JVal)
    (originalText : string) : Exc string :=
  match category with
  | JStr c =>
      if JS.truthy category && in_taxonomy c then Ok c else
      lowerCategory <- JS.opt_toLowerCase category ;;
      match find (close_match lowerCategory) COMMON_CATEGORIES with
      | Some m => Ok m
      | None => Ok (pt_category (simpleParseTransaction today originalText))
      end
  | _ =>
      lowerCategory <- JS.opt_toLowerCase category ;;
      match find (close_match lowerCategory) COMMON_CATEGORIES with
      | Some m => Ok m
      | None => Ok (pt_category (simpleParseTransaction today originalText))
      end
  end.

(** [enhanceTransaction(transaction, originalText)] *)
Definition enhanceTransaction (today : string) (transaction : JVal)
    (originalText : string) : Exc ParsedTransaction :=
  category <- JS.get transaction "category" ;;
  valid <- validCategory today category originalText ;;
  amount <- JS.get transaction "amount" ;;
  description <- JS.get transaction "description" ;;
  type_ <- JS.get transaction "type" ;;
  date <- JS.get transaction "date" ;;
  Ok (mkParsed
        (match js_parseFloat amount with
         | Some q => Qabs q
         | None => 0%Q
         end)
        (if JS.truthy description then description
         else JStr (substring0 originalText 100))
        valid
        (match type_ with
         | JStr s => if String.eqb s "income" || String.eqb s "expense"
                     then s else "expense"
         | _ => "expense"
         end)
        (if isValidDate date then date else JStr today)).

(** Module initialisation: [genAI] is set when [GEMINI_API_KEY] is truthy,
    differs from the placeholder, and the client constructor does not
    throw. *)
Definition credential_configured (key : option string) : bool :=
  match key with
  | Some k => negb (String.eqb k "") && negb (String.eqb k "your-gemini-api-key-here")
  | None => false
  end.

Definition genAI_set (key : option string) (ctor_ok : bool) : bool :=
  credential_configured key && ctor_ok.

(** [parseTransactionWithAI(text)].  [genAI] tells whether the client is
    set; [reply] is the outcome of [model.generateContent(prompt)] followed
    by [response.text()] (a [Throw] for network or model errors);
    [JSON_parse] is [JSON.parse]. *)
Definition parseTransactionWithAI (genAI : bool) (reply : Exc string)
    (JSON_parse : string -> Exc JVal) (today text : string)
    : Exc ParsedTransaction :=
  try_catch
    (if negb genAI then Ok (simpleParseTransaction today text) else
     raw <- reply ;;
     let aiResponse := JS.trim raw in
     let cleanResponse :=
       JS.replace_trailing_fence (JS.replace_json_fence aiResponse) in
     match JSON_parse cleanResponse with
     | Throw _ => Ok (simpleParseTransaction today text)
     | Ok parsedData => enhanceTransaction today parsedData text
     end)
    (fun _ => Ok (simpleParseTransaction today text)).

End AIService.

(** A well-formed parsed transaction: a taxonomy category, a type among
    [income]/[expense], and a non-negative amount. *)
Definition well_formed (r : ParsedTransaction) : Prop :=
  in_taxonomy (pt_category r) = true /\
  (pt_type r = "income" \/ pt_type r = "expense") /\
  (0 <= pt_amount r)%Q.

(* ------------------------------------------------------------------ *)
(** ** JS [Date] arithmetic (ECMAScript MakeDay / MakeDate, local = UTC) *)

Module Cal.
Open Scope Z_scope.

Definition msPerDay : Z := 86400000.

(** Days since 1970-01-01 of the proleptic Gregorian date [y]-[m]-[d]
    ([m] in 1..12). *)
Definition days_from_civil (y m d : Z) : Z :=
  let y' := if m <=? 2 then y - 1 else y in
  let era := y' / 400 in
  let yoe := y' mod 400 in
  let mp := if 2 <? m then m - 3 else m + 9 in
  let doy := (153 * mp + 2) / 5 + d - 1 in
  let doe := yoe * 365 + yoe / 4 - yoe / 100 + doy in
  era * 146097 + doe - 719468.

(** Year of era, month (1..12) and day for a day of a 400-year era that
    starts on March 1st. *)
Definition civil_of_doe (doe : Z) : Z * Z * Z :=
  let yoe := (doe - doe / 1460 + doe / 36524 - doe / 146096) / 365 in
  let doy := doe - (365 * yoe + yoe / 4 - yoe / 100) in
  let mp := (5 * doy + 2) / 153 in
  let d := doy - (153 * mp + 2) / 5 + 1 in
  let m := if mp <? 10 then mp + 3 else mp - 9 in
  (yoe, m, d).

Definition civil_from_days (z : Z) : Z * Z * Z :=
  let z' := z + 719468 in
  let era := z' / 146097 in
  let doe := z' mod 146097 in
  let '(yoe, m, d) := civil_of_doe doe in
  let y := yoe + era * 400 in
  ((if m <=? 2 then y + 1 else y), m, d).

Definition Day (t : Z) : Z := t / msPerDay.
Definition TimeWithinDay (t : Z) : Z := t mod msPerDay.

(** [MakeDay(year, month, date)], [month] 0-based and normalised. *)
Definition MakeDay (year month date : Z) : Z :=
  let ym := year + month / 12 in
  let mn := month mod 12 in
  days_from_civil ym (mn + 1) 1 + date - 1.

Definition MakeDate (day time : Z) : Z := day * msPerDay + time.

Definition getFullYear (t : Z) : Z := let '(y, _, _) := civil_from_days (Day t) in y.
Definition getMonth (t : Z) : Z := let '(_, m, _) := civil_from_days (Day t) in m - 1.
Definition getDate (t : Z) : Z := let '(_, _, d) := civil_from_days (Day t) in d.

(** [new Date(y, m, d)] *)
Definition new_Date3 (y m d : Z) : Z := MakeDate (MakeDay y m d) 0.

(** [t.setDate(dt)], [t.setMonth(m)], [t.setFullYear(y)]: the new time
    value. *)
Definition setDate (t dt : Z) : Z :=
  MakeDate (MakeDay (getFullYear t) (getMonth t) dt) (TimeWithinDay t).
Definition setMonth (t m : Z) : Z :=
  MakeDate (MakeDay (getFullYear t) m (getDate t)) (TimeWithinDay t).
Definition setFullYear (t y : Z) : Z :=
  MakeDate (MakeDay y (getMonth t) (getDate t)) (TimeWithinDay t).

End Cal.

(* ------------------------------------------------------------------ *)
(** ** Route results *)

Inductive Http (A : Type) :=
| H200 (a : A)
| H400
| H404
| H500.
Arguments H200 {A} a.
Arguments H400 {A}.
Arguments H404 {A}.
Arguments H500 {A}.

(* ------------------------------------------------------------------ *)
(** ** [POST /api/transactions/parse] *)

Record ParseResponse := mkParseResponse {
  pr_success : bool;
  pr_isMultiple : bool;
  pr_parsedTransactions : list JVal;
  pr_originalText : string;
  pr_count : nat
}.

(** The object returned by the parsers, as a JS value. *)
Definition parsed_to_js (r : ParsedTransaction) : JVal :=
  JObj [("amount", JNum (pt_amount r)); ("description", pt_description r);
        ("category", JStr (pt_category r)); ("type", JStr (pt_type r));
        ("date", pt_date r)].

(** [Array.isArray(v)] *)
Definition isArray (v : JVal) : bool :=
  match v with JArr _ => true | _ => false end.

Definition array_items (v : JVal) : list JVal :=
  match v with JArr xs => xs | _ => [] end.

(** The handler, for a string [text] in the body: the validators
    [notEmpty()] and [isLength({ max: 500 })], then the parse. *)
Definition parse_route (js_parseFloat : JVal -> option Q)
    (js_ToString : JVal -> string) (date_parses : string -> bool)
    (genAI : bool) (reply : Exc string) (JSON_parse : string -> Exc JVal)
    (today text : string) : Http ParseResponse :=
  if String.eqb text "" || (500 <? String.length text)%nat then H400 else
  match parseTransactionWithAI js_parseFloat js_ToString date_parses
          genAI reply JSON_parse today text with
  | Throw _ => H500
  | Ok r =>
      let parsedResult := parsed_to_js r in
      let isMultiple := isArray parsedResult in
      H200 (mkParseResponse true isMultiple
              (if isMultiple then array_items parsedResult else [parsedResult])
              text
              (if isMultiple then List.length (array_items parsedResult) else 1%nat))
  end.

(* ------------------------------------------------------------------ *)
(** ** Stored transactions *)

(** The fields of [transactionSchema] used below; object ids are
    strings. *)
Record Transaction := mkTxn {
  tx_id : string;
  userId : string;
  description : string;
  amount : Q;
  type_ : string;
  category : string;
  date : Z;
  notes : option string
}.

(* ------------------------------------------------------------------ *)
(** ** Analytics: date windows *)

Module Analytics.
Import Cal.

(** The [$match] on [date]: none, [{ $gte }] or [{ $gte, $lte }]. *)
Inductive DateFilter :=
| NoFilter
| Gte (lo : Z)
| Between (lo hi : Z).

Definition in_window (f : DateFilter) (t : Z) : bool :=
  match f with
  | NoFilter => true
  | Gte lo => (lo <=? t)%Z
  | Between lo hi => (lo <=? t)%Z && (t <=? hi)%Z
  end.

(** Query string of the analytics routes; [startDate] and [endDate] are
    given as the time values of [new Date(startDate)] / [new Date(endDate)]
    (they passed [isISO8601()]). *)
Record AnalyticsQuery := mkQuery {
  q_period : option string;
  q_startDate : option Z;
  q_endDate : option Z
}.

(** [query("period").optional().isIn(allowed)] *)
Definition period_valid (allowed : list string) (p : option string) : bool :=
  match p with
  | None => true
  | Some s => existsb (String.eqb s) allowed
  end.

Definition with_default (d : string) (p : option string) : string :=
  match p with Some s => s | None => d end.

(** The [dateFilter] of [GET /api/analytics/summary]. *)
Definition summary_dateFilter (period : string) (startDate endDate : option Z)
    (now : Z) : DateFilter :=
  match startDate, endDate with
  | Some s, Some e => Between s e
  | _, _ =>
      if String.eqb period "week" then Gte (setDate now (getDate now - 7))
      else if String.eqb period "month" then Gte (new_Date3 (getFullYear now) (getMonth now) 1)
      else if String.eqb period "year" then Gte (new_Date3 (getFullYear now) 0 1)
      else NoFilter
  end.

(** The [dateFilter] of [GET /api/analytics/categories] (same code). *)
Definition categories_dateFilter (period : string) (startDate endDate : option Z)
    (now : Z) : DateFilter :=
  match startDate, endDate with
  | Some s, Some e => Between s e
  | _, _ =>
      if String.eqb period "week" then Gte (setDate now (getDate now - 7))
      else if String.eqb period "month" then Gte (new_Date3 (getFullYear now) (getMonth now) 1)
      else if String.eqb period "year" then Gte (new_Date3 (getFullYear now) 0 1)
      else NoFilter
  end.

(** The [dateFilter] of [GET /api/analytics/trends]. *)
Definition trends_dateFilter (period : string) (startDate endDate : option Z)
    (now : Z) : DateFilter :=
  match startDate, endDate with
  | Some s, Some e => Between s e
  | _, _ =>
      if String.eqb period "week" then Gte (setDate now (getDate now - 7))
      else if String.eqb period "month" then Gte (setMonth now (getMonth now - 1))
      else Gte (setFullYear now (getFullYear now - 1))
  end.

(** Validation, default period and window of each route ([None] is the
    400 answer of [handleValidationErrors]). *)
Definition summary_window (q : AnalyticsQuery) (now : Z) : option DateFilter :=
  if period_valid ["week"; "month"; "year"; "all"] (q_period q)
  then Some (summary_dateFilter (with_default "month" (q_period q))
               (q_startDate q) (q_endDate q) now)
  else None.

Definition categories_window (q : AnalyticsQuery) (now : Z) : option DateFilter :=
  if period_valid ["week"; "month"; "year"; "all"] (q_period q)
  then Some (categories_dateFilter (with_default "month" (q_period q))
               (q_startDate q) (q_endDate q) now)
  else None.

Definition trends_window (q : AnalyticsQuery) (now : Z) : option DateFilter :=
  if period_valid ["week"; "month"; "year"] (q_period q)
  then Some (trends_dateFilter (with_default "year" (q_period q))
               (q_startDate q) (q_endDate q) now)
  else None.

(** The resolution rule as the spec words it: [week] is the last 7 days
    from now, [month] starts at 00:00 on the 1st of the current month,
    [year] at 00:00 on January 1st of the current year, [all] has no lower
    bound. *)
Definition spec_window (period : string) (now : Z) : DateFilter :=
  let '(y, _, d) := civil_from_days (Day now) in
  if String.eqb period "week" then Gte (now - 7 * msPerDay)
  else if String.eqb period "month"
  then Gte (now - TimeWithinDay now - (d - 1) * msPerDay)
  else if String.eqb period "year" then Gte (days_from_civil y 1 1 * msPerDay)
  else NoFilter.

End Analytics.

(* ------------------------------------------------------------------ *)
(** ** [GET /api/analytics/summary] *)

Module Summary.
Import Cal Analytics.

(** [$match: { userId, ...filter }] *)
Definition matching (store : list Transaction) (uid : string)
    (f : DateFilter) : list Transaction :=
  filter (fun tx => String.eqb (userId tx) uid && in_window f (date tx)) store.

(** [$sum: "$amount"] and [$sum: 1] of the group [_id = ty]. *)
Definition total_of (ty : string) (txs : list Transaction) : Q :=
  fold_right (fun tx acc => if String.eqb (type_ tx) ty then (amount tx + acc)%Q else acc)
    0%Q txs.

Definition count_of (ty : string) (txs : list Transaction) : nat :=
  List.length (filter (fun tx => String.eqb (type_ tx) ty) txs).

(** [$avg: "$amount"] of a group, kept at 0 when the group is absent. *)
Definition average_of (ty : string) (txs : list Transaction) : Q :=
  match count_of ty txs with
  | O => 0%Q
  | n => (total_of ty txs / inject_Z (Z.of_nat n))%Q
  end.

(** [x.toFixed(1)], as its value in tenths: the nearest multiple of 1/10,
    ties away from zero (the sign is split off first). *)
Definition toFixed1 (x : Q) : Z :=
  if Qle_bool 0 x then Qfloor (10 * x + Qmake 1 2)
  else - Qfloor (10 * (- x) + Qmake 1 2).

(** [previousPeriodFilter] *)
Definition previousPeriodFilter (period : string) (now : Z) : DateFilter :=
  if String.eqb period "month"
  then Between (new_Date3 (getFullYear now) (getMonth now - 1) 1)
               (new_Date3 (getFullYear now) (getMonth now) 0)
  else NoFilter.

(** [previousIncome] and [previousExpenses] *)
Definition previous_totals (store : list Transaction) (uid period : string)
    (now : Z) : Q * Q :=
  let prev := matching store uid (previousPeriodFilter period now) in
  (total_of "income" prev, total_of "expense" prev).

(** [prev > 0 ? (((cur - prev) / prev) * 100).toFixed(1) : null] *)
Definition change (cur prev : Q) : option Z :=
  if Qle_bool prev 0 then None
  else Some (toFixed1 ((cur - prev) / prev * 100)).

Record SummaryResult := mkSummary {
  totalIncome : Q;
  totalExpenses : Q;
  netIncome : Q;
  incomeCount : nat;
  expenseCount : nat;
  averageIncome : Q;
  averageExpense : Q;
  period : string;
  dateRange : DateFilter;
  incomeChange : option Z;
  expenseChange : option Z
}.

(** The handler, for the owner [uid] at time [now]. *)
Definition getSummary (store : list Transaction) (uid : string)
    (q : AnalyticsQuery) (now : Z) : Http SummaryResult :=
  match summary_window q now with
  | None => H400
  | Some dateFilter =>
      let period := with_default "month" (q_period q) in
      let cur := matching store uid dateFilter in
      let ti := total_of "income" cur in
      let te := total_of "expense" cur in
      let '(pi, pe) := previous_totals store uid period now in
      H200 (mkSummary ti te (ti - te)%Q
              (count_of "income" cur) (count_of "expense" cur)
              (average_of "income" cur) (average_of "expense" cur)
              period dateFilter (change ti pi) (change te pe))
  end.

End Summary.

(* ------------------------------------------------------------------ *)
(** ** Mongo ids

    An [ObjectId] is written as its 24 hex digits; a stored one (a
    document's [_id] or its [userId]) is in the lowercase form of
    [toHexString()]. *)

Module MongoId.

Definition is_hex (c : ascii) : bool :=
  let n := nat_of_ascii c in
  ((48 <=? n) && (n <=? 57))%nat || ((65 <=? n) && (n <=? 70))%nat
  || ((97 <=? n) && (n <=? 102))%nat.

Fixpoint all_hex (s : string) : bool :=
  match s with
  | EmptyString => true
  | String c r => is_hex c && all_hex r
  end.

(** validator's [isHexadecimal]: [/^(0x|0h)?[0-9A-F]+$/i] *)
Definition isHexadecimal (s : string) : bool :=
  let body := match s with
              | String z (String x r) =>
                  if Ascii.eqb z "0" && (Ascii.eqb (lower_char x) "x" || Ascii.eqb (lower_char x) "h")
                  then r else s
              | _ => s
              end in
  negb (String.eqb body "") && all_hex body.

(** [param("id").isMongoId()]: [isHexadecimal(s) && s.length === 24]. *)
Definition isMongoId (s : string) : bool :=
  isHexadecimal s && (String.length s =? 24)%nat.

(** Mongoose's cast of a 24-character string to an [ObjectId]: 24 hex
    digits; anything else is a [CastError]. *)
Definition casts_to_ObjectId (s : string) : bool :=
  all_hex s && (String.length s =? 24)%nat.

(** Two strings that cast to [ObjectId]s denote the same one when their
    hex digits agree up to case. *)
Definition same_ObjectId (a b : string) : bool :=
  String.eqb (toLowerCase a) (toLowerCase b).

End MongoId.

(* ------------------------------------------------------------------ *)
(** ** [PUT /api/transactions/:id] *)

Module Update.

Section Update.

(** [new Date(req.body.date)] for a body date that passed [isISO8601()]. *)
Variable parse_date : string -> Z.

Definition set_userId (tx : Transaction) (v : string) : Transaction :=
  mkTxn (tx_id tx) v (description tx) (amount tx) (type_ tx) (category tx)
    (date tx) (notes tx).
Definition set_description (tx : Transaction) (v : string) : Transaction :=
  mkTxn (tx_id tx) (userId tx) v (amount tx) (type_ tx) (category tx)
    (date tx) (notes tx).
Definition set_amount (tx : Transaction) (v : Q) : Transaction :=
  mkTxn (tx_id tx) (userId tx) (description tx) v (type_ tx) (category tx)
    (date tx) (notes tx).
Definition set_type (tx : Transaction) (v : string) : Transaction :=
  mkTxn (tx_id tx) (userId tx) (description tx) (amount tx) v (category tx)
    (date tx) (notes tx).
Definition set_category (tx : Transaction) (v : string) : Transaction :=
  mkTxn (tx_id tx) (userId tx) (description tx) (amount tx) (type_ tx) v
    (date tx) (notes tx).
Definition set_date (tx : Transaction) (v : Z) : Transaction :=
  mkTxn (tx_id tx) (userId tx) (description tx) (amount tx) (type_ tx)
    (category tx) v (notes tx).
Definition set_notes (tx : Transaction) (v : option string) : Transaction :=
  mkTxn (tx_id tx) (userId tx) (description tx) (amount tx) (type_ tx)
    (category tx) (date tx) v.

(** The body validators of the route (each field optional).  A numeric
    [amount] is checked as a JSON number. *)
Definition body_field_valid (kv : string * JVal) : bool :=
  let '(k, v) := kv in
  if String.eqb k "description" then
    match v with JStr s => (String.length s <=? 200)%nat | _ => true end
  else if String.eqb k "amount" then
    match v with JNum q => Qle_bool (1 # 100) q | _ => false end
  else if String.eqb k "type" then
    match v with JStr s => String.eqb s "income" || String.eqb s "expense" | _ => false end
  else if String.eqb k "category" then
    match v with JStr s => (String.length s <=? 50)%nat | _ => true end
  else if String.eqb k "notes" then
    match v with JStr s => (String.length s <=? 500)%nat | _ => true end
  else if String.eqb k "date" then
    match v with JStr _ => true | _ => false end
  else true.

(** The update document [{ ...req.body, date? }] as Mongoose casts it
    path by path to the schema types ([castUpdate]): a path outside the
    schema is dropped (strict mode), a value that does not cast is a
    [CastError].  A [userId] or [_id] must cast to an [ObjectId], whose
    stored form is its lowercase hex string. *)
Inductive Setter :=
| SetUserId (v : string)
| SetId (v : string)
| SetDescription (v : string)
| SetAmount (v : Q)
| SetType (v : string)
| SetCategory (v : string)
| SetDate (v : Z)
| SetNotes (v : option string)
| Dropped.

Definition cast_path (kv : string * JVal) : Exc Setter :=
  let '(k, v) := kv in
  if String.eqb k "userId" then
    match v with
    | JStr s => if MongoId.casts_to_ObjectId s then Ok (SetUserId (toLowerCase s))
                else Throw "CastError"
    | _ => Throw "CastError"
    end
  else if String.eqb k "_id" then
    match v with
    | JStr s => if MongoId.casts_to_ObjectId s then Ok (SetId (toLowerCase s))
                else Throw "CastError"
    | _ => Throw "CastError"
    end
  else if String.eqb k "description" then
    match v with JStr s => Ok (SetDescription s) | _ => Throw "CastError" end
  else if String.eqb k "amount" then
    match v with JNum q => Ok (SetAmount q) | _ => Throw "CastError" end
  else if String.eqb k "type" then
    match v with JStr s => Ok (SetType s) | _ => Throw "CastError" end
  else if String.eqb k "category" then
    match v with JStr s => Ok (SetCategory s) | _ => Throw "CastError" end
  else if String.eqb k "date" then
    match v with JStr s => Ok (SetDate (parse_date s)) | _ => Throw "CastError" end
  else if String.eqb k "notes" then
    match v with
    | JStr s => Ok (SetNotes (Some s))
    | JNull => Ok (SetNotes None)
    | _ => Throw "CastError"
    end
  else Ok Dropped.

Fixpoint cast_update (body : list (string * JVal)) : Exc (list Setter) :=
  match body with
  | [] => Ok []
  | kv :: rest => st <- cast_path kv ;; sts <- cast_update rest ;; Ok (st :: sts)
  end.

(** [runValidators: true]: the schema validators of the updated paths,
    run before the query is sent. *)
Definition setter_valid (st : Setter) : bool :=
  match st with
  | SetDescription s => (String.length s <=? 200)%nat
  | SetAmount q => Qle_bool (1 # 100) q
  | SetType s => String.eqb s "income" || String.eqb s "expense"
  | SetNotes (Some s) => (String.length s <=? 500)%nat
  | _ => true
  end.

(** The [$set] of one path on the matched document; setting [_id] to
    another value is refused by the server. *)
Definition apply_setter (tx : Transaction) (st : Setter) : Exc Transaction :=
  match st with
  | SetUserId v => Ok (set_userId tx v)
  | SetId v => if String.eqb v (tx_id tx) then Ok tx else Throw "ImmutableField"
  | SetDescription v => Ok (set_description tx v)
  | SetAmount v => Ok (set_amount tx v)
  | SetType v => Ok (set_type tx v)
  | SetCategory v => Ok (set_category tx v)
  | SetDate v => Ok (set_date tx v)
  | SetNotes v => Ok (set_notes tx v)
  | Dropped => Ok tx
  end.

Fixpoint apply_update (tx : Transaction) (sts : list Setter) : Exc Transaction :=
  match sts with
  | [] => Ok tx
  | st :: rest => tx' <- apply_setter tx st ;; apply_update tx' rest
  end.

Fixpoint replace_by_id (store : list Transaction) (tx : Transaction) : list Transaction :=
  match store with
  | [] => []
  | t :: rest =>
      if String.eqb (tx_id t) (tx_id tx) then tx :: rest
      else t :: replace_by_id rest tx
  end.

(** The handler for the authenticated user [uid]: the route's validators
    ([param("id").isMongoId()] and the body checks) answer 400; then
    [findOneAndUpdate({ _id: id, userId }, { ...req.body, date? },
    { new: true, runValidators: true })], where a cast or validation error
    is caught and answered with 500.  Returns the new store and the updated
    document. *)
Definition put_transaction (store : list Transaction) (uid id : string)
    (body : list (string * JVal)) : Http (list Transaction * Transaction) :=
  if negb (MongoId.isMongoId id && forallb body_field_valid body) then H400 else
  if negb (MongoId.casts_to_ObjectId id) then H500 else
  match cast_update body with
  | Throw _ => H500
  | Ok sts =>
      if negb (forallb setter_valid sts) then H500 else
      match find (fun t => MongoId.same_ObjectId (tx_id t) id && String.eqb (userId t) uid) store with
      | None => H404
      | Some tx =>
          match apply_update tx sts with
          | Throw _ => H500
          | Ok tx' => H200 (replace_by_id store tx', tx')
          end
      end
  end.

End Update.

End Update.

(* ------------------------------------------------------------------ *)
(** ** The spec's wording of the parser rules, for comparison *)

Module SpecRules.
Import Fallback.

(** The first maximal digit run of a text and what follows it. *)
Fixpoint first_digit_run (s : string) : option (string * string) :=
  match s with
  | EmptyString => None
  | String c r => if is_digit c then Some (digit_run s) else first_digit_run r
  end.

(** Amount as the claim words it: the first run of digits, with a decimal
    fraction of up to two digits when one follows. *)
Definition amount_upto_two (text : string) : Q :=
  match first_digit_run text with
  | None => 0%Q
  | Some (d, rest) =>
      let whole := inject_Z (digits_value_acc 0 d) in
      match rest with
      | String p (String d1 (String d2 _)) =>
          if Ascii.eqb p "." && is_digit d1 then
            if is_digit d2
            then (whole + Qmake (10 * digit_val d1 + digit_val d2) 100)%Q
            else (whole + Qmake (digit_val d1) 10)%Q
          else whole
      | String p (String d1 EmptyString) =>
          if Ascii.eqb p "." && is_digit d1
          then (whole + Qmake (digit_val d1) 10)%Q else whole
      | _ => whole
      end
  end.

(** Amount with a fraction taken only when exactly [.] and two digits
    follow the first digit run. *)
Definition amount_two_digit_fraction (text : string) : Q :=
  match first_digit_run text with
  | None => 0%Q
  | Some (d, rest) =>
      let whole := inject_Z (digits_value_acc 0 d) in
      match rest with
      | String p (String d1 (String d2 _)) =>
          if Ascii.eqb p "." && is_digit d1 && is_digit d2
          then (whole + Qmake (10 * digit_val d1 + digit_val d2) 100)%Q
          else whole
      | _ => whole
      end
  end.

(** The keyword list of a category ([[]] for the categories without one). *)
Definition keywords_of (cat : string) : list string :=
  match find (fun e => String.eqb (fst e) cat) categoryKeywords with
  | Some (_, ks) => ks
  | None => []
  end.

(** Fallback category as the claim words it: the first category of the
    taxonomy, in [COMMON_CATEGORIES] order, with a keyword hit. *)
Definition category_in_taxonomy_order (lowerText : string) : string :=
  match find (fun cat => some_includes lowerText (keywords_of cat)) COMMON_CATEGORIES with
  | Some c => c
  | None => "Other"
  end.

(** Category normalisation as the claim words it: exact match, else
    case-insensitive exact match, else the first substring match in either
    direction, else [Other]. *)
Definition normalize_claim (candidate : string) : string :=
  if in_taxonomy candidate then candidate else
  let l := toLowerCase candidate in
  match find (fun cat => String.eqb (toLowerCase cat) l) COMMON_CATEGORIES with
  | Some c => c
  | None =>
      match find (fun cat => includes (toLowerCase cat) l || includes l (toLowerCase cat))
              COMMON_CATEGORIES with
      | Some c => c
      | None => "Other"
      end
  end.

(** The same cascade ending in the fallback parser's category for the
    original text instead of [Other]. *)
Definition normalize_with_fallback (today candidate originalText : string) : string :=
  if in_taxonomy candidate then candidate else
  let l := toLowerCase candidate in
  match find (fun cat => String.eqb (toLowerCase cat) l) COMMON_CATEGORIES with
  | Some c => c
  | None =>
      match find (fun cat => includes (toLowerCase cat) l || includes l (toLowerCase cat))
              COMMON_CATEGORIES with
      | Some c => c
      | None => pt_category (simpleParseTransaction today originalText)
      end
  end.

End SpecRules.

(* ------------------------------------------------------------------ *)
(** ** Sample data for the concrete runs below *)

Module Samples.

(** 2024-03-15 12:00 *)
Definition now0 : Z := Cal.MakeDate (Cal.days_from_civil 2024 3 15) 43200000.

Definition at_day (y m d : Z) (ms : Z) : Z := Cal.MakeDate (Cal.days_from_civil y m d) ms.

(** An owner with an income in January and one this week. *)
Definition store_week : list Transaction :=
  [ mkTxn "t1" "u1" "January salary" 100 "income" "Salary" (at_day 2024 1 10 0) None;
    mkTxn "t2" "u1" "Freelance job" 50 "income" "Freelance" (at_day 2024 3 12 0) None ].

(** An owner with an income on the last day of February at 10:00 and one
    in March. *)
Definition store_month : list Transaction :=
  [ mkTxn "t3" "u1" "February bonus" 80 "income" "Salary" (at_day 2024 2 29 36000000) None;
    mkTxn "t4" "u1" "March salary" 100 "income" "Salary" (at_day 2024 3 5 0) None ].

(** A transaction of the owner [owner1] (ids as stored [ObjectId]s). *)
Definition owner1 : string := "65f1c0a2b3d4e5f6000000a1".
Definition owner2 : string := "65f1c0a2b3d4e5f6000000b2".
Definition tx1 : string := "65f1c0a2b3d4e5f601234567".

Definition store_owned : list Transaction :=
  [ mkTxn tx1 owner1 "Lunch" 12 "expense" "Food & Dining" (at_day 2024 3 14 0) None ].

End Samples.

(* ------------------------------------------------------------------ *)
(** ** Number formatting *)

Module Num.
Open Scope Z_scope.

(** The decimal digit character of [0 <= n < 10]. *)
Definition digit (n : Z) : ascii := ascii_of_nat (48 + Z.to_nat n).

(** The [w] last decimal digits of [n >= 0], zero-padded to width [w]. *)
Fixpoint pad_fixed (w : nat) (n : Z) : string :=
  match w with
  | O => EmptyString
  | S w' => pad_fixed w' (n / 10) ++ String (digit (n mod 10)) EmptyString
  end.

Fixpoint dec_fuel (fuel : nat) (n : Z) : string :=
  match fuel with
  | O => EmptyString
  | S f =>
      if n <? 10 then String (digit n) EmptyString
      else dec_fuel f (n / 10) ++ String (digit (n mod 10)) EmptyString
  end.

(** The decimal digits of [n >= 0], without leading zeros; a number has
    at most [log2 n + 1] of them. *)
Definition dec (n : Z) : string := dec_fuel (S (Z.to_nat (Z.log2 n))) n.

(** [String(n)] for an integer [n]. *)
Definition int_to_string (n : Z) : string :=
  if n <? 0 then "-" ++ dec (- n) else dec n.

Fixpoint zeros (k : nat) : string :=
  match k with
  | O => EmptyString
  | S k' => String "0" (zeros k')
  end.

(** [s.padStart(w, "0")] *)
Definition padStart0 (w : nat) (s : string) : string :=
  zeros (w - String.length s) ++ s.

(** Steps 8-10 of [Number.prototype.toFixed(f)] for [0 <= x < 10^21]: [n]
    is the integer nearest to [x * 10^f], the larger one on a tie. *)
Definition toFixed_abs (f : nat) (x : Q) : string :=
  let n := Qfloor (x * inject_Z (10 ^ Z.of_nat f) + Qmake 1 2) in
  let m := dec n in
  if Nat.eqb f 0 then m else
  let m' := if (String.length m <=? f)%nat
            then zeros (f + 1 - String.length m) ++ m else m in
  let k := String.length m' in
  substring 0 (k - f) m' ++ "." ++ substring (k - f) f m'.

Section ToFixed.

(** [Number::toString(x)], used by [toFixed] from [10^21] on. *)
Variable number_toString : Q -> string.

(** [x.toFixed(f)] *)
Definition toFixed (f : nat) (x : Q) : string :=
  let s := if Qle_bool 0 x then "" else "-" in
  let x' := if Qle_bool 0 x then x else Qopp x in
  if Qle_bool (inject_Z (10 ^ 21)) x' then s ++ number_toString x'
  else s ++ toFixed_abs f x'.

End ToFixed.

(** [Math.round(x)] *)
Definition round (x : Q) : Z := Qfloor (x + Qmake 1 2).

End Num.

(** [a < b] on numbers. *)
Definition Qltb (a b : Q) : bool := negb (Qle_bool b a).

(* ------------------------------------------------------------------ *)
(** ** Collections: grouping, sorting, objects *)

Module Coll.

(** The stages [$group] below: the documents of each key, keys in order
    of first occurrence (the order of [$group] output is not specified by
    MongoDB; the sorts that follow fix it). *)
Fixpoint group_add {K A : Type} (eqK : K -> K -> bool) (k : K) (x : A)
    (groups : list (K * list A)) : list (K * list A) :=
  match groups with
  | [] => [(k, [x])]
  | (k', xs) :: rest =>
      if eqK k' k then (k', (xs ++ [x])%list) :: rest
      else (k', xs) :: group_add eqK k x rest
  end.

Definition group_by {K A : Type} (eqK : K -> K -> bool) (key : A -> K)
    (xs : list A) : list (K * list A) :=
  fold_left (fun acc x => group_add eqK (key x) x acc) xs [].

(** A stable insertion sort; [before a b] holds when [a] may come first. *)
Fixpoint insert {A : Type} (before : A -> A -> bool) (x : A) (l : list A) : list A :=
  match l with
  | [] => [x]
  | y :: r => if before y x then y :: insert before x r else x :: l
  end.

Definition sort {A : Type} (before : A -> A -> bool) (l : list A) : list A :=
  fold_left (fun acc x => insert before x acc) l [].

(** [$sum] of rationals *)
Definition sumQ (l : list Q) : Q := fold_right Qplus 0%Q l.

(** A JS object with string (non-index) keys, as its own keys in order. *)
Definition Obj (V : Type) := list (string * V).

(** [o[k] = v]: an existing key keeps its place. *)
Fixpoint set_key {V : Type} (k : string) (v : V) (o : Obj V) : Obj V :=
  match o with
  | [] => [(k, v)]
  | (k', v') :: rest =>
      if String.eqb k' k then (k', v) :: rest else (k', v') :: set_key k v rest
  end.

(** [{ ...o1, ...o2 }] *)
Definition spread {V : Type} (o1 o2 : Obj V) : Obj V :=
  fold_left (fun acc kv => set_key (fst kv) (snd kv) acc) (o1 ++ o2)%list [].

(** [o[k]], [None] for [undefined]. *)
Definition lookup {V : Type} (k : string) (o : Obj V) : option V :=
  match find (fun kv => String.eqb (fst kv) k) o with
  | Some (_, v) => Some v
  | None => None
  end.

(** [findOneAndDelete]: the first document satisfying [p], and the
    collection without it. *)
Fixpoint remove_first {A : Type} (p : A -> bool) (l : list A) : option (A * list A) :=
  match l with
  | [] => None
  | x :: r =>
      if p x then Some (x, r)
      else match remove_first p r with
           | Some (y, r') => Some (y, x :: r')
           | None => None
           end
  end.

End Coll.

(* ------------------------------------------------------------------ *)
(** ** The transaction router: read, delete, create *)

Module TxRoutes.
Import Coll MongoId.

(** The filter [{ _id: id, userId }]: the id is cast to an [ObjectId]
    before it is compared; [uid] is the authenticated user's [_id]. *)
Definition owned (uid id : string) (t : Transaction) : bool :=
  same_ObjectId (tx_id t) id && String.eqb (userId t) uid.

(** [GET /api/transactions/:id]: [findOne({ _id: id, userId })]; a cast
    error is caught and answered with 500. *)
Definition get_transaction (store : list Transaction) (uid id : string)
    : Http Transaction :=
  if negb (isMongoId id) then H400 else
  if negb (casts_to_ObjectId id) then H500 else
  match find (owned uid id) store with
  | Some t => H200 t
  | None => H404
  end.

(** [DELETE /api/transactions/:id]: [findOneAndDelete({ _id: id, userId })];
    the new collection and the deleted document. *)
Definition delete_transaction (store : list Transaction) (uid id : string)
    : Http (list Transaction * Transaction) :=
  if negb (isMongoId id) then H400 else
  if negb (casts_to_ObjectId id) then H500 else
  match remove_first (owned uid id) store with
  | Some (t, store') => H200 (store', t)
  | None => H404
  end.

(** Values of the documents built by the create routes: a request body
    value, the authenticated user's id, or a [Date]. *)
Inductive DocVal :=
| BodyVal (v : JVal)
| OwnerRef (uid : string)
| DateVal (t : Z).

Section Create.

(** [new Date(v)] for a body date that passed [isISO8601()]. *)
Variable new_Date : JVal -> Z.

(** [req.body.date ? new Date(req.body.date) : new Date()] *)
Definition date_or_now (now : Z) (body : Obj JVal) : Z :=
  match lookup "date" body with
  | Some v => if JS.truthy v then new_Date v else now
  | None => now
  end.

(** [POST /api/transactions]: the [transactionData] handed to
    [new Transaction(...)]. *)
Definition create_data (uid : string) (now : Z) (body : Obj JVal) : Obj DocVal :=
  spread (map (fun kv => (fst kv, BodyVal (snd kv))) body)
    [("userId", OwnerRef uid); ("date", DateVal (date_or_now now body))].

(** [POST /api/transactions/bulk]: the [transactionData] array handed to
    [insertMany]. *)
Definition bulk_data (uid : string) (now : Z) (transactions : list (Obj JVal))
    : list (Obj DocVal) :=
  map (create_data uid now) transactions.

End Create.

(** [GET /api/transactions/categories/list]: [$match { userId }],
    [$group] by category with [count: { $sum: 1 }], [$sort { count: -1 }]. *)
Definition categories_list (store : list Transaction) (uid : string)
    : list (string * nat) :=
  sort (fun a b => (snd b <=? snd a)%nat)
    (map (fun g => (fst g, List.length (snd g)))
       (group_by String.eqb category
          (filter (fun t => String.eqb (userId t) uid) store))).

End TxRoutes.

(* ------------------------------------------------------------------ *)
(** ** [GET /api/transactions]: filters and pagination *)

Module ListRoute.
Import Coll.

(** The query after validation and sanitising: [page] and [limit] are the
    integer values of strings that passed [isInt()], [category] and
    [search] are trimmed strings, dates are the time values of
    [new Date(...)]. *)
Record ListQuery := mkListQuery {
  lq_page : option Z;
  lq_limit : option Z;
  lq_category : option string;
  lq_type : option string;
  lq_startDate : option Z;
  lq_endDate : option Z;
  lq_search : option string
}.

(** The validators of the route. *)
Definition list_query_valid (q : ListQuery) : bool :=
  match lq_page q with Some p => (1 <=? p)%Z | None => true end
  && match lq_limit q with Some l => (1 <=? l)%Z && (l <=? 100)%Z | None => true end
  && match lq_type q with
     | Some t => String.eqb t "income" || String.eqb t "expense"
     | None => true
     end.

Definition truthy_str (s : option string) : option string :=
  match s with
  | Some x => if String.eqb x "" then None else Some x
  | None => None
  end.

(** [Transaction.find(filter).sort({ date: -1, createdAt: -1 })]: the
    collection is kept in creation order, so the newest-first order of
    equal dates is the reversed collection order. *)
Definition newest_first (txs : list Transaction) : list Transaction :=
  sort (fun a b => (date b <=? date a)%Z) (rev txs).

(** [Math.ceil(total / limit)] *)
Definition ceil_div (total limit : Z) : Z :=
  Qceiling (inject_Z total / inject_Z limit).

Record ListResponse := mkListResponse {
  lr_transactions : list Transaction;
  lr_currentPage : Z;
  lr_totalPages : Z;
  lr_totalTransactions : Z;
  lr_hasNextPage : bool;
  lr_hasPrevPage : bool;
  lr_limit : Z
}.

Section ListRoute.

(** [new RegExp(src, "i")] does not throw, and the case-insensitive
    [$regex] test of a field value. *)
Variable regex_valid : string -> bool.
Variable regex_test : string -> string -> bool.

(** The [filter] object of the handler, as a test on a document. *)
Definition list_match (uid : string) (q : ListQuery) (t : Transaction) : bool :=
  String.eqb (userId t) uid
  && match truthy_str (lq_category q) with
     | Some c => regex_test c (category t)
     | None => true
     end
  && match lq_type q with
     | Some ty => if String.eqb ty "" then true else String.eqb (type_ t) ty
     | None => true
     end
  && match truthy_str (lq_search q) with
     | Some s =>
         regex_test s (description t) || regex_test s (category t)
         || match notes t with Some n => regex_test s n | None => false end
     | None => true
     end
  && match lq_startDate q with Some s => (s <=? date t)%Z | None => true end
  && match lq_endDate q with Some e => (date t <=? e)%Z | None => true end.

Definition regexes_valid (q : ListQuery) : bool :=
  match truthy_str (lq_category q) with Some c => regex_valid c | None => true end
  && match truthy_str (lq_search q) with Some s => regex_valid s | None => true end.

(** The handler. *)
Definition list_route (store : list Transaction) (uid : string) (q : ListQuery)
    : Http ListResponse :=
  if negb (list_query_valid q) then H400 else
  if negb (regexes_valid q) then H500 else
  let page := match lq_page q with Some p => p | None => 1%Z end in
  let limit := match lq_limit q with Some l => l | None => 50%Z end in
  let skip := ((page - 1) * limit)%Z in
  let matches := filter (list_match uid q) store in
  let transactions :=
    firstn (Z.to_nat limit) (skipn (Z.to_nat skip) (newest_first matches)) in
  let total := Z.of_nat (List.length matches) in
  let totalPages := ceil_div total limit in
  H200 (mkListResponse transactions page totalPages total
          (page <? totalPages)%Z (1 <? page)%Z limit).

End ListRoute.

Definition with_page (q : ListQuery) (p : Z) : ListQuery :=
  mkListQuery (Some p) (lq_limit q) (lq_category q) (lq_type q)
    (lq_startDate q) (lq_endDate q) (lq_search q).

End ListRoute.

(* ------------------------------------------------------------------ *)
(** ** [transactionSchema]: methods *)

Module Schema.
Import Cal.

(** [t.isCurrentMonth()] at time [now] *)
Definition isCurrentMonth (t : Transaction) (now : Z) : bool :=
  (getMonth (date t) =? getMonth now)%Z && (getFullYear (date t) =? getFullYear now)%Z.

End Schema.

(* ------------------------------------------------------------------ *)
(** ** [GET /api/analytics/patterns] and [generatePatternInsights] *)

Module Patterns.
Import Cal Coll.

(** [$dayOfWeek] (1 = Sunday), [$dayOfMonth] and [$week] (weeks start on
    Sunday; days before the first Sunday of the year are week 0), in UTC. *)
Definition dayOfWeek (t : Z) : Z := (Day t + 4) mod 7 + 1.
Definition dayOfMonth (t : Z) : Z := getDate t.
Definition week (t : Z) : Z :=
  let doy0 := Day t - days_from_civil (getFullYear t) 1 1 in
  (doy0 + 7 - (dayOfWeek t - 1)) / 7.

Record DayPattern := mkDayPattern {
  dp_day : string;
  dp_dayNumber : Z;
  dp_totalSpent : Q;
  dp_transactionCount : nat;
  dp_averageAmount : Q
}.

Record MonthPattern := mkMonthPattern {
  mp_week : Z;
  mp_totalSpent : Q;
  mp_transactionCount : nat
}.

Record WeekEntry := mkWeekEntry { we_week : Z; we_amount : Q; we_count : nat }.

Record CategoryTrend := mkCategoryTrend {
  ct_id : string;
  ct_weeks : list WeekEntry;
  ct_totalAmount : Q;
  ct_totalCount : nat
}.

Record Insight := mkInsight {
  in_type : string;
  in_title : string;
  in_message : string;
  in_recommendation : string
}.

Definition dayNames : list string :=
  ["Sunday"; "Monday"; "Tuesday"; "Wednesday"; "Thursday"; "Friday"; "Saturday"].

Section Patterns.

Variable number_toString : Q -> string.

(** [dayPatterns.reduce((max, day) => day.totalSpent > max.totalSpent ?
    day : max, dayPatterns[0] || { totalSpent: 0 })]; [None] is the
    placeholder object of an empty array. *)
Definition highestSpendingDay (dayPatterns : list DayPattern) : option DayPattern :=
  match dayPatterns with
  | [] => None
  | d0 :: _ =>
      Some (fold_left (fun max day =>
              if Qltb (dp_totalSpent max) (dp_totalSpent day) then day else max)
              dayPatterns d0)
  end.

(** [generatePatternInsights(dayPatterns, monthPatterns, categoryTrends)] *)
Definition generatePatternInsights (dayPatterns : list DayPattern)
    (monthPatterns : list MonthPattern) (categoryTrends : list CategoryTrend)
    : list Insight :=
  let peak :=
    match highestSpendingDay dayPatterns with
    | Some d =>
        if Qltb 0 (dp_totalSpent d) then
          [mkInsight "info" "Peak Spending Day"
             ("You spend the most on " ++ dp_day d ++ "s ($"
              ++ Num.toFixed number_toString 2 (dp_totalSpent d) ++ " total)")
             ("Consider budgeting extra for " ++ dp_day d
              ++ "s or planning major purchases for lower-spending days.")]
        else []
    | None => []
    end in
  let top :=
    match categoryTrends with
    | c :: _ =>
        [mkInsight "info" "Most Active Category"
           (ct_id c ++ " is your most frequent spending category ("
            ++ Num.int_to_string (Z.of_nat (ct_totalCount c)) ++ " transactions)")
           ("Look for optimization opportunities in " ++ ct_id c
            ++ " to maximize your savings.")]
    | [] => []
    end in
  let irregular :=
    if (1 <? List.length monthPatterns)%nat then
      let weeklyAmounts := map mp_totalSpent monthPatterns in
      let avgWeekly := (sumQ weeklyAmounts
                        / inject_Z (Z.of_nat (List.length weeklyAmounts)))%Q in
      if existsb (fun a => Qltb (avgWeekly * Qmake 3 10) (Qabs (a - avgWeekly)))
           weeklyAmounts
      then [mkInsight "warning" "Irregular Spending Pattern"
              "Your weekly spending varies significantly throughout the month"
              "Consider creating a weekly budget to smooth out spending patterns."]
      else []
    else [] in
  (peak ++ top ++ irregular)%list.

(** The three aggregations of the route over the owner's documents of the
    last 30 days, and the formatting of [dayPatterns]. *)
Definition patterns_route (store : list Transaction) (uid : string) (now : Z)
    : list DayPattern * list MonthPattern * list CategoryTrend * list Insight :=
  let thirtyDaysAgo := (now - 30 * 24 * 60 * 60 * 1000)%Z in
  let recent := filter (fun t => String.eqb (userId t) uid
                                 && (thirtyDaysAgo <=? date t)%Z) store in
  let expenses := filter (fun t => String.eqb (type_ t) "expense") recent in
  let dayPatterns :=
    sort (fun a b => (fst (fst a) <=? fst (fst b))%Z)
      (map (fun g => let total := sumQ (map amount (snd g)) in
                     let n := List.length (snd g) in
                     ((fst g, total), (n, (total / inject_Z (Z.of_nat n))%Q)))
         (group_by Z.eqb (fun t => dayOfWeek (date t)) expenses)) in
  let formattedDayPatterns :=
    map (fun p => let '((id, total), (n, avg)) := p in
                  mkDayPattern (nth (Z.to_nat (id - 1)) dayNames "") id total n
                    (inject_Z (Num.round (avg * 100)) / 100)%Q)
      dayPatterns in
  let monthPatterns :=
    sort (fun a b => (mp_week a <=? mp_week b)%Z)
      (map (fun g => mkMonthPattern (fst g) (sumQ (map amount (snd g)))
                       (List.length (snd g)))
         (group_by Z.eqb
            (fun t => Qceiling (inject_Z (dayOfMonth (date t)) / 7)) expenses)) in
  let byCategoryWeek :=
    map (fun g => (fst g, (sumQ (map amount (snd g)), List.length (snd g))))
      (group_by (fun a b => String.eqb (fst a) (fst b) && Z.eqb (snd a) (snd b))
         (fun t => (category t, week (date t))) recent) in
  let categoryTrends :=
    sort (fun a b => Qle_bool (ct_totalAmount b) (ct_totalAmount a))
      (map (fun g =>
              let ws := map (fun e => mkWeekEntry (snd (fst e)) (fst (snd e))
                                        (snd (snd e))) (snd g) in
              mkCategoryTrend (fst g) ws (sumQ (map we_amount ws))
                (fold_right Nat.add 0%nat (map we_count ws)))
         (group_by String.eqb (fun e => fst (fst e)) byCategoryWeek)) in
  (formattedDayPatterns, monthPatterns, firstn 10 categoryTrends,
   generatePatternInsights formattedDayPatterns monthPatterns categoryTrends).

End Patterns.

End Patterns.

(* ------------------------------------------------------------------ *)
(** ** [GET /api/analytics/insights] *)

Module InsightsRoute.
Import Cal Coll Patterns.

Record MonthTotals := mkMonthTotals { mt_income : Q; mt_expenses : Q; mt_net : Q }.

Record InsightsResult := mkInsightsResult {
  ir_insights : list Insight;
  ir_currentMonth : MonthTotals;
  ir_lastMonth : MonthTotals;
  ir_topCategories : list (string * Q * nat)
}.

(** The month boundaries of the handler. *)
Definition currentMonthStart (now : Z) : Z := new_Date3 (getFullYear now) (getMonth now) 1.
Definition lastMonthStart (now : Z) : Z := new_Date3 (getFullYear now) (getMonth now - 1) 1.
Definition lastMonthEnd (now : Z) : Z := new_Date3 (getFullYear now) (getMonth now) 0.

Section Insights.

Variable number_toString : Q -> string.

(** The insights computed from the month totals and the top categories. *)
Definition insights_of (currentIncome currentExpenses lastExpenses : Q)
    (topCategories : list (string * Q * nat)) : list Insight :=
  let trend :=
    if Qltb 0 lastExpenses then
      let expenseChange := ((currentExpenses - lastExpenses) / lastExpenses * 100)%Q in
      if Qltb 10 expenseChange then
        [mkInsight "warning" "Increased Spending"
           ("Your expenses have increased by "
            ++ Num.toFixed number_toString 1 expenseChange ++ "% compared to last month.")
           "Review your spending patterns and consider budgeting for the categories where you spend the most."]
      else if Qltb expenseChange (-10) then
        [mkInsight "positive" "Great Savings"
           ("You've reduced your expenses by "
            ++ Num.toFixed number_toString 1 (Qabs expenseChange) ++ "% compared to last month!")
           "Keep up the good work! Consider investing the savings."]
      else []
    else [] in
  let top :=
    match topCategories with
    | (c, total, _) :: _ =>
        [mkInsight "info" "Top Spending Category"
           ("You've spent $" ++ Num.toFixed number_toString 2 total ++ " on " ++ c
            ++ " this month.")
           ("This represents your largest expense category. Consider if there are ways to optimize spending on "
            ++ c ++ ".")]
    | [] => []
    end in
  let savings :=
    if Qltb 0 currentIncome then
      let savingsRate := ((currentIncome - currentExpenses) / currentIncome * 100)%Q in
      if Qltb 20 savingsRate then
        [mkInsight "positive" "Excellent Savings Rate"
           ("You're saving " ++ Num.toFixed number_toString 1 savingsRate
            ++ "% of your income this month!")
           "Consider investing your surplus or building an emergency fund."]
      else if Qltb savingsRate 0 then
        [mkInsight "warning" "Spending More Than Earning"
           "Your expenses exceed your income this month."
           "Review your expenses and create a budget to get back on track."]
      else []
    else [] in
  (trend ++ top ++ savings)%list.

(** The handler for the owner [uid] at time [now]. *)
Definition insights_route (store : list Transaction) (uid : string) (now : Z)
    : InsightsResult :=
  let cms := currentMonthStart now in
  let lms := lastMonthStart now in
  let lme := lastMonthEnd now in
  let owned := filter (fun t => String.eqb (userId t) uid) store in
  let current := filter (fun t => (cms <=? date t)%Z) owned in
  let last := filter (fun t => (lms <=? date t)%Z && (date t <=? lme)%Z) owned in
  let topCategories :=
    firstn 5
      (sort (fun a b => Qle_bool (snd (fst b)) (snd (fst a)))
         (map (fun g => (fst g, sumQ (map amount (snd g)), List.length (snd g)))
            (group_by String.eqb category
               (filter (fun t => String.eqb (type_ t) "expense") current)))) in
  let currentIncome := Summary.total_of "income" current in
  let currentExpenses := Summary.total_of "expense" current in
  let lastIncome := Summary.total_of "income" last in
  let lastExpenses := Summary.total_of "expense" last in
  mkInsightsResult
    (insights_of currentIncome currentExpenses lastExpenses topCategories)
    (mkMonthTotals currentIncome currentExpenses (currentIncome - currentExpenses))
    (mkMonthTotals lastIncome lastExpenses (lastIncome - lastExpenses))
    topCategories.

End Insights.

End InsightsRoute.

(* ------------------------------------------------------------------ *)
(** ** Dashboard time filter ([frontend/src/utils/dateUtils.ts]) *)

Module Dashboard.
Import Cal Analytics.

Inductive TimePeriod := Today | Week | Month | Last30 | Year | All.

(** [d.toISOString().split("T")[0]] *)
Definition isoDate (t : Z) : string :=
  let '(y, m, d) := civil_from_days (Day t) in
  let year := if (0 <=? y) && (y <=? 9999) then Num.pad_fixed 4 y
              else (if y <? 0 then "-" else "+") ++ Num.pad_fixed 6 (Z.abs y) in
  year ++ "-" ++ Num.pad_fixed 2 m ++ "-" ++ Num.pad_fixed 2 d.

(** [new Date("YYYY-MM-DD")]: a date-only form is read as UTC midnight;
    [None] is an invalid date. *)
Definition parse_ymd (s : string) : option Z :=
  match s with
  | String y1 (String y2 (String y3 (String y4 (String _
      (String m1 (String m2 (String _ (String d1 (String d2 EmptyString))))))))) =>
      if JS.ymd_shape s then
        let dv := Fallback.digit_val in
        let y := 1000 * dv y1 + 100 * dv y2 + 10 * dv y3 + dv y4 in
        let m := 10 * dv m1 + dv m2 in
        let d := 10 * dv d1 + dv d2 in
        if (1 <=? m) && (m <=? 12) && (1 <=? d) && (d <=? 31)
        then Some (MakeDate (MakeDay y (m - 1) d) 0) else None
      else None
  | _ => None
  end.

Record Filters := mkFilters {
  f_period : option string;
  f_startDate : option string;
  f_endDate : option string
}.

Section Browser.

(** The browser's offset of local time from UTC in milliseconds (a fixed
    offset, no daylight saving): ECMAScript's [LocalTime(t) = t + tz] and
    [UTC(t) = t - tz]. *)
Variable tz : Z.

(** [new Date(y, m, d)]: local midnight, as a time value *)
Definition local_Date3 (y m d : Z) : Z := new_Date3 y m d - tz.

(** [t.setDate(dt)] in local time *)
Definition local_setDate (t dt : Z) : Z := setDate (t + tz) dt - tz.

(** [getDateRangeFromPeriod(period)] at time [now]; the local fields of
    [now] and [today] are read with [getFullYear], [getMonth] and [getDate]
    of the local time, [toISOString] works in UTC. *)
Definition getDateRangeFromPeriod (period : TimePeriod) (now : Z) : Filters :=
  let today := local_Date3 (getFullYear (now + tz)) (getMonth (now + tz)) (getDate (now + tz)) in
  match period with
  | Today => mkFilters None (Some (isoDate today)) (Some (isoDate today))
  | Week =>
      let weekStart := local_setDate today (getDate (today + tz) - 7) in
      mkFilters None (Some (isoDate weekStart)) (Some (isoDate today))
  | Month => mkFilters (Some "month") None None
  | Last30 =>
      let thirtyDaysAgo := local_setDate today (getDate (today + tz) - 30) in
      mkFilters None (Some (isoDate thirtyDaysAgo)) (Some (isoDate today))
  | Year => mkFilters (Some "year") None None
  | All => mkFilters (Some "all") None None
  end.

End Browser.

(** [analyticsService.getSummary(filters)] as the summary route reads it:
    the query parameters, with the dates as [new Date(...)]; [None] when a
    date does not parse. *)
Definition summary_query (f : Filters) : option AnalyticsQuery :=
  let parse o := match o with
                 | Some s => match parse_ymd s with Some t => Some (Some t) | None => None end
                 | None => Some None
                 end in
  match parse (f_startDate f), parse (f_endDate f) with
  | Some s, Some e => Some (mkQuery (f_period f) s e)
  | _, _ => None
  end.

End Dashboard.

(* ------------------------------------------------------------------ *)
(** ** Sample data for the concrete runs of the properties below *)

Module ExtSamples.
Import Coll.

Definition id1 : string := "65f1c0a2b3d4e5f601234567".
Definition id2 : string := "65f1c0a2b3d4e5f601234568".

(** Two users' transactions. *)
Definition store2 : list Transaction :=
  [ mkTxn id1 "u1" "Lunch" 12 "expense" "Food & Dining" (Samples.at_day 2024 3 14 0) None;
    mkTxn id2 "u2" "Rent" 900 "expense" "Bills & Utilities" (Samples.at_day 2024 3 1 0) None ].

(** Seven transactions of [u1] over two weeks of March 2024. *)
Definition store7 : list Transaction :=
  [ mkTxn "a1" "u1" "Salary" 3000 "income" "Salary" (Samples.at_day 2024 3 1 0) None;
    mkTxn "a2" "u1" "Groceries" 80 "expense" "Groceries" (Samples.at_day 2024 3 2 0) None;
    mkTxn "a3" "u1" "Coffee" 4 "expense" "Food & Dining" (Samples.at_day 2024 3 3 0) None;
    mkTxn "a4" "u1" "Bus" 3 "expense" "Transportation" (Samples.at_day 2024 3 4 0) None;
    mkTxn "a5" "u1" "Dinner" 45 "expense" "Food & Dining" (Samples.at_day 2024 3 9 0) None;
    mkTxn "a6" "u1" "Cinema" 20 "expense" "Entertainment" (Samples.at_day 2024 3 10 0) None;
    mkTxn "a7" "u1" "Rent" 1200 "expense" "Bills & Utilities" (Samples.at_day 2024 3 12 0) None ].

(** An income of 100 and an expense of 900 this month. *)
Definition store_over : list Transaction :=
  [ mkTxn "b1" "u1" "Pay" 100 "income" "Salary" (Samples.at_day 2024 3 1 0) None;
    mkTxn "b2" "u1" "Rent" 900 "expense" "Bills & Utilities" (Samples.at_day 2024 3 2 0) None ].

Definition list_query1 : ListRoute.ListQuery :=
  ListRoute.mkListQuery (Some 1%Z) (Some 3%Z) None (Some "expense") None None None.

End ExtSamples.

(* ================================================================== *)
(** * Properties *)

(* ------------------------------------------------------------------ *)
(** ** Fallback parser *)

Module FallbackFacts.
Import Fallback.

Lemma scan_categories_first (l : string) (entries : list (string * list string)) :
  (exists pre ks post,
      entries = (pre ++ (scan_categories l entries, ks) :: post)%list /\
      some_includes l ks = true /\
      (forall e, In e pre -> some_includes l (snd e) = false))
  \/ (scan_categories l entries = "Other" /\
      forall e, In e entries -> some_includes l (snd e) = false).
Proof.
  induction entries as [| [cat ks] rest IH]; simpl.
  - right; split; [reflexivity | intros e []].
  - destruct (some_includes l ks) eqn:Hk.
    + left; exists [], ks, rest; split; [reflexivity|]; split; [assumption|].
      intros e [].
    + destruct IH as [(pre & ks' & post & Heq & Hhit & Hpre) | [Hother Hnone]].
      * left; exists ((cat, ks) :: pre), ks', post.
        split; [simpl; f_equal; exact Heq |].
        split; [exact Hhit |].
        intros e [<- | He]; auto.
      * right; split; [assumption |].
        intros e [<- | He]; auto.
Qed.

Lemma in_taxonomy_In (c : string) : In c COMMON_CATEGORIES -> in_taxonomy c = true.
Proof.
  intro H; unfold in_taxonomy; apply existsb_exists; exists c.
  split; [assumption | apply String.eqb_refl].
Qed.

Lemma table_categories_in_taxonomy :
  forallb in_taxonomy (map fst categoryKeywords) = true.
Proof. reflexivity. Qed.

Lemma scan_in_taxonomy (l : string) :
  in_taxonomy (scan_categories l categoryKeywords) = true.
Proof.
  destruct (scan_categories_first l categoryKeywords)
    as [(pre & ks & post & Heq & _ & _) | [Hother _]].
  - pose proof table_categories_in_taxonomy as H.
    rewrite forallb_forall in H; apply H.
    pose proof (in_elt (scan_categories l categoryKeywords, ks) pre post) as Hin.
    rewrite <- Heq in Hin; exact (in_map fst _ _ Hin).
  - rewrite Hother; reflexivity.
Qed.

Lemma digits_value_acc_nonneg (acc : Z) (s : string) :
  (0 <= acc)%Z -> (0 <= digits_value_acc acc s)%Z.
Proof.
  revert acc; induction s as [| c r IH]; intros acc Hacc; cbn [digits_value_acc]; [assumption|].
  apply IH; unfold digit_val; lia.
Qed.

Lemma parseFloat_capture_nonneg (g : string) : (0 <= parseFloat_capture g)%Q.
Proof.
  unfold parseFloat_capture; destruct (digit_run g) as [d rest].
  assert (Hd : (0 <= inject_Z (digits_value_acc 0 d))%Q).
  { rewrite <- inject_Z_0 at 1 || idtac.
    unfold Qle; simpl; pose proof (digits_value_acc_nonneg 0 d (Z.le_refl 0)); lia. }
  destruct rest as [| p [| d1 [| d2 r]]]; try exact Hd.
  pose proof (digits_value_acc_nonneg 0 d (Z.le_refl 0)).
  unfold Qle, Qplus, inject_Z; cbn [Qnum Qden]; unfold digit_val; lia.
Qed.

Lemma simple_amount_nonneg (today text : string) :
  (0 <= pt_amount (simpleParseTransaction today text))%Q.
Proof.
  unfold simpleParseTransaction; simpl.
  destruct (amountMatch text); [apply parseFloat_capture_nonneg | apply Qle_refl].
Qed.

Lemma simple_well_formed (today text : string) :
  well_formed (simpleParseTransaction today text).
Proof.
  split; [apply scan_in_taxonomy|]; split; [| apply simple_amount_nonneg].
  unfold simpleParseTransaction; cbn [pt_type].
  destruct (some_includes (toLowerCase text) incomeKeywords); [left | right]; reflexivity.
Qed.

End FallbackFacts.

(* ------------------------------------------------------------------ *)
(** ** AI parser adapter *)

Module AIFacts.

Lemma find_in_taxonomy (p : string -> bool) (c : string) :
  find p COMMON_CATEGORIES = Some c -> in_taxonomy c = true.
Proof.
  intro H; apply FallbackFacts.in_taxonomy_In.
  exact (proj1 (find_some p COMMON_CATEGORIES H)).
Qed.

Lemma category_lookup_in_taxonomy (lc : option string) (today text c : string) :
  match find (close_match lc) COMMON_CATEGORIES with
  | Some m => Ok m
  | None => Ok (pt_category (simpleParseTransaction today text))
  end = Ok c -> in_taxonomy c = true.
Proof.
  destruct (find (close_match lc) COMMON_CATEGORIES) eqn:E; intro H;
    injection H as <-.
  - exact (find_in_taxonomy _ _ E).
  - apply FallbackFacts.scan_in_taxonomy.
Qed.

Lemma validCategory_in_taxonomy (today : string) (v : JVal) (text c : string) :
  validCategory today v text = Ok c -> in_taxonomy c = true.
Proof.
  unfold validCategory, exc_bind, JS.opt_toLowerCase; intro H.
  destruct v as [| | b | q | s | xs | fs]; cbv beta iota in H;
    try discriminate;
    try (match type of H with
         | context [close_match ?lc] =>
             exact (category_lookup_in_taxonomy lc today text c H)
         end).
  destruct (JS.truthy (JStr s) && in_taxonomy s) eqn:E.
  - injection H as <-; exact (proj2 (andb_prop _ _ E)).
  - exact (category_lookup_in_taxonomy (Some (toLowerCase s)) today text c H).
Qed.

Lemma enhance_well_formed pf ts dp (today : string) (v : JVal) (text : string)
    (r : ParsedTransaction) :
  enhanceTransaction pf ts dp today v text = Ok r -> well_formed r.
Proof.
  unfold enhanceTransaction; intro H.
  destruct (JS.get v "category") as [cat|]; cbn [exc_bind] in H; [|discriminate].
  destruct (validCategory today cat text) as [c|] eqn:Hc;
    cbn [exc_bind] in H; [|discriminate].
  destruct (JS.get v "amount") as [a|]; cbn [exc_bind] in H; [|discriminate].
  destruct (JS.get v "description") as [d|]; cbn [exc_bind] in H; [|discriminate].
  destruct (JS.get v "type") as [t|]; cbn [exc_bind] in H; [|discriminate].
  destruct (JS.get v "date") as [dt|]; cbn [exc_bind] in H; [|discriminate].
  injection H as <-.
  split; [exact (validCategory_in_taxonomy _ _ _ _ Hc)|].
  split; cbn [pt_type pt_amount].
  - destruct t as [| | | | s | |]; try (right; reflexivity).
    destruct (String.eqb s "income" || String.eqb s "expense") eqn:E;
      [| right; reflexivity].
    apply orb_true_iff in E as [E | E]; apply String.eqb_eq in E; subst s;
      [left | right]; reflexivity.
  - destruct (pf a); [apply Qabs_nonneg | apply Qle_refl].
Qed.

Lemma parse_result_well_formed pf ts dp genAI reply JSON_parse today text :
  exists r,
    parseTransactionWithAI pf ts dp genAI reply JSON_parse today text = Ok r
    /\ well_formed r.
Proof.
  unfold parseTransactionWithAI, try_catch.
  destruct genAI; cbn [negb].
  - destruct reply as [raw|]; cbn [exc_bind];
      [| eexists; split; [reflexivity | apply FallbackFacts.simple_well_formed]].
    destruct (JSON_parse _) as [parsed|];
      [| eexists; split; [reflexivity | apply FallbackFacts.simple_well_formed]].
    destruct (enhanceTransaction pf ts dp today parsed text) as [r|] eqn:E.
    + exists r; split; [reflexivity | exact (enhance_well_formed _ _ _ _ _ _ _ E)].
    + eexists; split; [reflexivity | apply FallbackFacts.simple_well_formed].
  - eexists; split; [reflexivity | apply FallbackFacts.simple_well_formed].
Qed.

Lemma unconfigured_genAI (key : option string) (ctor_ok : bool) :
  credential_configured key = false -> genAI_set key ctor_ok = false.
Proof. unfold genAI_set; intros ->; reflexivity. Qed.

End AIFacts.

(** C1: [parseTransactionWithAI] never surfaces a failure: whatever the
    credential, the model reply (including a thrown network error), and the
    outcome of [JSON.parse], it resolves to a well-formed parsed transaction;
    and with no credential configured the result is exactly
    [simpleParseTransaction] on the same text. *)
Theorem parseTransactionWithAI_total_and_degraded :
  forall pf ts dp (key : option string) (ctor_ok : bool) (reply : Exc string)
         (JSON_parse : string -> Exc JVal) (today text : string),
    (exists r,
        parseTransactionWithAI pf ts dp (genAI_set key ctor_ok) reply JSON_parse today text
        = Ok r /\ well_formed r) /\
    (credential_configured key = false ->
     parseTransactionWithAI pf ts dp (genAI_set key ctor_ok) reply JSON_parse today text
     = Ok (simpleParseTransaction today text)).
Proof.
  intros pf ts dp key ctor_ok reply JSON_parse today text.
  split; [apply AIFacts.parse_result_well_formed |].
  intro Hk; rewrite (AIFacts.unconfigured_genAI key ctor_ok Hk); reflexivity.
Qed.

Lemma parseTransactionWithAI_total_and_degraded_witness :
  credential_configured None = false /\
  parseTransactionWithAI (fun _ => None) (fun _ => "") (fun _ => false)
    (genAI_set None true) (Throw "network") (fun _ => Throw "SyntaxError")
    "2024-03-15" "Gas station $45"
  = Ok (simpleParseTransaction "2024-03-15" "Gas station $45").
Proof.
  split; [reflexivity |].
  apply (proj2 (parseTransactionWithAI_total_and_degraded
                  (fun _ => None) (fun _ => "") (fun _ => false) None true
                  (Throw "network") (fun _ => Throw "SyntaxError")
                  "2024-03-15" "Gas station $45")).
  reflexivity.
Defined.

(** C10: every successful answer of [POST /api/transactions/parse] holds
    exactly one parsed transaction: [isMultiple] is false,
    [parsedTransactions] has length 1 and [count] is 1. *)
Theorem parse_route_single_result :
  forall pf ts dp genAI reply JSON_parse today text (resp : ParseResponse),
    parse_route pf ts dp genAI reply JSON_parse today text = H200 resp ->
    pr_success resp = true /\ pr_isMultiple resp = false /\
    List.length (pr_parsedTransactions resp) = 1%nat /\ pr_count resp = 1%nat.
Proof.
  intros pf ts dp genAI reply JSON_parse today text resp H.
  unfold parse_route in H.
  destruct (String.eqb text "" || (500 <? String.length text)%nat); [discriminate|].
  destruct (parseTransactionWithAI pf ts dp genAI reply JSON_parse today text)
    as [r|]; [| discriminate].
  injection H as <-; repeat split.
Qed.

Lemma parse_route_single_result_witness :
  exists resp,
    parse_route (fun _ => None) (fun _ => "") (fun _ => false) false
      (Throw "network") (fun _ => Throw "SyntaxError") "2024-03-15"
      "Uber ride $25" = H200 resp /\
    pr_isMultiple resp = false /\ pr_count resp = 1%nat.
Proof.
  eexists; split; [reflexivity |].
  pose proof (parse_route_single_result (fun _ => None) (fun _ => "")
                (fun _ => false) false (Throw "network")
                (fun _ => Throw "SyntaxError") "2024-03-15" "Uber ride $25" _
                eq_refl) as (_ & Hm & _ & Hc).
  split; [exact Hm | exact Hc].
Defined.

(* ------------------------------------------------------------------ *)
(** ** Fallback parser: category and amount *)

(** C6 (counterexample): ["Bus to hospital"] hits [bus] (Transportation)
    and [hospital] (Healthcare).  Healthcare comes first in
    [COMMON_CATEGORIES], but the parser scans its keyword table, where
    Transportation comes first. *)
Lemma fallback_category_not_taxonomy_order :
  pt_category (simpleParseTransaction "2024-03-15" "Bus to hospital") = "Transportation" /\
  SpecRules.category_in_taxonomy_order (toLowerCase "Bus to hospital") = "Healthcare" /\
  pt_category (simpleParseTransaction "2024-03-15" "Bus to hospital")
  <> SpecRules.category_in_taxonomy_order (toLowerCase "Bus to hospital").
Proof.
  split; [reflexivity|]; split; [reflexivity|].
  vm_compute; discriminate.
Qed.

(** C6 (amended): the fallback category is the first entry of the keyword
    table [categoryKeywords] (Food & Dining, Gas & Fuel, Groceries,
    Shopping, Entertainment, Bills & Utilities, Travel, Transportation,
    Healthcare, Education) with a keyword occurring in the lower-cased
    text, or [Other] when no keyword occurs; it is always a taxonomy
    member. *)
Theorem fallback_category_first_in_table :
  forall today text : string,
    let c := pt_category (simpleParseTransaction today text) in
    let l := toLowerCase text in
    in_taxonomy c = true /\
    ((exists pre ks post,
         Fallback.categoryKeywords = (pre ++ (c, ks) :: post)%list /\
         some_includes l ks = true /\
         (forall e, In e pre -> some_includes l (snd e) = false))
     \/ (c = "Other" /\
         forall e, In e Fallback.categoryKeywords -> some_includes l (snd e) = false)).
Proof.
  intros today text c l.
  split; [apply FallbackFacts.scan_in_taxonomy |].
  exact (FallbackFacts.scan_categories_first l Fallback.categoryKeywords).
Qed.

Module AmountFacts.
Import Fallback.

Definition starts_non_digit (f : string) : Prop :=
  match f with
  | EmptyString => True
  | String c _ => is_digit c = false
  end.

Lemma digit_run_app (s : string) :
  forall f, starts_non_digit f ->
  digit_run (fst (digit_run s) ++ f) = (fst (digit_run s), f).
Proof.
  induction s as [| c r IH]; intros f Hf; simpl.
  - destruct f as [| c' r']; simpl in *; [reflexivity | rewrite Hf; reflexivity].
  - destruct (is_digit c) eqn:Hc.
    + specialize (IH f Hf).
      destruct (digit_run r) as [d rest]; simpl in *.
      rewrite Hc, IH; reflexivity.
    + destruct f as [| c' r']; simpl in *; [reflexivity | rewrite Hf; reflexivity].
Qed.

Lemma frac_part_starts_non_digit (rest : string) : starts_non_digit (frac_part rest).
Proof.
  destruct rest as [| p [| d1 [| d2 r]]]; simpl; try exact I.
  destruct (Ascii.eqb p "." && is_digit d1 && is_digit d2) eqn:E; simpl; [| exact I].
  apply andb_prop in E as [E _]; apply andb_prop in E as [E _].
  apply Ascii.eqb_eq in E; subst p; reflexivity.
Qed.

Lemma capture_at_cons (c : ascii) (r : string) :
  capture_at (String c r) =
  if is_digit c
  then Some (fst (digit_run (String c r)) ++ frac_part (snd (digit_run (String c r))))
  else None.
Proof.
  unfold capture_at; simpl.
  destruct (is_digit c); [| reflexivity].
  destruct (digit_run r); reflexivity.
Qed.

Lemma amountMatch_first (s : string) :
  amountMatch s =
  match SpecRules.first_digit_run s with
  | Some (d, rest) => Some (d ++ frac_part rest)
  | None => None
  end.
Proof.
  induction s as [| c r IH]; [reflexivity |].
  cbn [amountMatch SpecRules.first_digit_run].
  destruct (is_glyph c) eqn:Hg.
  - assert (Hc : is_digit c = false).
    { unfold is_glyph in Hg; apply Ascii.eqb_eq in Hg; subst c; reflexivity. }
    rewrite Hc.
    destruct r as [| c' r'].
    + rewrite capture_at_cons, Hc; reflexivity.
    + rewrite (capture_at_cons c'). destruct (is_digit c') eqn:Hc'.
      * change (SpecRules.first_digit_run (String c' r')) with
          (if is_digit c' then Some (digit_run (String c' r'))
           else SpecRules.first_digit_run r').
        rewrite Hc'; destruct (digit_run (String c' r')); reflexivity.
      * rewrite capture_at_cons, Hc. exact IH.
  - rewrite capture_at_cons. destruct (is_digit c) eqn:Hc.
    + destruct (digit_run (String c r)); reflexivity.
    + exact IH.
Qed.

Lemma first_digit_run_from (s d rest : string) :
  SpecRules.first_digit_run s = Some (d, rest) ->
  exists s', digit_run s' = (d, rest).
Proof.
  induction s as [| c r IH]; simpl; [discriminate |].
  destruct (is_digit c) eqn:Hc; [| exact IH].
  intro H; injection H as H; exists (String c r); simpl; rewrite Hc; exact H.
Qed.

End AmountFacts.

(** C7 (counterexample): in ["Coffee $4.5"] the one-digit fraction is not
    matched by [(?:\.\d{2})?], so the amount is 4, not 4.5. *)
Lemma fallback_amount_one_digit_fraction :
  (pt_amount (simpleParseTransaction "2024-03-15" "Coffee $4.5") == 4)%Q /\
  (SpecRules.amount_upto_two "Coffee $4.5" == Qmake 9 2)%Q /\
  ~ (pt_amount (simpleParseTransaction "2024-03-15" "Coffee $4.5")
     == SpecRules.amount_upto_two "Coffee $4.5")%Q.
Proof.
  split; [reflexivity|]; split; [reflexivity|].
  intro H; vm_compute in H; discriminate.
Qed.

(** C7 (amended): the amount is the value of the first run of digits of
    the text; a fraction is added only when that run is followed by [.]
    and two digits (those two digits: a one-digit fraction is dropped and
    longer fractions are cut to two digits); a preceding currency glyph
    changes nothing; with no digit the amount is 0, and later numbers are
    ignored. *)
Theorem fallback_amount_first_number :
  forall today text : string,
    pt_amount (simpleParseTransaction today text)
    = SpecRules.amount_two_digit_fraction text.
Proof.
  intros today text.
  unfold simpleParseTransaction, SpecRules.amount_two_digit_fraction; cbn [pt_amount].
  rewrite AmountFacts.amountMatch_first.
  destruct (SpecRules.first_digit_run text) as [[d rest]|] eqn:E; [| reflexivity].
  destruct (AmountFacts.first_digit_run_from _ _ _ E) as [s' Hs'].
  unfold Fallback.parseFloat_capture.
  pose proof (AmountFacts.digit_run_app s' (Fallback.frac_part rest)
                (AmountFacts.frac_part_starts_non_digit rest)) as Happ.
  rewrite Hs' in Happ; simpl in Happ; rewrite Happ.
  destruct rest as [| p [| d1 [| d2 r]]]; try reflexivity.
  unfold Fallback.frac_part.
  destruct (Ascii.eqb p "." && Fallback.is_digit d1 && Fallback.is_digit d2); reflexivity.
Qed.

(** C8 (counterexample): the keyword table has no entry for [Salary], so
    ["Salary deposit $3000"] gets the category [Other]. *)
Lemma salary_deposit_not_salary_category :
  ~ (pt_type (simpleParseTransaction "2024-03-15" "Salary deposit $3000") = "income" /\
     (pt_amount (simpleParseTransaction "2024-03-15" "Salary deposit $3000") == 3000)%Q /\
     pt_category (simpleParseTransaction "2024-03-15" "Salary deposit $3000") = "Salary").
Proof.
  intros (_ & _ & H); vm_compute in H; discriminate.
Qed.

(** C8 (amended): on ["Salary deposit $3000"] the fallback parser returns
    type [income], amount 3000 and category [Other]. *)
Theorem salary_deposit_parse :
  forall today : string,
    pt_type (simpleParseTransaction today "Salary deposit $3000") = "income" /\
    (pt_amount (simpleParseTransaction today "Salary deposit $3000") == 3000)%Q /\
    pt_category (simpleParseTransaction today "Salary deposit $3000") = "Other".
Proof.
  intro today; split; [reflexivity|]; split; reflexivity.
Qed.

(* ------------------------------------------------------------------ *)
(** ** Category normalisation in [enhanceTransaction] *)

Module NormalizeFacts.

Lemma find_ext {A} (f g : A -> bool) (xs : list A) :
  (forall x, f x = g x) -> find f xs = find g xs.
Proof.
  intro H; induction xs as [| x xs IH]; simpl; [reflexivity|].
  rewrite H, IH; reflexivity.
Qed.

(** When no element satisfying [q] precedes an element satisfying [p],
    searching for [p || q] finds the [p] hit first. *)
Lemma find_orb_first {A} (p q : A -> bool) (xs : list A) :
  (forall pre x post y, xs = (pre ++ x :: post)%list -> In y pre ->
     p x = true -> q y = false) ->
  find (fun c => p c || q c) xs =
  match find p xs with Some c => Some c | None => find q xs end.
Proof.
  induction xs as [| x0 xs IH]; intro Hord; simpl; [reflexivity|].
  destruct (p x0) eqn:Hp; simpl; [reflexivity|].
  destruct (q x0) eqn:Hq.
  - destruct (find p xs) as [x|] eqn:Hf; [| reflexivity].
    apply find_some in Hf as [Hin Hpx].
    apply in_split in Hin as (l1 & l2 & ->).
    rewrite (Hord (x0 :: l1) x l2 x0 eq_refl (or_introl eq_refl) Hpx) in Hq.
    discriminate.
  - apply IH. intros pre x post y Heq Hy Hpx.
    apply (Hord (x0 :: pre) x post y); [rewrite Heq; reflexivity | right; exact Hy | exact Hpx].
Qed.

(** Two taxonomy labels in a substring relation, after lower-casing. *)
Definition nested (y x : string) : bool :=
  includes (toLowerCase y) (toLowerCase x) || includes (toLowerCase x) (toLowerCase y).

Fixpoint no_nested_later (xs : list string) : bool :=
  match xs with
  | [] => true
  | y :: rest => forallb (fun x => negb (nested y x)) rest && no_nested_later rest
  end.

Lemma no_nested_later_spec (xs : list string) :
  no_nested_later xs = true ->
  forall pre x post y, xs = (pre ++ x :: post)%list -> In y pre -> nested y x = false.
Proof.
  intros H pre; revert xs H; induction pre as [| y0 pre IH];
    intros xs H x post y Heq Hy; [destruct Hy|].
  subst xs; simpl in H; apply andb_prop in H as [Hall Hrest].
  destruct Hy as [<- | Hy].
  - rewrite forallb_forall in Hall.
    specialize (Hall x (in_elt x pre post)).
    destruct (nested y0 x); [discriminate | reflexivity].
  - exact (IH _ Hrest x post y eq_refl Hy).
Qed.

Lemma taxonomy_no_nested : no_nested_later COMMON_CATEGORIES = true.
Proof. vm_compute; reflexivity. Qed.

Lemma in_taxonomy_nonempty (c : string) : in_taxonomy c = true -> c <> "".
Proof. intros H ->; discriminate H. Qed.

Lemma validCategory_member (today c text : string) :
  in_taxonomy c = true -> validCategory today (JStr c) text = Ok c.
Proof.
  intro H; unfold validCategory.
  assert (Ht : JS.truthy (JStr c) = true).
  { simpl; destruct (String.eqb c "") eqn:E; [| reflexivity].
    apply String.eqb_eq in E; exfalso; exact (in_taxonomy_nonempty c H E). }
  rewrite Ht, H; reflexivity.
Qed.

Lemma normalize_with_fallback_in_taxonomy (today cand text : string) :
  in_taxonomy (SpecRules.normalize_with_fallback today cand text) = true.
Proof.
  unfold SpecRules.normalize_with_fallback.
  destruct (in_taxonomy cand) eqn:Hin; [exact Hin|].
  set (l := toLowerCase cand).
  destruct (find (fun cat => String.eqb (toLowerCase cat) l) COMMON_CATEGORIES)
    as [c|] eqn:E1; [exact (AIFacts.find_in_taxonomy _ _ E1)|].
  destruct (find (fun cat => includes (toLowerCase cat) l || includes l (toLowerCase cat))
              COMMON_CATEGORIES) as [c|] eqn:E2;
    [exact (AIFacts.find_in_taxonomy _ _ E2) | apply FallbackFacts.scan_in_taxonomy].
Qed.

End NormalizeFacts.

(** C5 (counterexample): the candidate ["Coffee"] matches no taxonomy
    label, and the code does not answer [Other]: it falls back on the
    keyword category of the original text. *)
Lemma normalize_no_match_uses_fallback :
  validCategory "2024-03-15" (JStr "Coffee") "coffee $4" = Ok "Food & Dining" /\
  SpecRules.normalize_claim "Coffee" = "Other".
Proof. split; vm_compute; reflexivity. Qed.

(** C5 (amended): for every candidate string and original text the
    category validation of [enhanceTransaction] returns without failing
    the candidate on an exact taxonomy match, else the case-insensitive
    exact match, else the first taxonomy label (in declared order) in a
    substring relation with it in either direction, else the fallback
    parser's category for the original text; the result is always a
    taxonomy member, and validating it again returns it unchanged. *)
Theorem category_normalization_cascade :
  forall today candidate text : string,
    validCategory today (JStr candidate) text
      = Ok (SpecRules.normalize_with_fallback today candidate text) /\
    in_taxonomy (SpecRules.normalize_with_fallback today candidate text) = true /\
    (forall text' : string,
       validCategory today (JStr (SpecRules.normalize_with_fallback today candidate text)) text'
       = Ok (SpecRules.normalize_with_fallback today candidate text)).
Proof.
  intros today cand text.
  pose proof (NormalizeFacts.normalize_with_fallback_in_taxonomy today cand text) as Hmem.
  split; [| split; [exact Hmem | intro text'; exact (NormalizeFacts.validCategory_member _ _ _ Hmem)]].
  unfold SpecRules.normalize_with_fallback in *.
  destruct (in_taxonomy cand) eqn:Hin; [exact (NormalizeFacts.validCategory_member _ _ _ Hin)|].
  unfold validCategory; rewrite Hin, andb_false_r; cbn [exc_bind JS.opt_toLowerCase].
  set (l := toLowerCase cand).
  rewrite (NormalizeFacts.find_ext (close_match (Some l))
             (fun c => String.eqb (toLowerCase c) l
                       || (includes (toLowerCase c) l || includes l (toLowerCase c))))
    by (intro c; simpl; rewrite orb_assoc; reflexivity).
  rewrite (NormalizeFacts.find_orb_first (fun c => String.eqb (toLowerCase c) l)).
  - destruct (find (fun c => String.eqb (toLowerCase c) l) COMMON_CATEGORIES); [reflexivity|].
    destruct (find (fun cat => includes (toLowerCase cat) l || includes l (toLowerCase cat))
                COMMON_CATEGORIES); reflexivity.
  - intros pre x post y Heq Hy Hx.
    apply String.eqb_eq in Hx; rewrite <- Hx.
    exact (NormalizeFacts.no_nested_later_spec _ NormalizeFacts.taxonomy_no_nested
             pre x post y Heq Hy).
Qed.

(* ------------------------------------------------------------------ *)
(** ** Calendar arithmetic *)

Module CalFacts.
Import Cal.
Open Scope Z_scope.

Lemma doe_bounds (doe : Z) : 0 <= doe < 146097 ->
  let yoe := (doe - doe / 1460 + doe / 36524 - doe / 146096) / 365 in
  let doy := doe - (365 * yoe + yoe / 4 - yoe / 100) in
  0 <= yoe < 400 /\ 0 <= doy <= 365.
Proof.
  intros H yoe doy; subst yoe doy.
  Z.div_mod_to_equations; lia.
Qed.

(** [days_from_civil] inverts [civil_from_days]. *)
Lemma civil_roundtrip (z : Z) :
  let '(y, m, d) := civil_from_days z in
  1 <= m <= 12 /\ days_from_civil y m 1 + d - 1 = z.
Proof.
  unfold civil_from_days, civil_of_doe.
  set (era := (z + 719468) / 146097).
  set (doe := (z + 719468) mod 146097).
  assert (Hz : z + 719468 = 146097 * era + doe) by (apply Z.div_mod; lia).
  assert (Hdoe : 0 <= doe < 146097) by (apply Z.mod_pos_bound; lia).
  destruct (doe_bounds doe Hdoe) as [Hyoe Hdoy].
  set (yoe := (doe - doe / 1460 + doe / 36524 - doe / 146096) / 365) in *.
  set (doy := doe - (365 * yoe + yoe / 4 - yoe / 100)) in *.
  set (mp := (5 * doy + 2) / 153).
  assert (Hmp : 0 <= mp <= 11) by (subst mp; Z.div_mod_to_equations; lia).
  assert (Hera : (yoe + era * 400) / 400 = era).
  { rewrite Z.div_add by lia; rewrite Z.div_small by lia; lia. }
  assert (Hyoe' : (yoe + era * 400) mod 400 = yoe).
  { rewrite Z.mod_add by lia; apply Z.mod_small; lia. }
  unfold days_from_civil.
  destruct (Z.ltb_spec mp 10) as [Hlt | Hge].
  - assert (E1 : (mp + 3 <=? 2) = false) by (apply Z.leb_gt; lia).
    assert (E2 : (2 <? mp + 3) = true) by (apply Z.ltb_lt; lia).
    rewrite E1, E2; split; [lia|].
    replace (mp + 3 - 3) with mp by lia.
    rewrite Hera, Hyoe'; lia.
  - assert (E1 : (mp - 9 <=? 2) = true) by (apply Z.leb_le; lia).
    assert (E2 : (2 <? mp - 9) = false) by (apply Z.ltb_ge; lia).
    rewrite E1, E2; split; [lia|].
    replace (mp - 9 + 9) with mp by lia.
    replace (yoe + era * 400 + 1 - 1) with (yoe + era * 400) by lia.
    rewrite Hera, Hyoe'; lia.
Qed.

(** [MakeDay] on the broken-down fields of [t] with another day of the
    month. *)
Lemma MakeDay_same_month (t dt : Z) :
  MakeDay (getFullYear t) (getMonth t) dt = Day t - getDate t + dt.
Proof.
  unfold getFullYear, getMonth, getDate.
  pose proof (civil_roundtrip (Day t)) as H.
  destruct (civil_from_days (Day t)) as [[y m] d].
  destruct H as [Hm Hrt].
  unfold MakeDay.
  rewrite (Z.div_small (m - 1) 12) by lia.
  rewrite (Z.mod_small (m - 1) 12) by lia.
  replace (y + 0) with y by lia.
  replace (m - 1 + 1) with m by lia.
  lia.
Qed.

Lemma time_split (t : Z) : t = Day t * msPerDay + TimeWithinDay t.
Proof.
  unfold Day, TimeWithinDay.
  rewrite Z.mul_comm; apply Z.div_mod; unfold msPerDay; lia.
Qed.

(** [setDate(getDate() - 7)] is exactly seven days of milliseconds back. *)
Lemma setDate_minus_7 (t : Z) : setDate t (getDate t - 7) = t - 7 * msPerDay.
Proof.
  unfold setDate, MakeDate; rewrite MakeDay_same_month.
  pose proof (time_split t); lia.
Qed.

(** [new Date(y, m, 1)] for the current year and month is 00:00 on the
    first day of the month. *)
Lemma month_start (t : Z) :
  new_Date3 (getFullYear t) (getMonth t) 1
  = t - TimeWithinDay t - (getDate t - 1) * msPerDay.
Proof.
  unfold new_Date3, MakeDate; rewrite MakeDay_same_month.
  pose proof (time_split t); lia.
Qed.

Lemma year_start (y : Z) : new_Date3 y 0 1 = days_from_civil y 1 1 * msPerDay.
Proof.
  unfold new_Date3, MakeDate, MakeDay; cbv zeta.
  replace (y + 0 / 12) with y by (rewrite Z.div_0_l; lia).
  change (0 mod 12 + 1) with 1.
  unfold msPerDay; lia.
Qed.

End CalFacts.

(* ------------------------------------------------------------------ *)
(** ** Date windows of the analytics routes *)

Module WindowFacts.
Import Cal Analytics CalFacts.
Open Scope Z_scope.

Lemma spec_window_week (now : Z) : spec_window "week" now = Gte (now - 7 * msPerDay).
Proof. unfold spec_window; destruct (civil_from_days (Day now)) as [[y m] d]; reflexivity. Qed.

Lemma spec_window_month (now : Z) :
  spec_window "month" now = Gte (new_Date3 (getFullYear now) (getMonth now) 1).
Proof.
  rewrite month_start; unfold spec_window, getDate.
  destruct (civil_from_days (Day now)) as [[y m] d]; reflexivity.
Qed.

Lemma spec_window_year (now : Z) :
  spec_window "year" now = Gte (new_Date3 (getFullYear now) 0 1).
Proof.
  rewrite year_start; unfold spec_window, getFullYear.
  destruct (civil_from_days (Day now)) as [[y m] d]; reflexivity.
Qed.

Lemma spec_window_all (now : Z) : spec_window "all" now = NoFilter.
Proof. unfold spec_window; destruct (civil_from_days (Day now)) as [[y m] d]; reflexivity. Qed.

End WindowFacts.

(** C2 (amended): without an explicit start/end pair, summary and categories
    resolve [week] to the last 7 days from now, [month] to 00:00 on the 1st
    of the current month, [year] to 00:00 on January 1st and [all] to no
    lower bound; trends resolves [week] the same way, [month] to the same
    day and time one month back, [year] (also its default) to the same day
    and time one year back, and rejects [all]. *)
Theorem analytics_window_resolution :
  forall (now : Z) (s e : option Z),
    (s = None \/ e = None) ->
    (forall per, In per ["week"; "month"; "year"; "all"] ->
       Analytics.summary_window (Analytics.mkQuery (Some per) s e) now
         = Some (Analytics.spec_window per now) /\
       Analytics.categories_window (Analytics.mkQuery (Some per) s e) now
         = Some (Analytics.spec_window per now)) /\
    Analytics.trends_window (Analytics.mkQuery (Some "week") s e) now
      = Some (Analytics.spec_window "week" now) /\
    Analytics.trends_window (Analytics.mkQuery (Some "month") s e) now
      = Some (Analytics.Gte (Cal.MakeDate
                (Cal.MakeDay (Cal.getFullYear now) (Cal.getMonth now - 1) (Cal.getDate now))
                (Cal.TimeWithinDay now))) /\
    Analytics.trends_window (Analytics.mkQuery (Some "year") s e) now
      = Some (Analytics.Gte (Cal.MakeDate
                (Cal.MakeDay (Cal.getFullYear now - 1) (Cal.getMonth now) (Cal.getDate now))
                (Cal.TimeWithinDay now))) /\
    Analytics.trends_window (Analytics.mkQuery None s e) now
      = Analytics.trends_window (Analytics.mkQuery (Some "year") s e) now /\
    Analytics.trends_window (Analytics.mkQuery (Some "all") s e) now = None.
Proof.
  intros now s e Hse.
  rewrite WindowFacts.spec_window_week.
  destruct Hse as [-> | ->]; [| destruct s];
  (split; [intros per Hin; simpl in Hin; destruct Hin as [<-|[<-|[<-|[<-|[]]]]] |]);
  try rewrite WindowFacts.spec_window_week;
  try rewrite WindowFacts.spec_window_month;
  try rewrite WindowFacts.spec_window_year;
  try rewrite WindowFacts.spec_window_all;
  unfold Analytics.summary_window, Analytics.categories_window, Analytics.trends_window,
    Analytics.summary_dateFilter, Analytics.categories_dateFilter, Analytics.trends_dateFilter;
  cbn [Analytics.q_period Analytics.q_startDate Analytics.q_endDate Analytics.with_default];
  try rewrite CalFacts.setDate_minus_7; repeat split; reflexivity.
Qed.

(** C2 (counterexample): at 2024-03-15 12:00, [GET /api/analytics/trends]
    with [period=month] starts its window at 2024-02-15 12:00 rather than at
    the 1st of March, and it rejects [period=all] with a 400. *)
Lemma trends_month_not_month_to_date :
  Analytics.trends_window (Analytics.mkQuery (Some "month") None None) Samples.now0
    <> Some (Analytics.spec_window "month" Samples.now0) /\
  Analytics.trends_window (Analytics.mkQuery (Some "all") None None) Samples.now0 = None.
Proof. split; [vm_compute; discriminate | vm_compute; reflexivity]. Qed.

(* ------------------------------------------------------------------ *)
(** ** Percentage deltas of the summary *)

(** C3 (code behaviour): with [period=week] the summary still reports an
    [incomeChange], measured against all earlier transactions (-66.7% for
    50 this week against 150 in total); with [period=month] at 2024-03-15 the
    previous window ends at 00:00 on February 29th, so an income at 10:00
    that day is not counted and [incomeChange] is absent instead of 25.0%. *)
Theorem summary_change_periods :
  match Summary.getSummary Samples.store_week "u1"
          (Analytics.mkQuery (Some "week") None None) Samples.now0 with
  | H200 r => Summary.incomeChange r
  | _ => None
  end = Some (-667)%Z /\
  Cal.getMonth (Samples.at_day 2024 2 29 36000000) = 1%Z /\
  Summary.previous_totals Samples.store_month "u1" "month" Samples.now0 = (0%Q, 0%Q) /\
  match Summary.getSummary Samples.store_month "u1"
          (Analytics.mkQuery (Some "month") None None) Samples.now0 with
  | H200 r => Summary.incomeChange r
  | _ => None
  end = None.
Proof. vm_compute; repeat split; reflexivity. Qed.

(** C4: for every store, owner, valid query and time, the summary answers
    200, and when the previous period's income (resp. expense) total is zero
    its [incomeChange] (resp. [expenseChange]) is absent. *)
Theorem summary_zero_previous_total_absent :
  forall (store : list Transaction) (uid : string) (q : Analytics.AnalyticsQuery) (now : Z),
    Analytics.summary_window q now <> None ->
    exists r, Summary.getSummary store uid q now = H200 r /\
      (fst (Summary.previous_totals store uid
              (Analytics.with_default "month" (Analytics.q_period q)) now) == 0 ->
       Summary.incomeChange r = None) /\
      (snd (Summary.previous_totals store uid
              (Analytics.with_default "month" (Analytics.q_period q)) now) == 0 ->
       Summary.expenseChange r = None).
Proof.
  intros store uid q now Hw.
  unfold Summary.getSummary.
  destruct (Analytics.summary_window q now) as [f|]; [|contradiction].
  destruct (Summary.previous_totals store uid
              (Analytics.with_default "month" (Analytics.q_period q)) now) as [pi pe].
  eexists; split; [reflexivity|]; cbn [fst snd Summary.incomeChange Summary.expenseChange].
  split; intro H0; unfold Summary.change;
    (replace (Qle_bool _ 0) with true; [reflexivity|]); symmetry;
    apply Qle_bool_iff; rewrite H0; apply Qle_refl.
Qed.

Lemma summary_zero_previous_total_absent_witness :
  exists r, Summary.getSummary Samples.store_month "u1"
              (Analytics.mkQuery (Some "month") None None) Samples.now0 = H200 r /\
            Summary.incomeChange r = None /\ Summary.expenseChange r = None.
Proof.
  destruct (summary_zero_previous_total_absent Samples.store_month "u1"
              (Analytics.mkQuery (Some "month") None None) Samples.now0
              ltac:(vm_compute; discriminate)) as (r & Hr & Hi & He).
  exists r; split; [exact Hr | split; [apply Hi | apply He]; vm_compute; reflexivity].
Defined.

(* ------------------------------------------------------------------ *)
(** ** Ownership under [PUT /api/transactions/:id] *)

(** C9 (code behaviour): the owner [owner1] of [tx1] sends
    [PUT /api/transactions/<tx1>] with the body [{ userId: <owner2> }],
    another well-formed [ObjectId]; the update succeeds and the stored
    transaction now belongs to [owner2]. *)
Theorem put_transaction_changes_owner :
  exists store' tx',
    Update.put_transaction (fun _ => 0%Z) Samples.store_owned Samples.owner1 Samples.tx1
      [("userId", JStr Samples.owner2)] = H200 (store', tx') /\
    userId tx' = Samples.owner2 /\ In tx' store' /\
    (forall t, In t Samples.store_owned -> tx_id t = Samples.tx1 -> userId t = Samples.owner1).
Proof.
  do 2 eexists; split; [vm_compute; reflexivity|].
  split; [reflexivity|]; split; [simpl; auto|].
  intros t [<-|[]] _; reflexivity.
Qed.

Lemma analytics_window_resolution_witness :
  (None = (None : option Z) \/ Some 0%Z = None) /\
  Analytics.summary_window (Analytics.mkQuery (Some "month") None (Some 0%Z)) Samples.now0
    = Some (Analytics.spec_window "month" Samples.now0).
Proof.
  split; [left; reflexivity|].
  apply (analytics_window_resolution Samples.now0 None (Some 0%Z) (or_introl eq_refl)).
  simpl; auto.
Defined.

(* ------------------------------------------------------------------ *)
(** ** Grouping, sorting and objects *)

Module CollFacts.
Import Coll.
Local Open Scope list_scope.

Section Group.
Context {K A : Type} (eqK : K -> K -> bool) (key : A -> K).
Hypothesis eqK_spec : forall a b, eqK a b = true <-> a = b.

Lemma group_add_perm k (x : A) g :
  Permutation (List.concat (map snd (group_add eqK k x g))) (x :: List.concat (map snd g)).
Proof.
  induction g as [|[k' xs] rest IH]; cbn [group_add]; [simpl; auto|].
  destruct (eqK k' k); cbn [map snd List.concat].
  - rewrite <- app_assoc. simpl.
    apply Permutation_sym, Permutation_middle.
  - rewrite IH. apply Permutation_sym, Permutation_middle.
Qed.

Lemma group_by_perm_acc (l : list A) acc :
  Permutation (List.concat (map snd (fold_left (fun acc x => group_add eqK (key x) x acc) l acc)))
              (List.concat (map snd acc) ++ l).
Proof.
  revert acc; induction l as [|x l IH]; intro acc; simpl.
  - rewrite app_nil_r; auto.
  - rewrite IH, group_add_perm. simpl.
    apply Permutation_middle.
Qed.

(** Every document lands in exactly one group. *)
Lemma group_by_perm (l : list A) : Permutation (List.concat (map snd (group_by eqK key l))) l.
Proof. unfold group_by; rewrite group_by_perm_acc; reflexivity. Qed.

Lemma group_add_keys k (x : A) g :
  NoDup (map fst g) -> NoDup (map fst (group_add eqK k x g)) /\
  (forall k', In k' (map fst (group_add eqK k x g)) <-> k' = k \/ In k' (map fst g)).
Proof.
  induction g as [|[k1 xs] rest IH]; intro Hnd; cbn [group_add].
  - simpl; split; [constructor; [auto|constructor]|]. intuition.
  - inversion Hnd as [|? ? Hni Hnd']; subst.
    destruct (eqK k1 k) eqn:E.
    + apply eqK_spec in E; subst. split; [exact Hnd|].
      simpl; intuition.
    + destruct (IH Hnd') as [IH1 IH2]. split.
      * simpl; constructor; [|exact IH1].
        rewrite IH2; intros [->|H]; [|exact (Hni H)].
        rewrite (proj2 (eqK_spec k k) eq_refl) in E; discriminate.
      * intro k'; simpl; rewrite IH2; tauto.
Qed.

Lemma group_by_nodup_acc (l : list A) acc :
  NoDup (map fst acc) ->
  NoDup (map fst (fold_left (fun acc x => group_add eqK (key x) x acc) l acc)).
Proof.
  revert acc; induction l as [|x l IH]; intros acc H; simpl; [exact H|].
  apply IH, group_add_keys, H.
Qed.

(** Group keys are distinct. *)
Lemma group_by_nodup (l : list A) : NoDup (map fst (group_by eqK key l)).
Proof. apply group_by_nodup_acc; constructor. Qed.

Lemma group_add_members k (x : A) g :
  key x = k ->
  (forall k' xs, In (k', xs) g -> forall y, In y xs -> key y = k') ->
  forall k' xs, In (k', xs) (group_add eqK k x g) -> forall y, In y xs -> key y = k'.
Proof.
  intros Hx; induction g as [|[k1 xs1] rest IH]; intros Hg k' xs Hin y Hy; cbn [group_add] in Hin.
  - destruct Hin as [Heq|[]]; inversion Heq; subst.
    destruct Hy as [<-|[]]; reflexivity.
  - destruct (eqK k1 k) eqn:E.
    + destruct Hin as [Heq|Hin].
      * inversion Heq; subst. apply in_app_or in Hy as [Hy|[<-|[]]].
        -- exact (Hg k' xs1 (or_introl eq_refl) y Hy).
        -- symmetry; apply eqK_spec, E.
      * exact (Hg k' xs (or_intror Hin) y Hy).
    + destruct Hin as [Heq|Hin].
      * inversion Heq; subst. exact (Hg k' xs (or_introl eq_refl) y Hy).
      * refine (IH _ k' xs Hin y Hy).
        intros; eapply Hg; [right|]; eassumption.
Qed.

(** The documents of a group all have its key. *)
Lemma group_by_members (l : list A) :
  forall k xs, In (k, xs) (group_by eqK key l) -> forall y, In y xs -> key y = k.
Proof.
  unfold group_by.
  assert (H : forall acc, (forall k xs, In (k, xs) acc -> forall y, In y xs -> key y = k) ->
    forall k xs, In (k, xs) (fold_left (fun acc x => group_add eqK (key x) x acc) l acc) ->
    forall y, In y xs -> key y = k).
  { induction l as [|x l IH]; intros acc Hacc; simpl; [exact Hacc|].
    apply IH. apply group_add_members; [reflexivity|exact Hacc]. }
  apply H. intros k xs [].
Qed.

Lemma group_add_in k0 (x : A) acc k xs :
  NoDup (map fst acc) -> In (k, xs) (group_add eqK k0 x acc) ->
  (k <> k0 /\ In (k, xs) acc) \/
  (k = k0 /\ ((exists xs0, In (k0, xs0) acc /\ xs = xs0 ++ [x]) \/
              (~ In k0 (map fst acc) /\ xs = [x]))).
Proof.
  induction acc as [|[k1 xs1] rest IH]; intros Hnd Hin; cbn [group_add] in Hin.
  - destruct Hin as [Heq|[]]; inversion Heq; subst. right; split; [reflexivity|right; split; auto].
  - inversion Hnd as [|? ? Hni Hnd']; subst.
    destruct (eqK k1 k0) eqn:E.
    + apply eqK_spec in E; subst k1. destruct Hin as [Heq|Hin].
      * inversion Heq; subst. right; split; [reflexivity|left; exists xs1; split; [left|]; reflexivity].
      * left; split; [|right; exact Hin].
        intros ->. apply Hni. apply (in_map fst) in Hin. exact Hin.
    + destruct Hin as [Heq|Hin].
      * inversion Heq; subst. left; split; [|left; reflexivity].
        intros ->. rewrite (proj2 (eqK_spec k0 k0) eq_refl) in E; discriminate.
      * destruct (IH Hnd' Hin) as [[H1 H2]|[H1 [[xs0 [H2 H3]]|[H2 H3]]]].
        -- left; split; [exact H1|right; exact H2].
        -- right; split; [exact H1|left; exists xs0; split; [right; exact H2|exact H3]].
        -- right; split; [exact H1|right; split; [|exact H3]].
           intros [Hk|Hk]; [|exact (H2 Hk)]. cbn in Hk; subst k1.
           rewrite (proj2 (eqK_spec k0 k0) eq_refl) in E; discriminate.
Qed.

Lemma filter_none {B} (p : B -> bool) l : (forall y, In y l -> p y = false) -> filter p l = [].
Proof.
  induction l as [|y l IH]; intro H; simpl; [reflexivity|].
  rewrite (H y (or_introl eq_refl)). apply IH; intros z Hz; exact (H z (or_intror Hz)).
Qed.

Lemma group_add_nonempty k0 (x : A) g :
  (forall k xs, In (k, xs) g -> xs <> []) ->
  forall k xs, In (k, xs) (group_add eqK k0 x g) -> xs <> [].
Proof.
  induction g as [|[k1 xs1] rest IH]; intros Hg k xs Hin; cbn [group_add] in Hin.
  - destruct Hin as [Heq|[]]; inversion Heq; subst; discriminate.
  - destruct (eqK k1 k0).
    + destruct Hin as [Heq|Hin].
      * inversion Heq; subst. intro H. destruct xs1; discriminate H.
      * exact (Hg k xs (or_intror Hin)).
    + destruct Hin as [Heq|Hin]; [inversion Heq; subst; exact (Hg k xs (or_introl eq_refl))|].
      refine (IH _ k xs Hin). intros; eapply Hg; right; eassumption.
Qed.

(** Groups are never empty. *)
Lemma group_by_nonempty (l : list A) k xs : In (k, xs) (group_by eqK key l) -> xs <> [].
Proof.
  unfold group_by.
  assert (H : forall acc, (forall k xs, In (k, xs) acc -> xs <> []) ->
    forall k xs, In (k, xs) (fold_left (fun acc x => group_add eqK (key x) x acc) l acc) -> xs <> []).
  { induction l as [|x l IH]; intros acc Hacc; simpl; [exact Hacc|].
    apply IH. apply group_add_nonempty, Hacc. }
  apply H. intros ? ? [].
Qed.

Lemma group_by_filter_acc (l : list A) P acc :
  NoDup (map fst acc) ->
  (forall k xs, In (k, xs) acc -> xs = filter (fun y => eqK (key y) k) P) ->
  (forall y, In y P -> In (key y) (map fst acc)) ->
  forall k xs, In (k, xs) (fold_left (fun acc x => group_add eqK (key x) x acc) l acc) ->
  xs = filter (fun y => eqK (key y) k) (P ++ l).
Proof.
  revert P acc; induction l as [|x l IH]; intros P acc Hnd Hmem Hcov k xs Hin.
  - rewrite app_nil_r; exact (Hmem k xs Hin).
  - simpl in Hin. replace (P ++ x :: l) with ((P ++ [x]) ++ l) by (rewrite <- app_assoc; reflexivity).
    destruct (group_add_keys (key x) x acc Hnd) as [Hnd' Hkeys].
    refine (IH (P ++ [x]) _ Hnd' _ _ k xs Hin).
    + intros k1 xs1 Hin1. rewrite filter_app. cbn [filter].
      destruct (group_add_in (key x) x acc k1 xs1 Hnd Hin1) as [[H1 H2]|[H1 [[xs0 [H2 H3]]|[H2 H3]]]].
      * rewrite (Hmem k1 xs1 H2). destruct (eqK (key x) k1) eqn:E; [|symmetry; apply app_nil_r].
        apply eqK_spec in E; congruence.
      * subst k1 xs1. rewrite (Hmem _ xs0 H2), (proj2 (eqK_spec (key x) (key x)) eq_refl). reflexivity.
      * subst k1 xs1. rewrite (proj2 (eqK_spec (key x) (key x)) eq_refl).
        rewrite filter_none; [reflexivity|].
        intros y Hy. destruct (eqK (key y) (key x)) eqn:E; [|reflexivity].
        apply eqK_spec in E. exfalso; apply H2. rewrite <- E. exact (Hcov y Hy).
    + intros y Hy. apply Hkeys. apply in_app_or in Hy as [Hy|[<-|[]]]; [right; exact (Hcov y Hy)|left; reflexivity].
Qed.

(** A group holds exactly the documents with its key, in their order. *)
Lemma group_by_filter (l : list A) k xs :
  In (k, xs) (group_by eqK key l) -> xs = filter (fun y => eqK (key y) k) l.
Proof.
  intro H. exact (group_by_filter_acc l [] [] (NoDup_nil _) (fun _ _ F => match F with end)
                    (fun _ F => match F with end) k xs H).
Qed.

End Group.

Section Sort.
Context {A : Type} (before : A -> A -> bool).

Lemma insert_perm x l : Permutation (insert before x l) (x :: l).
Proof.
  induction l as [|y r IH]; simpl; [auto|].
  destruct (before y x); [|auto].
  rewrite IH. apply perm_swap.
Qed.

Lemma sort_perm_acc l acc :
  Permutation (fold_left (fun acc x => insert before x acc) l acc) (rev l ++ acc).
Proof.
  revert acc; induction l as [|x l IH]; intro acc; simpl; [auto|].
  rewrite IH, insert_perm, <- app_assoc. reflexivity.
Qed.

(** Sorting keeps the elements. *)
Lemma sort_perm l : Permutation (sort before l) l.
Proof.
  unfold sort; rewrite sort_perm_acc, app_nil_r.
  apply Permutation_sym, Permutation_rev.
Qed.

Hypothesis before_total : forall a b, before a b = false -> before b a = true.

Lemma insert_sorted x l :
  Sorted (fun a b => before a b = true) l ->
  Sorted (fun a b => before a b = true) (insert before x l).
Proof.
  induction 1 as [|y r Hs IH Hhd]; simpl; [auto|].
  destruct (before y x) eqn:E.
  - constructor; [exact IH|].
    destruct r as [|z r]; simpl; [constructor; exact E|].
    inversion Hhd; subst.
    destruct (before z x); constructor; assumption.
  - constructor; [constructor; assumption|]. constructor; apply before_total, E.
Qed.

(** The result of [sort] is sorted. *)
Lemma sort_sorted l : Sorted (fun a b => before a b = true) (sort before l).
Proof.
  unfold sort.
  assert (H : forall acc, Sorted (fun a b => before a b = true) acc ->
    Sorted (fun a b => before a b = true) (fold_left (fun acc x => insert before x acc) l acc)).
  { induction l as [|x l IH]; intros acc Hacc; simpl; [exact Hacc|].
    apply IH, insert_sorted, Hacc. }
  apply H; constructor.
Qed.

End Sort.

(** Sums of rationals. *)
Lemma sumQ_app l1 l2 : sumQ (l1 ++ l2) == sumQ l1 + sumQ l2.
Proof.
  induction l1 as [|x l1 IH]; simpl; unfold sumQ in *; simpl.
  - ring.
  - rewrite IH; ring.
Qed.

Lemma sumQ_perm l1 l2 : Permutation l1 l2 -> sumQ l1 == sumQ l2.
Proof.
  induction 1; unfold sumQ in *; simpl.
  - reflexivity.
  - rewrite IHPermutation; reflexivity.
  - ring.
  - rewrite IHPermutation1; exact IHPermutation2.
Qed.

Lemma sumQ_concat (ls : list (list Q)) : sumQ (List.concat ls) == sumQ (map sumQ ls).
Proof.
  induction ls as [|l ls IH]; simpl; [reflexivity|].
  rewrite sumQ_app, IH; reflexivity.
Qed.

(** Object keys. *)
Lemma lookup_set_key_same {V} k (v : V) o : lookup k (set_key k v o) = Some v.
Proof.
  unfold lookup; induction o as [|[k' v'] rest IH]; simpl.
  - rewrite String.eqb_refl; reflexivity.
  - destruct (String.eqb k' k) eqn:E; simpl.
    + rewrite E; reflexivity.
    + rewrite E; exact IH.
Qed.

Lemma lookup_set_key_other {V} k k' (v : V) o :
  k' <> k -> lookup k (set_key k' v o) = lookup k o.
Proof.
  intro Hne; unfold lookup; induction o as [|[k1 v1] rest IH]; simpl.
  - apply String.eqb_neq in Hne; rewrite Hne; reflexivity.
  - destruct (String.eqb k1 k') eqn:E; simpl.
    + apply String.eqb_eq in E; subst.
      apply String.eqb_neq in Hne; rewrite Hne; reflexivity.
    + destruct (String.eqb k1 k); [reflexivity|exact IH].
Qed.

Lemma spread_snoc {V} (o1 o2 : Obj V) k v :
  spread o1 (o2 ++ [(k, v)]) = set_key k v (spread o1 o2).
Proof. unfold spread; rewrite app_assoc, fold_left_app; reflexivity. Qed.

Lemma filter_filter {A} (p q : A -> bool) l :
  filter p (filter q l) = filter (fun x => q x && p x) l.
Proof.
  induction l as [|x l IH]; simpl; [reflexivity|].
  destruct (q x) eqn:Eq; simpl; [destruct (p x) eqn:Ep; simpl|]; rewrite ?Ep, ?IH; reflexivity.
Qed.

Lemma sorted_impl {A} (R R' : A -> A -> Prop) l :
  (forall a b, R a b -> R' a b) -> Sorted R l -> Sorted R' l.
Proof.
  intros HR; induction 1 as [|x l Hs IH Hhd]; constructor; [exact IH|].
  destruct Hhd; constructor; apply HR; assumption.
Qed.

Lemma Qltb_iff a b : Qltb a b = true <-> a < b.
Proof.
  unfold Qltb. rewrite negb_true_iff. split; intro H.
  - apply Qnot_le_lt. intro H'. apply Qle_bool_iff in H'. congruence.
  - destruct (Qle_bool b a) eqn:E; [|reflexivity].
    apply Qle_bool_iff in E. exfalso; exact (Qlt_not_le _ _ H E).
Qed.

Lemma sort_nil {A} (before : A -> A -> bool) l : sort before l = [] <-> l = [].
Proof.
  split; intro H; [|subst; reflexivity].
  pose proof (sort_perm before l) as Hp. rewrite H in Hp. exact (Permutation_nil Hp).
Qed.

Lemma group_by_nil {K A} (eqK : K -> K -> bool) (key : A -> K) l : group_by eqK key l = [] <-> l = [].
Proof.
  split; intro H; [|subst; reflexivity].
  pose proof (group_by_perm eqK key l) as Hp. rewrite H in Hp. exact (Permutation_nil Hp).
Qed.

(** Sorting on a rational key, largest first. *)
Lemma sort_desc_sorted {A} (f : A -> Q) l :
  Sorted (fun a b => f b <= f a) (sort (fun a b => Qle_bool (f b) (f a)) l).
Proof.
  eapply sorted_impl; [|apply sort_sorted].
  - intros a b H; apply Qle_bool_iff, H.
  - intros a b H. apply Qle_bool_iff. apply Qlt_le_weak, Qnot_le_lt.
    intro H'. apply Qle_bool_iff in H'. congruence.
Qed.

Lemma sort_desc_head {A} (f : A -> Q) l c rest :
  sort (fun a b => Qle_bool (f b) (f a)) l = c :: rest -> forall x, In x (c :: rest) -> f x <= f c.
Proof.
  intros H x Hx. pose proof (sort_desc_sorted f l) as Hs. rewrite H in Hs.
  apply Sorted_StronglySorted in Hs; [|intros a b d H1 H2; eapply Qle_trans; eassumption].
  apply StronglySorted_inv in Hs as [_ Hf].
  destruct Hx as [<-|Hx]; [apply Qle_refl|]. rewrite Forall_forall in Hf. exact (Hf x Hx).
Qed.


End CollFacts.

(* ------------------------------------------------------------------ *)
(** ** Reading, deleting and creating transactions *)

Module TxRoutesFacts.
Import Coll MongoId TxRoutes.
Local Open Scope list_scope.

Lemma remove_first_some {A} (p : A -> bool) l x l' :
  remove_first p l = Some (x, l') ->
  p x = true /\ exists pre post, l = pre ++ x :: post /\ l' = pre ++ post /\
                            forall u, In u pre -> p u = false.
Proof.
  revert l'; induction l as [|y r IH]; intros l' H; simpl in H; [discriminate|].
  destruct (p y) eqn:Ey.
  - inversion H; subst. split; [exact Ey|]. exists [], l'; repeat split; simpl; tauto.
  - destruct (remove_first p r) as [[z r']|] eqn:E; [|discriminate].
    inversion H; subst. destruct (IH r' eq_refl) as [Hx [pre [post [H1 [H2 H3]]]]].
    split; [exact Hx|]. exists (y :: pre), post; subst; repeat split.
    intros u [<-|Hu]; [exact Ey|exact (H3 u Hu)].
Qed.

Lemma remove_first_none {A} (p : A -> bool) l :
  (forall u, In u l -> p u = false) -> remove_first p l = None.
Proof.
  induction l as [|y r IH]; intro H; simpl; [reflexivity|].
  rewrite (H y (or_introl eq_refl)), IH; [reflexivity|].
  intros u Hu; exact (H u (or_intror Hu)).
Qed.

Lemma find_none_forall {A} (p : A -> bool) l :
  (forall u, In u l -> p u = false) -> find p l = None.
Proof.
  induction l as [|y r IH]; intro H; simpl; [reflexivity|].
  rewrite (H y (or_introl eq_refl)); apply IH; intros u Hu; exact (H u (or_intror Hu)).
Qed.

Lemma owned_true uid id t :
  owned uid id t = true <-> toLowerCase (tx_id t) = toLowerCase id /\ userId t = uid.
Proof.
  unfold owned, same_ObjectId; rewrite andb_true_iff, !String.eqb_eq; tauto.
Qed.

(** A hex digit is never [x], [X], [h] or [H]. *)
Lemma is_hex_not_prefix_letter c :
  is_hex c = true -> (Ascii.eqb (lower_char c) "x" || Ascii.eqb (lower_char c) "h") = false.
Proof.
  destruct c as [[] [] [] [] [] [] [] []]; vm_compute; congruence.
Qed.

(** Whatever casts to an [ObjectId] passes [isMongoId]. *)
Lemma casts_isMongoId id : casts_to_ObjectId id = true -> isMongoId id = true.
Proof.
  unfold casts_to_ObjectId, isMongoId, isHexadecimal.
  intro H; apply andb_prop in H as [Hh Hl]. rewrite Hl, andb_true_r.
  destruct id as [|c1 [|c2 r]]; try discriminate Hl.
  simpl in Hh. apply andb_prop in Hh as [H1 Hh]. apply andb_prop in Hh as [H2 Hh].
  rewrite (is_hex_not_prefix_letter c2 H2), andb_false_r. simpl. rewrite H1, H2, Hh; reflexivity.
Qed.

(** X1: a transaction answered by [GET /:id] is in the collection, has the
    requested id (as an [ObjectId]: hex digits up to case) and belongs to
    the requesting user. *)
Theorem get_transaction_owned store uid id t :
  get_transaction store uid id = H200 t ->
  In t store /\ toLowerCase (tx_id t) = toLowerCase id /\ userId t = uid.
Proof.
  unfold get_transaction.
  destruct (isMongoId id), (casts_to_ObjectId id); simpl; try discriminate.
  destruct (find (owned uid id) store) as [u|] eqn:E; intro H; inversion H; subst.
  apply find_some in E as [Hin Hp]. apply owned_true in Hp. tauto.
Qed.

Lemma get_transaction_owned_witness :
  get_transaction ExtSamples.store2 "u1" "65F1C0A2B3D4E5F601234567" =
    H200 (List.hd (mkTxn "" "" "" 0 "" "" 0 None) ExtSamples.store2) /\
  In (List.hd (mkTxn "" "" "" 0 "" "" 0 None) ExtSamples.store2) ExtSamples.store2 /\
  toLowerCase (tx_id (List.hd (mkTxn "" "" "" 0 "" "" 0 None) ExtSamples.store2))
    = toLowerCase "65F1C0A2B3D4E5F601234567" /\
  userId (List.hd (mkTxn "" "" "" 0 "" "" 0 None) ExtSamples.store2) = "u1".
Proof.
  assert (H : get_transaction ExtSamples.store2 "u1" "65F1C0A2B3D4E5F601234567" =
    H200 (List.hd (mkTxn "" "" "" 0 "" "" 0 None) ExtSamples.store2)) by (vm_compute; reflexivity).
  split; [exact H|]. exact (get_transaction_owned _ _ _ _ H).
Defined.

(** X2: a successful [DELETE /:id] removes exactly one document, the first
    one with that id (as an [ObjectId]) owned by the user, and keeps the
    others in order. *)
Theorem delete_transaction_removes_one store uid id store' t :
  delete_transaction store uid id = H200 (store', t) ->
  toLowerCase (tx_id t) = toLowerCase id /\ userId t = uid /\
  exists pre post, store = pre ++ t :: post /\ store' = pre ++ post /\
                   forall u, In u pre -> ~ (toLowerCase (tx_id u) = toLowerCase id /\ userId u = uid).
Proof.
  unfold delete_transaction.
  destruct (isMongoId id), (casts_to_ObjectId id); simpl; try discriminate.
  destruct (remove_first (owned uid id) store) as [[u r]|] eqn:E; intro H; inversion H; subst.
  apply remove_first_some in E as [Hp [pre [post [H1 [H2 H3]]]]].
  apply owned_true in Hp as [Hi Hu]. split; [exact Hi|]. split; [exact Hu|].
  exists pre, post; repeat split; try assumption.
  intros u Hin Ho. apply owned_true in Ho. rewrite (H3 u Hin) in Ho; discriminate.
Qed.

Lemma delete_transaction_removes_one_witness :
  delete_transaction ExtSamples.store2 "u2" ExtSamples.id2 =
    H200 ([List.hd (mkTxn "" "" "" 0 "" "" 0 None) ExtSamples.store2],
          List.nth 1 ExtSamples.store2 (mkTxn "" "" "" 0 "" "" 0 None)) /\
  toLowerCase (tx_id (List.nth 1 ExtSamples.store2 (mkTxn "" "" "" 0 "" "" 0 None)))
    = toLowerCase ExtSamples.id2.
Proof.
  assert (H : delete_transaction ExtSamples.store2 "u2" ExtSamples.id2 =
    H200 ([List.hd (mkTxn "" "" "" 0 "" "" 0 None) ExtSamples.store2],
          List.nth 1 ExtSamples.store2 (mkTxn "" "" "" 0 "" "" 0 None))) by (vm_compute; reflexivity).
  split; [exact H|]. exact (proj1 (delete_transaction_removes_one _ _ _ _ _ H)).
Defined.

(** X3: for an id that casts to an [ObjectId], a transaction of another
    user is answered exactly like a missing one: when no transaction of the
    user has that [ObjectId], [GET] and [DELETE] both answer 404. *)
Theorem foreign_transaction_not_found store uid id :
  casts_to_ObjectId id = true ->
  (forall t, In t store -> toLowerCase (tx_id t) = toLowerCase id -> userId t <> uid) ->
  get_transaction store uid id = H404 /\ delete_transaction store uid id = H404.
Proof.
  intros Hc Hno.
  assert (Hf : forall u, In u store -> owned uid id u = false).
  { intros u Hu. destruct (owned uid id u) eqn:E; [|reflexivity].
    apply owned_true in E as [E1 E2]. exfalso; exact (Hno u Hu E1 E2). }
  unfold get_transaction, delete_transaction.
  rewrite (casts_isMongoId id Hc), Hc; simpl.
  rewrite (find_none_forall _ _ Hf), (remove_first_none _ _ Hf). split; reflexivity.
Qed.

Lemma foreign_transaction_not_found_witness :
  get_transaction ExtSamples.store2 "u1" ExtSamples.id2 = H404 /\
  delete_transaction ExtSamples.store2 "u1" ExtSamples.id2 = H404.
Proof.
  apply foreign_transaction_not_found; [vm_compute; reflexivity|].
  intros t Ht Hid. simpl in Ht.
  destruct Ht as [<-|[<-|[]]]; vm_compute in Hid; [discriminate|vm_compute; discriminate].
Defined.

(** X4: a 24-character id written as [0x] followed by 22 hex digits passes
    the [isMongoId] validation but cannot be cast to an [ObjectId]: [GET]
    and [DELETE] answer 500 rather than 400 or 404. *)
Theorem hex_prefixed_id_server_error store uid r :
  all_hex r = true -> String.length r = 22%nat ->
  get_transaction store uid ("0x" ++ r) = H500 /\
  delete_transaction store uid ("0x" ++ r) = H500.
Proof.
  intros Hh Hl.
  assert (Hm : isMongoId ("0x" ++ r) = true).
  { unfold isMongoId, isHexadecimal. simpl. rewrite Hl, Hh.
    destruct r; [discriminate Hl|reflexivity]. }
  assert (Hc : casts_to_ObjectId ("0x" ++ r) = false) by reflexivity.
  unfold get_transaction, delete_transaction. rewrite Hm, Hc. split; reflexivity.
Qed.

Lemma hex_prefixed_id_server_error_witness :
  get_transaction ExtSamples.store2 "u1" ("0x" ++ "65f1c0a2b3d4e5f6012345") = H500 /\
  delete_transaction ExtSamples.store2 "u1" ("0x" ++ "65f1c0a2b3d4e5f6012345") = H500.
Proof. apply hex_prefixed_id_server_error; reflexivity. Defined.

Lemma create_data_lookup new_Date uid now body :
  lookup "userId" (create_data new_Date uid now body) = Some (OwnerRef uid) /\
  lookup "date" (create_data new_Date uid now body) = Some (DateVal (date_or_now new_Date now body)).
Proof.
  unfold create_data.
  change [("userId", OwnerRef uid); ("date", DateVal (date_or_now new_Date now body))]
    with (([] ++ [("userId", OwnerRef uid)]) ++ [("date", DateVal (date_or_now new_Date now body))]).
  rewrite !CollFacts.spread_snoc. split.
  - rewrite CollFacts.lookup_set_key_other by discriminate. apply CollFacts.lookup_set_key_same.
  - apply CollFacts.lookup_set_key_same.
Qed.

(** X5: whatever the request body holds (its own [userId] or [date]
    included), every document built by [POST /] and [POST /bulk] belongs to
    the authenticated user and carries the body's date when truthy, the
    current time otherwise. *)
Theorem created_documents_owned new_Date uid now bodies :
  forall d, In d (bulk_data new_Date uid now bodies) ->
  exists body, In body bodies /\
    lookup "userId" d = Some (OwnerRef uid) /\
    lookup "date" d = Some (DateVal (match lookup "date" body with
                                     | Some v => if JS.truthy v then new_Date v else now
                                     | None => now
                                     end)).
Proof.
  intros d Hd. unfold bulk_data in Hd. apply in_map_iff in Hd as [body [<- Hin]].
  exists body; split; [exact Hin|]. exact (create_data_lookup new_Date uid now body).
Qed.

Lemma created_documents_owned_witness :
  exists body, In body [[("userId", JStr "u2"); ("amount", JNum 5)]] /\
    lookup "userId" (create_data (fun _ => 0%Z) "u1" 7 [("userId", JStr "u2"); ("amount", JNum 5)])
      = Some (OwnerRef "u1") /\
    lookup "date" (create_data (fun _ => 0%Z) "u1" 7 [("userId", JStr "u2"); ("amount", JNum 5)])
      = Some (DateVal (match lookup "date" body with
                       | Some v => if JS.truthy v then (fun _ => 0%Z) v else 7%Z
                       | None => 7%Z
                       end)).
Proof.
  exact (created_documents_owned (fun _ => 0%Z) "u1" 7 [[("userId", JStr "u2"); ("amount", JNum 5)]]
           _ (or_introl eq_refl)).
Defined.

End TxRoutesFacts.

(* ------------------------------------------------------------------ *)
(** ** [GET /api/transactions]: filters and pagination *)

Module ListRouteFacts.
Import Coll ListRoute.
Local Open Scope list_scope.

Lemma ceil_div_eq t l : (0 < l)%Z -> ceil_div t l = (- ((- t) / l))%Z.
Proof.
  intro H. destruct l as [|p|p]; try lia.
  unfold ceil_div, Qceiling, Qfloor, inject_Z, Qdiv, Qinv, Qmult, Qopp. cbn.
  rewrite Z.mul_1_r. reflexivity.
Qed.

Lemma lt_ceil_div p t l : (0 < l)%Z -> (p < ceil_div t l <-> p * l < t)%Z.
Proof.
  intro H. rewrite ceil_div_eq by exact H.
  pose proof (Z.div_mod (- t) l ltac:(lia)). pose proof (Z.mod_pos_bound (- t) l H).
  split; intro; nia.
Qed.

Lemma ceil_div_cover t l : (0 < l)%Z -> (0 <= t)%Z ->
  (0 <= ceil_div t l)%Z /\ (t <= ceil_div t l * l)%Z.
Proof.
  intros H Ht. rewrite ceil_div_eq by exact H.
  pose proof (Z.div_mod (- t) l ltac:(lia)). pose proof (Z.mod_pos_bound (- t) l H).
  split; nia.
Qed.

Lemma list_query_valid_bounds q :
  list_query_valid q = true ->
  (1 <= match lq_page q with Some p => p | None => 1 end)%Z /\
  (1 <= match lq_limit q with Some l => l | None => 50 end <= 100)%Z /\
  (forall ty, lq_type q = Some ty -> ty = "income" \/ ty = "expense").
Proof.
  unfold list_query_valid. intro H.
  apply andb_prop in H as [H H3]. apply andb_prop in H as [H1 H2].
  repeat split.
  - destruct (lq_page q); [apply Z.leb_le in H1|]; lia.
  - destruct (lq_limit q); [apply andb_prop in H2 as [H2 _]; apply Z.leb_le in H2|]; lia.
  - destruct (lq_limit q); [apply andb_prop in H2 as [_ H2]; apply Z.leb_le in H2|]; lia.
  - intros ty Hty. rewrite Hty in H3. apply orb_prop in H3 as [H3|H3];
      apply String.eqb_eq in H3; auto.
Qed.

Lemma newest_first_perm l : Permutation (newest_first l) l.
Proof.
  unfold newest_first. rewrite CollFacts.sort_perm. apply Permutation_sym, Permutation_rev.
Qed.

Lemma newest_first_sorted l : Sorted (fun a b => (date b <= date a)%Z) (newest_first l).
Proof.
  eapply Sorted_ind with (R := fun a b => (date b <=? date a)%Z = true)
    (P := fun l => Sorted (fun a b => (date b <= date a)%Z) l).
  - constructor.
  - intros a l0 _ IH Hhd. constructor; [exact IH|].
    destruct Hhd; constructor. apply Z.leb_le; assumption.
  - apply CollFacts.sort_sorted. intros a b E. apply Z.leb_gt in E. apply Z.leb_le. lia.
Qed.

Lemma in_firstn {A} n (x : A) l : In x (firstn n l) -> In x l.
Proof. intro H. rewrite <- (firstn_skipn n l). apply in_or_app; left; exact H. Qed.

Lemma in_skipn {A} n (x : A) l : In x (skipn n l) -> In x l.
Proof. intro H. rewrite <- (firstn_skipn n l). apply in_or_app; right; exact H. Qed.

Lemma sorted_skipn {A} (R : A -> A -> Prop) n l : Sorted R l -> Sorted R (skipn n l).
Proof.
  revert l; induction n as [|n IH]; intros l H; [exact H|].
  destruct l as [|x l]; [constructor|]. apply IH. exact (proj1 (Sorted_inv H)).
Qed.

Lemma sorted_firstn {A} (R : A -> A -> Prop) n l : Sorted R l -> Sorted R (firstn n l).
Proof.
  revert l; induction n as [|n IH]; intros l H; [constructor|].
  destruct l as [|x l]; [constructor|]. simpl.
  apply Sorted_inv in H as [H1 H2]. constructor; [exact (IH l H1)|].
  destruct n as [|n]; [constructor|]. destruct l as [|y l]; [constructor|].
  inversion H2; subst. constructor; assumption.
Qed.

(** X6: a listed page holds at most [limit] transactions (1 to 100), all of
    the requesting user, of the requested type and inside the requested
    dates, newest first. *)
Theorem list_route_page_contents regex_valid regex_test store uid q r :
  list_route regex_valid regex_test store uid q = H200 r ->
  (1 <= lr_currentPage r)%Z /\ (1 <= lr_limit r <= 100)%Z /\
  (List.length (lr_transactions r) <= Z.to_nat (lr_limit r))%nat /\
  Sorted (fun a b => (date b <= date a)%Z) (lr_transactions r) /\
  forall t, In t (lr_transactions r) ->
    userId t = uid /\
    (forall ty, lq_type q = Some ty -> type_ t = ty) /\
    (forall s, lq_startDate q = Some s -> (s <= date t)%Z) /\
    (forall e, lq_endDate q = Some e -> (date t <= e)%Z).
Proof.
  unfold list_route. destruct (list_query_valid q) eqn:Hv; [|discriminate].
  destruct (regexes_valid regex_valid q); cbn [negb]; [|discriminate].
  intro H; inversion H; subst; clear H; cbn [lr_currentPage lr_limit lr_transactions].
  destruct (list_query_valid_bounds q Hv) as [Hp [Hl Hty]].
  split; [exact Hp|]. split; [exact Hl|]. split; [apply firstn_le_length|]. split.
  { apply sorted_firstn, sorted_skipn, newest_first_sorted. }
  intros t Ht. apply in_firstn, in_skipn in Ht.
  apply (Permutation_in _ (newest_first_perm _)) in Ht.
  apply filter_In in Ht as [_ Hm]. unfold list_match in Hm.
  repeat (apply andb_prop in Hm as [Hm ?]).
  apply String.eqb_eq in Hm. split; [exact Hm|]. repeat split.
  - intros ty E. rewrite E in *. destruct (Hty ty eq_refl) as [->| ->];
      cbn -[String.eqb] in *; apply String.eqb_eq; assumption.
  - intros s E. rewrite E in *. apply Z.leb_le; assumption.
  - intros e E. rewrite E in *. apply Z.leb_le; assumption.
Qed.

Lemma list_route_page_contents_witness :
  exists r, list_route (fun _ => true) (fun _ _ => true) ExtSamples.store7 "u1" ExtSamples.list_query1 = H200 r /\
  List.length (lr_transactions r) = 3%nat /\
  (List.length (lr_transactions r) <= Z.to_nat (lr_limit r))%nat.
Proof.
  eexists. split; [vm_compute; reflexivity|]. split; [vm_compute; reflexivity|].
  refine (proj1 (proj2 (proj2 (list_route_page_contents (fun _ => true) (fun _ _ => true)
    ExtSamples.store7 "u1" ExtSamples.list_query1 _ _)))).
  vm_compute; reflexivity.
Defined.

(** X7: [hasNextPage] holds exactly when the transactions before the end of
    this page are fewer than the total; a page past the end is answered
    with 200 and no transactions. *)
Theorem list_route_next_page regex_valid regex_test store uid q r :
  list_route regex_valid regex_test store uid q = H200 r ->
  lr_totalTransactions r = Z.of_nat (List.length (filter (list_match regex_test uid q) store)) /\
  (lr_hasNextPage r = true <-> (lr_currentPage r * lr_limit r < lr_totalTransactions r)%Z) /\
  (lr_transactions r = [] <-> (lr_totalTransactions r <= (lr_currentPage r - 1) * lr_limit r)%Z).
Proof.
  unfold list_route. destruct (list_query_valid q) eqn:Hv; [|discriminate].
  destruct (regexes_valid regex_valid q); cbn [negb]; [|discriminate].
  intro H; inversion H; subst; clear H.
  cbn [lr_currentPage lr_limit lr_transactions lr_totalTransactions lr_hasNextPage].
  destruct (list_query_valid_bounds q Hv) as [Hp [Hl _]].
  set (page := match lq_page q with Some p => p | None => 1%Z end) in *.
  set (limit := match lq_limit q with Some l => l | None => 50%Z end) in *.
  split; [reflexivity|]. split.
  - rewrite Z.ltb_lt. apply lt_ceil_div. lia.
  - rewrite <- length_zero_iff_nil, length_firstn, length_skipn, (Permutation_length (newest_first_perm _)).
    assert (Hk : (0 <= (page - 1) * limit)%Z) by nia.
    set (k := ((page - 1) * limit)%Z) in *. clearbody k. lia.
Qed.

Lemma list_route_next_page_witness :
  exists r, list_route (fun _ => true) (fun _ _ => true) ExtSamples.store7 "u1" ExtSamples.list_query1 = H200 r /\
  lr_hasNextPage r = true /\ (lr_currentPage r * lr_limit r < lr_totalTransactions r)%Z.
Proof.
  eexists. split; [vm_compute; reflexivity|]. split; [vm_compute; reflexivity|].
  refine (proj1 (proj1 (proj2 (list_route_next_page (fun _ => true) (fun _ _ => true)
    ExtSamples.store7 "u1" ExtSamples.list_query1 _ _))) _); vm_compute; reflexivity.
Defined.

Lemma firstn_add {A} a b (l : list A) : firstn (a + b) l = firstn a l ++ firstn b (skipn a l).
Proof.
  revert l; induction a as [|a IH]; intro l; [reflexivity|].
  destruct l as [|x l]; simpl; [rewrite firstn_nil; reflexivity|]. rewrite IH; reflexivity.
Qed.

Lemma concat_pages {A} k n s (l : list A) :
  List.concat (map (fun i => firstn k (skipn (i * k) l)) (seq s n)) = firstn (n * k) (skipn (s * k) l).
Proof.
  revert s; induction n as [|n IH]; intro s; [reflexivity|].
  cbn [seq map List.concat]. rewrite IH.
  change (S n * k)%nat with (k + n * k)%nat. rewrite firstn_add, skipn_skipn.
  reflexivity.
Qed.

(** Two newest-first orderings of the same transactions with pairwise
    distinct dates are the same list. *)
Lemma sorted_date_unique (l1 l2 : list Transaction) :
  Permutation l1 l2 -> NoDup (map date l1) ->
  Sorted (fun a b => (date b <= date a)%Z) l1 ->
  Sorted (fun a b => (date b <= date a)%Z) l2 -> l1 = l2.
Proof.
  revert l2; induction l1 as [|a l1 IH]; intros l2 Hp Hn H1 H2.
  - symmetry; apply Permutation_nil, Hp.
  - destruct l2 as [|b l2]; [apply Permutation_sym, Permutation_nil in Hp; discriminate|].
    assert (Hs1 := Sorted_StronglySorted (fun x y z (Hxy : (date y <= date x)%Z) (Hyz : (date z <= date y)%Z) => Z.le_trans _ _ _ Hyz Hxy) H1).
    assert (Hs2 := Sorted_StronglySorted (fun x y z (Hxy : (date y <= date x)%Z) (Hyz : (date z <= date y)%Z) => Z.le_trans _ _ _ Hyz Hxy) H2).
    apply StronglySorted_inv in Hs1 as [_ Ha]. apply StronglySorted_inv in Hs2 as [_ Hb].
    rewrite Forall_forall in Ha, Hb.
    inversion Hn as [|x y Hnot Hn']; subst.
    assert (Hab : a = b).
    { assert (Ha2 : In a (b :: l2)) by (apply (Permutation_in _ Hp); left; reflexivity).
      assert (Hb1 : In b (a :: l1)) by (apply (Permutation_in _ (Permutation_sym Hp)); left; reflexivity).
      destruct Ha2 as [<-|Ha2]; [reflexivity|].
      destruct Hb1 as [->|Hb1]; [reflexivity|].
      exfalso. apply Hnot. specialize (Ha b Hb1). specialize (Hb a Ha2).
      replace (date a) with (date b) by lia. apply in_map, Hb1. }
    subst b. f_equal. apply IH; [exact (Permutation_cons_inv Hp) | exact Hn' | |].
    + exact (proj1 (Sorted_inv H1)).
    + exact (proj1 (Sorted_inv H2)).
Qed.

(** X8: when no two matching transactions share a date, requesting pages 1
    to [totalPages] with the same filters returns every matching
    transaction exactly once, newest first; then every newest-first order
    the database may return for a page is the order of [newest_first]. *)
Theorem list_pages_cover regex_valid regex_test store uid q r :
  NoDup (map date (filter (list_match regex_test uid q) store)) ->
  list_route regex_valid regex_test store uid q = H200 r ->
  (forall l, Permutation l (filter (list_match regex_test uid q) store) ->
             Sorted (fun a b => (date b <= date a)%Z) l ->
             l = newest_first (filter (list_match regex_test uid q) store)) /\
  List.concat (map (fun p => match list_route regex_valid regex_test store uid (with_page q (Z.of_nat p)) with
                             | H200 r' => lr_transactions r'
                             | _ => []
                             end)
                   (seq 1 (Z.to_nat (lr_totalPages r))))
  = newest_first (filter (list_match regex_test uid q) store).
Proof.
  intros Hnd H. split.
  { intros l Hp Hs. apply sorted_date_unique; [| |exact Hs|apply newest_first_sorted].
    - rewrite Hp. apply Permutation_sym, newest_first_perm.
    - apply (Permutation_NoDup (Permutation_map date (Permutation_sym Hp))), Hnd. }
  unfold list_route in H. destruct (list_query_valid q) eqn:Hv; [|discriminate].
  destruct (regexes_valid regex_valid q) eqn:Hr; cbn [negb] in H; [|discriminate].
  inversion H; subst; clear H. cbn [lr_totalPages].
  destruct (list_query_valid_bounds q Hv) as [Hp [Hl _]].
  set (limit := match lq_limit q with Some l => l | None => 50%Z end) in *.
  set (Sl := newest_first (filter (list_match regex_test uid q) store)).
  assert (Hlen : List.length Sl = List.length (filter (list_match regex_test uid q) store))
    by apply Permutation_length, newest_first_perm.
  assert (Hmatch : forall p, list_match regex_test uid (with_page q p) = list_match regex_test uid q)
    by reflexivity.
  rewrite (map_ext_in _ (fun p => firstn (Z.to_nat limit) (skipn ((p - 1) * Z.to_nat limit) Sl))).
  2:{ intros p Hp'. apply in_seq in Hp'.
      assert (Hv' : list_query_valid (with_page q (Z.of_nat p)) = true).
      { unfold list_query_valid, with_page in *; cbn [lq_page lq_limit lq_type] in *.
        apply andb_prop in Hv as [Hv Hv3]. apply andb_prop in Hv as [_ Hv2].
        rewrite Hv2, Hv3. replace (1 <=? Z.of_nat p)%Z with true by (symmetry; apply Z.leb_le; lia).
        reflexivity. }
      assert (Hr' : regexes_valid regex_valid (with_page q (Z.of_nat p)) = true) by exact Hr.
      unfold list_route. rewrite Hv', Hr'; cbn [negb]. rewrite Hmatch. fold Sl.
      unfold with_page; cbn [lq_page lq_limit lr_transactions]. fold limit.
      rewrite Z2Nat.inj_mul by lia. do 3 f_equal. lia. }
  rewrite <- seq_shift, map_map.
  rewrite (map_ext _ (fun i => firstn (Z.to_nat limit) (skipn (i * Z.to_nat limit) Sl)))
    by (intro x; cbn [Nat.sub]; rewrite Nat.sub_0_r; reflexivity).
  rewrite concat_pages. cbn [Nat.mul skipn]. apply firstn_all2.
  destruct (ceil_div_cover (Z.of_nat (List.length (filter (list_match regex_test uid q) store))) limit)
    as [Hc1 Hc2]; [lia|lia|].
  rewrite Hlen. rewrite <- Z2Nat.inj_mul by lia. lia.
Qed.

Lemma list_pages_cover_witness :
  List.concat (map (fun p => match list_route (fun _ => true) (fun _ _ => true) ExtSamples.store7 "u1"
                                     (with_page ExtSamples.list_query1 (Z.of_nat p)) with
                             | H200 r' => lr_transactions r'
                             | _ => []
                             end) (seq 1 2))
  = newest_first (filter (list_match (fun _ _ => true) "u1" ExtSamples.list_query1) ExtSamples.store7).
Proof.
  refine (proj2 (list_pages_cover (fun _ => true) (fun _ _ => true) ExtSamples.store7 "u1" ExtSamples.list_query1
    (mkListResponse (firstn 3 (newest_first (filter (list_match (fun _ _ => true) "u1" ExtSamples.list_query1) ExtSamples.store7)))
       1 2 6 true false 3) _ _)).
  - vm_compute. repeat constructor; vm_compute; intuition discriminate.
  - vm_compute; reflexivity.
Defined.

End ListRouteFacts.

(* ------------------------------------------------------------------ *)
(** ** Categories and summary *)

Module AnalyticsFacts.
Import Cal Analytics Summary Coll.
Local Open Scope list_scope.

Lemma getDate_bounds t : (1 <= getDate t <= 31)%Z.
Proof.
  unfold getDate, civil_from_days, civil_of_doe.
  set (doe := ((Day t + 719468) mod 146097)%Z).
  assert (Hdoe : (0 <= doe < 146097)%Z) by (apply Z.mod_pos_bound; lia).
  destruct (CalFacts.doe_bounds doe Hdoe) as [Hyoe Hdoy].
  set (yoe := ((doe - doe / 1460 + doe / 36524 - doe / 146096) / 365)%Z) in *.
  set (doy := (doe - (365 * yoe + yoe / 4 - yoe / 100))%Z) in *.
  cbv zeta. repeat match goal with |- context [if ?b then _ else _] => destruct b end; Z.div_mod_to_equations; lia.
Qed.

Lemma new_Date3_day0 y m : new_Date3 y m 0 = (new_Date3 y m 1 - msPerDay)%Z.
Proof. unfold new_Date3, MakeDate, MakeDay; cbv zeta. unfold msPerDay; lia. Qed.

Lemma TimeWithinDay_bounds t : (0 <= TimeWithinDay t < msPerDay)%Z.
Proof. unfold TimeWithinDay; apply Z.mod_pos_bound; unfold msPerDay; lia. Qed.

(** X9: [GET /categories/list] gives each of the user's categories once,
    with counts that add up to the user's number of transactions, largest
    count first. *)
Theorem categories_list_counts store uid :
  list_sum (map snd (TxRoutes.categories_list store uid))
    = List.length (filter (fun t => String.eqb (userId t) uid) store) /\
  NoDup (map fst (TxRoutes.categories_list store uid)) /\
  Sorted (fun a b => (snd b <= snd a)%nat) (TxRoutes.categories_list store uid) /\
  forall c n, In (c, n) (TxRoutes.categories_list store uid) ->
    n = List.length (filter (fun t => String.eqb (userId t) uid && String.eqb (category t) c) store).
Proof.
  unfold TxRoutes.categories_list.
  set (L := filter (fun t => String.eqb (userId t) uid) store).
  set (G := group_by String.eqb category L).
  pose proof (CollFacts.sort_perm (fun a b => (snd b <=? snd a)%nat)
                (map (fun g => (fst g, List.length (snd g))) G)) as Hp.
  split; [|split; [|split]].
  - rewrite (Permutation_list_sum (Permutation_map snd Hp)), map_map. cbn [snd].
    rewrite <- (map_map snd (@List.length Transaction)), <- length_concat.
    apply Permutation_length, CollFacts.group_by_perm.
  - apply (Permutation_NoDup (Permutation_map fst (Permutation_sym Hp))).
    rewrite map_map; cbn [fst]. apply (CollFacts.group_by_nodup String.eqb category String.eqb_eq).
  - eapply CollFacts.sorted_impl; [|apply CollFacts.sort_sorted].
    + intros a b H; apply Nat.leb_le, H.
    + intros a b H. apply Nat.leb_gt in H. apply Nat.leb_le. lia.
  - intros c n Hin. apply (Permutation_in _ Hp) in Hin.
    apply in_map_iff in Hin as [[k xs] [Heq Hin]]. cbn in Heq. inversion Heq; subst k n.
    rewrite (CollFacts.group_by_filter String.eqb category String.eqb_eq L c xs Hin).
    unfold L. rewrite CollFacts.filter_filter. reflexivity.
Qed.

Lemma categories_list_counts_witness :
  In ("Food & Dining", 2%nat) (TxRoutes.categories_list ExtSamples.store7 "u1") /\
  2%nat = List.length (filter (fun t => String.eqb (userId t) "u1" && String.eqb (category t) "Food & Dining")
                         ExtSamples.store7).
Proof.
  assert (Hin : In ("Food & Dining", 2%nat) (TxRoutes.categories_list ExtSamples.store7 "u1")).
  { vm_compute. repeat (first [left; reflexivity | right]). }
  split; [exact Hin|].
  exact (proj2 (proj2 (proj2 (categories_list_counts ExtSamples.store7 "u1"))) _ _ Hin).
Defined.

(** X16: the day before the current month is only partly covered: the
    previous-month window of [/summary] and the last-month window of
    [/insights] end at 00:00 of that day, and the current-month windows
    start a day later, so an instant in between is counted in neither. *)
Theorem month_windows_gap now t :
  (InsightsRoute.lastMonthEnd now < t < InsightsRoute.currentMonthStart now)%Z ->
  InsightsRoute.currentMonthStart now = (InsightsRoute.lastMonthEnd now + msPerDay)%Z /\
  in_window (previousPeriodFilter "month" now) t = false /\
  in_window (summary_dateFilter "month" None None now) t = false /\
  ((InsightsRoute.lastMonthStart now <=? t)%Z && (t <=? InsightsRoute.lastMonthEnd now)%Z) = false /\
  (InsightsRoute.currentMonthStart now <=? t)%Z = false.
Proof.
  unfold InsightsRoute.currentMonthStart, InsightsRoute.lastMonthEnd, InsightsRoute.lastMonthStart.
  rewrite new_Date3_day0. intros Ht.
  assert (E1 : (t <=? new_Date3 (getFullYear now) (getMonth now) 1 - msPerDay)%Z = false)
    by (apply Z.leb_gt; lia).
  assert (E2 : (new_Date3 (getFullYear now) (getMonth now) 1 <=? t)%Z = false)
    by (apply Z.leb_gt; lia).
  split; [lia|].
  unfold previousPeriodFilter, summary_dateFilter. cbn -[new_Date3 getFullYear getMonth msPerDay Z.leb].
  rewrite new_Date3_day0, E1, E2, !andb_false_r. repeat split.
Qed.

Lemma month_windows_gap_witness :
  in_window (previousPeriodFilter "month" Samples.now0) (Samples.at_day 2024 2 29 36000000) = false /\
  in_window (summary_dateFilter "month" None None Samples.now0) (Samples.at_day 2024 2 29 36000000) = false.
Proof.
  destruct (month_windows_gap Samples.now0 (Samples.at_day 2024 2 29 36000000)) as [_ [H1 [H2 _]]].
  - split; vm_compute; reflexivity.
  - split; assumption.
Defined.

(** X18: a transaction whose [isCurrentMonth()] method is true at [now] is
    in the [month] window of [/summary] and outside its previous-month
    window. *)
Theorem current_month_in_summary_window t now :
  Schema.isCurrentMonth t now = true ->
  in_window (summary_dateFilter "month" None None now) (date t) = true /\
  in_window (previousPeriodFilter "month" now) (date t) = false.
Proof.
  unfold Schema.isCurrentMonth. intro H. apply andb_prop in H as [Hm Hy].
  apply Z.eqb_eq in Hm, Hy.
  unfold previousPeriodFilter, summary_dateFilter. cbn -[new_Date3 getFullYear getMonth Z.leb].
  rewrite <- Hm, <- Hy, new_Date3_day0, CalFacts.month_start.
  pose proof (getDate_bounds (date t)). pose proof (TimeWithinDay_bounds (date t)).
  assert (0 <= (getDate (date t) - 1) * msPerDay)%Z by (unfold msPerDay in *; nia).
  rewrite (proj2 (Z.leb_le _ _)) by lia.
  rewrite (proj2 (Z.leb_gt (date t) _)) by (unfold msPerDay in *; lia).
  rewrite andb_false_r. split; reflexivity.
Qed.

Lemma current_month_in_summary_window_witness :
  in_window (summary_dateFilter "month" None None Samples.now0) (date (List.nth 6 ExtSamples.store7 (mkTxn "" "" "" 0 "" "" 0 None))) = true /\
  in_window (previousPeriodFilter "month" Samples.now0) (date (List.nth 6 ExtSamples.store7 (mkTxn "" "" "" 0 "" "" 0 None))) = false.
Proof. apply current_month_in_summary_window. vm_compute; reflexivity. Defined.

End AnalyticsFacts.

(* ------------------------------------------------------------------ *)
(** ** Spending patterns *)

Module PatternsFacts.
Import Coll Patterns.
Local Open Scope list_scope.

Lemma fold_max l acc m :
  fold_left (fun max day => if Qltb (dp_totalSpent max) (dp_totalSpent day) then day else max) l acc = m ->
  dp_totalSpent acc <= dp_totalSpent m /\ (forall p, In p l -> dp_totalSpent p <= dp_totalSpent m) /\
  (m = acc \/ exists pre post, l = pre ++ m :: post /\ dp_totalSpent acc < dp_totalSpent m /\
                               forall p, In p pre -> dp_totalSpent p < dp_totalSpent m).
Proof.
  revert acc; induction l as [|x l IH]; intros acc Hm; cbn [fold_left] in Hm.
  - subst. split; [apply Qle_refl|]. split; [intros p []|left; reflexivity].
  - destruct (Qltb (dp_totalSpent acc) (dp_totalSpent x)) eqn:E.
    + apply CollFacts.Qltb_iff in E. destruct (IH x Hm) as [H1 [H2 H3]].
      split; [apply Qlt_le_weak; eapply Qlt_le_trans; eassumption|].
      split; [intros p [<-|Hp]; [exact H1|exact (H2 p Hp)]|].
      right. destruct H3 as [Hx|[pre [post [Hl [Hlt Hpre]]]]].
      * exists [], l. rewrite Hx. split; [reflexivity|]. split; [exact E|intros p []].
      * exists (x :: pre), post. split; [rewrite Hl; reflexivity|].
        split; [eapply Qlt_trans; eassumption|].
        intros p [<-|Hp]; [exact Hlt|exact (Hpre p Hp)].
    + assert (Ex : dp_totalSpent x <= dp_totalSpent acc).
      { apply Qnot_lt_le. intro H'. apply CollFacts.Qltb_iff in H'. congruence. }
      destruct (IH acc Hm) as [H1 [H2 H3]].
      split; [exact H1|].
      split; [intros p [<-|Hp]; [eapply Qle_trans; eassumption|exact (H2 p Hp)]|].
      destruct H3 as [Hx|[pre [post [Hl [Hlt Hpre]]]]]; [left; exact Hx|].
      right. exists (x :: pre), post. split; [rewrite Hl; reflexivity|]. split; [exact Hlt|].
      intros p [<-|Hp]; [eapply Qle_lt_trans; eassumption|exact (Hpre p Hp)].
Qed.

(** [highestSpendingDay] is the first day with the largest total. *)
Lemma highestSpendingDay_spec dp m :
  highestSpendingDay dp = Some m ->
  exists pre post, dp = pre ++ m :: post /\
    (forall p, In p dp -> dp_totalSpent p <= dp_totalSpent m) /\
    (forall p, In p pre -> dp_totalSpent p < dp_totalSpent m).
Proof.
  destruct dp as [|d0 r]; intro H; [discriminate|]. injection H as H.
  destruct (fold_max (d0 :: r) d0 m H) as [_ [H2 [Hm|[pre [post [Hl [_ Hpre]]]]]]].
  - rewrite Hm in H2 |- *. exists [], r. split; [reflexivity|]. split; [exact H2|intros p []].
  - exists pre, post. split; [exact Hl|]. split; [exact H2|exact Hpre].
Qed.

Lemma highestSpendingDay_some dp : dp <> [] -> exists m, highestSpendingDay dp = Some m.
Proof. destruct dp as [|d0 r]; intro H; [congruence|]. eexists; reflexivity. Qed.

Ltac split_insights H :=
  unfold generatePatternInsights in H; cbv zeta in H;
  apply in_app_or in H as [H|H]; [|apply in_app_or in H as [H|H]].

(** X11: the peak-day insight of [/patterns] appears exactly when some day
    has a positive total, and it names the first day with the largest
    total. *)
Theorem peak_day_insight nts dp mp ct :
  ((exists i, In i (generatePatternInsights nts dp mp ct) /\ in_title i = "Peak Spending Day")
   <-> exists d, In d dp /\ 0 < dp_totalSpent d) /\
  (forall i, In i (generatePatternInsights nts dp mp ct) -> in_title i = "Peak Spending Day" ->
   exists pre d post rest, dp = pre ++ d :: post /\
     (forall p, In p dp -> dp_totalSpent p <= dp_totalSpent d) /\
     (forall p, In p pre -> dp_totalSpent p < dp_totalSpent d) /\
     in_message i = ("You spend the most on " ++ dp_day d ++ rest)%string).
Proof.
  assert (Hpeak : forall i, In i (generatePatternInsights nts dp mp ct) -> in_title i = "Peak Spending Day" ->
            exists d, highestSpendingDay dp = Some d /\ 0 < dp_totalSpent d /\
              in_message i = ("You spend the most on " ++ dp_day d ++ "s ($"
                 ++ Num.toFixed nts 2 (dp_totalSpent d) ++ " total)")%string).
  { intros i Hi Ht. split_insights Hi.
    - destruct (highestSpendingDay dp) as [d|]; [|destruct Hi].
      destruct (Qltb 0 (dp_totalSpent d)) eqn:E; [|destruct Hi].
      destruct Hi as [<-|[]]. exists d. split; [reflexivity|]. split; [apply CollFacts.Qltb_iff, E|reflexivity].
    - destruct ct as [|c ct]; [destruct Hi|]. destruct Hi as [<-|[]]; discriminate Ht.
    - destruct (1 <? List.length mp)%nat; [|destruct Hi].
      destruct existsb; [|destruct Hi]. destruct Hi as [<-|[]]; discriminate Ht. }
  split; [split|].
  - intros [i [Hi Ht]]. destruct (Hpeak i Hi Ht) as [d [Hd [Hpos _]]].
    destruct (highestSpendingDay_spec dp d Hd) as [pre [post [Hl _]]].
    exists d. split; [rewrite Hl; apply in_or_app; right; left; reflexivity|exact Hpos].
  - intros [d [Hin Hpos]].
    destruct (highestSpendingDay_some dp) as [m Hm]; [intros ->; destruct Hin|].
    destruct (highestSpendingDay_spec dp m Hm) as [_ [_ [_ [Hmax _]]]].
    assert (Hpm : 0 < dp_totalSpent m) by (eapply Qlt_le_trans; [exact Hpos|exact (Hmax d Hin)]).
    eexists. split.
    + unfold generatePatternInsights; cbv zeta. rewrite Hm.
      apply CollFacts.Qltb_iff in Hpm. rewrite Hpm. apply in_or_app; left; left; reflexivity.
    + reflexivity.
  - intros i Hi Ht. destruct (Hpeak i Hi Ht) as [d [Hd [_ Hmsg]]].
    destruct (highestSpendingDay_spec dp d Hd) as [pre [post [Hl [Hmax Hpre]]]].
    exists pre, d, post, ("s ($" ++ Num.toFixed nts 2 (dp_totalSpent d) ++ " total)")%string.
    repeat split; assumption.
Qed.

Lemma sumQ_const l a : (forall x, In x l -> x == a) -> sumQ l == inject_Z (Z.of_nat (List.length l)) * a.
Proof.
  induction l as [|x l IH]; intro H; [reflexivity|].
  unfold sumQ in *; cbn [fold_right List.length]. rewrite IH by (intros y Hy; exact (H y (or_intror Hy))).
  rewrite (H x (or_introl eq_refl)). rewrite Nat2Z.inj_succ, <- Z.add_1_r, inject_Z_plus. ring.
Qed.

(** X12: the irregular-spending warning of [/patterns] needs at least two
    weeks of the month, and, when week totals are not negative, two weeks
    with different totals. *)
Theorem irregular_pattern_insight nts dp mp ct :
  (forall w, In w mp -> 0 <= mp_totalSpent w) ->
  (exists i, In i (generatePatternInsights nts dp mp ct) /\ in_title i = "Irregular Spending Pattern") ->
  (2 <= List.length mp)%nat /\
  exists w1 w2, In w1 mp /\ In w2 mp /\ ~ (mp_totalSpent w1 == mp_totalSpent w2).
Proof.
  intros Hnn [i [Hi Ht]]. split_insights Hi.
  - destruct (highestSpendingDay dp) as [d|]; [|destruct Hi].
    destruct (Qltb 0 (dp_totalSpent d)); [|destruct Hi]. destruct Hi as [<-|[]]; discriminate Ht.
  - destruct ct as [|c ct]; [destruct Hi|]. destruct Hi as [<-|[]]; discriminate Ht.
  - destruct (1 <? List.length mp)%nat eqn:Hlen; [|destruct Hi].
    destruct existsb eqn:Hex; [|destruct Hi]. apply Nat.ltb_lt in Hlen. split; [lia|].
    destruct mp as [|w0 rest]; [cbn in Hlen; lia|].
    apply existsb_exists in Hex as [a [Ha Hlt]]. apply in_map_iff in Ha as [w [<- Hw]].
    apply CollFacts.Qltb_iff in Hlt.
    destruct (Qeq_dec (mp_totalSpent w) (mp_totalSpent w0)) as [E|E].
    2:{ exists w, w0. split; [exact Hw|]. split; [left; reflexivity|exact E]. }
    (* otherwise some other week differs from the first one *)
    destruct (existsb (fun v => negb (Qeq_bool (mp_totalSpent v) (mp_totalSpent w0))) (w0 :: rest)) eqn:Hd.
    + apply existsb_exists in Hd as [v [Hv Hne]]. exists v, w0. split; [exact Hv|]. split; [left; reflexivity|].
      intro Hq. apply Qeq_bool_iff in Hq. rewrite Hq in Hne. discriminate.
    + exfalso.
      assert (Hall : forall x, In x (map mp_totalSpent (w0 :: rest)) -> x == mp_totalSpent w0).
      { intros x Hx. apply in_map_iff in Hx as [v [<- Hv]].
        destruct (Qeq_bool (mp_totalSpent v) (mp_totalSpent w0)) eqn:Eq; [apply Qeq_bool_iff, Eq|].
        assert (Hin : existsb (fun v => negb (Qeq_bool (mp_totalSpent v) (mp_totalSpent w0))) (w0 :: rest) = true)
          by (apply existsb_exists; exists v; rewrite Eq; split; [exact Hv|reflexivity]).
        congruence. }
      set (n := List.length (map mp_totalSpent (w0 :: rest))) in *.
      assert (Hn : ~ inject_Z (Z.of_nat n) == 0).
      { unfold n; rewrite length_map; cbn [List.length]. rewrite Nat2Z.inj_succ. intro H0.
        unfold Qeq, inject_Z in H0. cbn [Qnum Qden] in H0. lia. }
      assert (Havg : sumQ (map mp_totalSpent (w0 :: rest)) / inject_Z (Z.of_nat n) == mp_totalSpent w0).
      { rewrite (sumQ_const _ _ Hall). fold n. field. exact Hn. }
      rewrite Havg, E in Hlt. setoid_replace (mp_totalSpent w0 - mp_totalSpent w0) with 0 in Hlt by ring.
      simpl in Hlt. pose proof (Hnn w0 (or_introl eq_refl)) as H0.
      assert (0 <= mp_totalSpent w0 * (3 # 10)) by (apply Qmult_le_0_compat; [exact H0|discriminate]).
      exact (Qlt_not_le _ _ Hlt H).
Qed.

Lemma peak_day_insight_witness :
  exists pre d post rest,
    [mkDayPattern "Monday" 2 30 1 30; mkDayPattern "Friday" 6 30 1 30] = pre ++ d :: post /\
    (forall p, In p [mkDayPattern "Monday" 2 30 1 30; mkDayPattern "Friday" 6 30 1 30] ->
               dp_totalSpent p <= dp_totalSpent d) /\
    (forall p, In p pre -> dp_totalSpent p < dp_totalSpent d) /\
    in_message (mkInsight "info" "Peak Spending Day" ("You spend the most on Mondays ($" ++ "30.00" ++ " total)")
                 "Consider budgeting extra for Mondays or planning major purchases for lower-spending days.")
    = ("You spend the most on " ++ dp_day d ++ rest)%string.
Proof.
  apply (proj2 (peak_day_insight (fun _ => "30") [mkDayPattern "Monday" 2 30 1 30; mkDayPattern "Friday" 6 30 1 30] [] [])).
  - vm_compute. left; reflexivity.
  - reflexivity.
Defined.

Lemma irregular_pattern_insight_witness :
  (2 <= List.length [mkMonthPattern 1 100 1; mkMonthPattern 2 10 1])%nat /\
  exists w1 w2, In w1 [mkMonthPattern 1 100 1; mkMonthPattern 2 10 1] /\
                In w2 [mkMonthPattern 1 100 1; mkMonthPattern 2 10 1] /\
                ~ (mp_totalSpent w1 == mp_totalSpent w2).
Proof.
  apply (irregular_pattern_insight (fun _ => "") [] [mkMonthPattern 1 100 1; mkMonthPattern 2 10 1] []).
  - intros w Hw. destruct Hw as [<-|[<-|[]]]; discriminate.
  - exists (mkInsight "warning" "Irregular Spending Pattern"
              "Your weekly spending varies significantly throughout the month"
              "Consider creating a weekly budget to smooth out spending patterns.").
    split; [vm_compute; left; reflexivity|reflexivity].
Defined.

(** X13: [/patterns] reports a "Most Active Category" exactly when the
    user has a transaction in the last 30 days (an income counts too), and
    it names the first category of the returned trends, whose total amount
    is the largest. *)
Theorem patterns_top_category nts store uid now dps mps cts ins :
  patterns_route nts store uid now = (dps, mps, cts, ins) ->
  ((exists i, In i ins /\ in_title i = "Most Active Category") <->
   exists t, In t store /\ userId t = uid /\ (now - 30 * 24 * 60 * 60 * 1000 <= date t)%Z) /\
  (forall i, In i ins -> in_title i = "Most Active Category" ->
   exists c rest, hd_error cts = Some c /\
     (forall c', In c' cts -> ct_totalAmount c' <= ct_totalAmount c) /\
     in_message i = (ct_id c ++ rest)%string).
Proof.
  unfold patterns_route; cbv zeta.
  set (recent := filter _ store).
  set (CT := sort (fun a b => Qle_bool (ct_totalAmount b) (ct_totalAmount a)) _).
  intro H; injection H as <- <- <- <-.
  assert (HCT : CT = [] <-> recent = []).
  { split; intro H.
    - apply CollFacts.sort_nil, map_eq_nil, CollFacts.group_by_nil, map_eq_nil, CollFacts.group_by_nil in H.
      exact H.
    - unfold CT. rewrite H. reflexivity. }
  assert (Htop : forall dp mp i, In i (generatePatternInsights nts dp mp CT) ->
                   in_title i = "Most Active Category" ->
                   exists c rest, CT = c :: rest /\ i = mkInsight "info" "Most Active Category"
                     (ct_id c ++ " is your most frequent spending category ("
                      ++ Num.int_to_string (Z.of_nat (ct_totalCount c)) ++ " transactions)")
                     ("Look for optimization opportunities in " ++ ct_id c
                      ++ " to maximize your savings.")).
  { intros dp mp i Hi Ht. split_insights Hi.
    - destruct highestSpendingDay as [d|]; [|destruct Hi].
      destruct (Qltb 0 (dp_totalSpent d)); [|destruct Hi]. destruct Hi as [<-|[]]; discriminate Ht.
    - destruct CT as [|c rest]; [destruct Hi|]. destruct Hi as [<-|[]]. exists c, rest; split; reflexivity.
    - destruct (1 <? List.length _)%nat; [|destruct Hi].
      destruct existsb; [|destruct Hi]. destruct Hi as [<-|[]]; discriminate Ht. }
  split; [split|].
  - intros [i [Hi Ht]]. destruct (Htop _ _ i Hi Ht) as [c [rest [Hc _]]].
    destruct recent as [|t r] eqn:Er; [rewrite (proj2 HCT eq_refl) in Hc; discriminate|].
    assert (Hin : In t recent) by (rewrite Er; left; reflexivity).
    unfold recent in Hin. apply filter_In in Hin as [Hin Hp]. apply andb_prop in Hp as [H1 H2].
    exists t. split; [exact Hin|]. split; [apply String.eqb_eq, H1|apply Z.leb_le, H2].
  - intros [t [Hin [Hu Hd]]].
    assert (Hr : In t recent).
    { unfold recent. apply filter_In. split; [exact Hin|].
      rewrite Hu, String.eqb_refl. apply Z.leb_le in Hd. rewrite Hd. reflexivity. }
    destruct CT as [|c rest] eqn:Ec.
    + pose proof (proj1 HCT eq_refl) as E0. rewrite E0 in Hr. destruct Hr.
    + eexists. split.
      * unfold generatePatternInsights; cbv zeta. apply in_or_app; right; apply in_or_app; left; left; reflexivity.
      * reflexivity.
  - intros i Hi Ht. destruct (Htop _ _ i Hi Ht) as [c [rest [Hc ->]]].
    exists c, (" is your most frequent spending category ("
               ++ Num.int_to_string (Z.of_nat (ct_totalCount c)) ++ " transactions)")%string.
    split; [rewrite Hc; reflexivity|]. split; [|reflexivity].
    intros c' Hc'. pose proof (ListRouteFacts.in_firstn 10 c' CT Hc') as Hc''. rewrite Hc in Hc''.
    exact (CollFacts.sort_desc_head ct_totalAmount _ c rest Hc c' Hc'').
Qed.

Lemma patterns_top_category_witness :
  exists dps mps cts ins,
    patterns_route (fun _ => "") [mkTxn "s1" "u1" "Salary" 3000 "income" "Salary" (Samples.at_day 2024 3 1 0) None]
      "u1" Samples.now0 = (dps, mps, cts, ins) /\
    exists i, In i ins /\ in_title i = "Most Active Category".
Proof.
  do 4 eexists. split; [vm_compute; reflexivity|].
  refine (proj2 (proj1 (patterns_top_category (fun _ => "")
    [mkTxn "s1" "u1" "Salary" 3000 "income" "Salary" (Samples.at_day 2024 3 1 0) None] "u1" Samples.now0
    _ _ _ _ ltac:(vm_compute; reflexivity))) _).
  exists (mkTxn "s1" "u1" "Salary" 3000 "income" "Salary" (Samples.at_day 2024 3 1 0) None).
  split; [left; reflexivity|]. split; [reflexivity|vm_compute; discriminate].
Defined.

End PatternsFacts.

(* ------------------------------------------------------------------ *)
(** ** Monthly insights *)

Module InsightsFacts.
Import Cal Coll Patterns InsightsRoute.
Local Open Scope list_scope.
Local Open Scope Q_scope.

Lemma rate_neg ci ce : 0 < ci -> ((ci - ce) / ci * 100 < 0 <-> ci < ce).
Proof.
  intro H.
  assert (Hz : 0 < ci / 100) by (apply Qlt_shift_div_l; [reflexivity|exact H]).
  assert (Hne : ~ ci == 0) by (intro E; rewrite E in H; discriminate).
  assert (E : (ci - ce) / ci * 100 * (ci / 100) == ci - ce) by (field; exact Hne).
  rewrite <- (Qmult_lt_r _ _ _ Hz), E. split; intro; lra.
Qed.

Ltac split_insights_of H :=
  unfold insights_of in H; cbv zeta in H;
  apply in_app_or in H as [H|H]; [|apply in_app_or in H as [H|H]].

Ltac no_title H Ht :=
  repeat match type of H with
         | In _ (if ?b then _ else _) => destruct b
         end;
  first [ (destruct H as [<-|[]]; discriminate Ht) | destruct H ].

Lemma insights_of_overspending nts ci ce le top :
  (exists i, In i (insights_of nts ci ce le top) /\ in_title i = "Spending More Than Earning")
  <-> 0 < ci /\ ci < ce.
Proof.
  split.
  - intros [i [Hi Ht]]. split_insights_of Hi; [no_title Hi Ht| |].
    { destruct top as [|[[c0 t0] n0] r0]; [destruct Hi|]. destruct Hi as [<-|[]]; discriminate Ht. }
    destruct (Qltb 0 ci) eqn:E1; [|destruct Hi].
    destruct (Qltb 20 ((ci - ce) / ci * 100)) eqn:E2; [destruct Hi as [<-|[]]; discriminate Ht|].
    destruct (Qltb ((ci - ce) / ci * 100) 0) eqn:E3; [|destruct Hi].
    apply CollFacts.Qltb_iff in E1, E3. split; [exact E1|apply (rate_neg ci ce E1), E3].
  - intros [H1 H2].
    pose proof (proj2 (rate_neg ci ce H1) H2) as H3.
    eexists. split.
    + unfold insights_of; cbv zeta. apply in_or_app; right; apply in_or_app; right.
      rewrite (proj2 (CollFacts.Qltb_iff 0 ci) H1).
      replace (Qltb 20 ((ci - ce) / ci * 100)) with false
        by (symmetry; apply not_true_iff_false; rewrite CollFacts.Qltb_iff; lra).
      rewrite (proj2 (CollFacts.Qltb_iff _ 0) H3). left; reflexivity.
    + reflexivity.
Qed.

(** X14: [/insights] warns "Spending More Than Earning" exactly when this
    month's income is positive and this month's expenses exceed it; with
    no income this month there is no such warning. *)
Theorem overspending_insight nts store uid now :
  (exists i, In i (ir_insights (insights_route nts store uid now)) /\
             in_title i = "Spending More Than Earning")
  <-> 0 < mt_income (ir_currentMonth (insights_route nts store uid now)) /\
      mt_income (ir_currentMonth (insights_route nts store uid now))
      < mt_expenses (ir_currentMonth (insights_route nts store uid now)).
Proof.
  unfold insights_route; cbv zeta. cbn [ir_insights ir_currentMonth mt_income mt_expenses].
  apply insights_of_overspending.
Qed.

Lemma overspending_insight_witness :
  0 < mt_income (ir_currentMonth (insights_route (fun _ => "") ExtSamples.store_over "u1" Samples.now0)) /\
  mt_income (ir_currentMonth (insights_route (fun _ => "") ExtSamples.store_over "u1" Samples.now0))
  < mt_expenses (ir_currentMonth (insights_route (fun _ => "") ExtSamples.store_over "u1" Samples.now0)).
Proof.
  apply (proj1 (overspending_insight (fun _ => "") ExtSamples.store_over "u1" Samples.now0)).
  exists (mkInsight "warning" "Spending More Than Earning" "Your expenses exceed your income this month."
            "Review your expenses and create a budget to get back on track.").
  split; [vm_compute; repeat (first [left; reflexivity | right])|reflexivity].
Defined.

(** X15: the [topCategories] of [/insights] are at most five, largest
    total first; each is a category of the user's expenses since the start
    of the month, with the sum and the number of those expenses; there are
    none, and no "Top Spending Category" insight, exactly when the user has
    no expense this month. *)
Theorem insights_top_categories nts store uid now :
  (List.length (ir_topCategories (insights_route nts store uid now)) <= 5)%nat /\
  Sorted (fun a b => snd (fst b) <= snd (fst a)) (ir_topCategories (insights_route nts store uid now)) /\
  (forall c tot n, In (c, tot, n) (ir_topCategories (insights_route nts store uid now)) ->
     tot == sumQ (map amount (filter (fun t => String.eqb (userId t) uid && (currentMonthStart now <=? date t)%Z
                                               && String.eqb (type_ t) "expense" && String.eqb (category t) c) store)) /\
     n = List.length (filter (fun t => String.eqb (userId t) uid && (currentMonthStart now <=? date t)%Z
                                       && String.eqb (type_ t) "expense" && String.eqb (category t) c) store) /\
     (0 < n)%nat) /\
  ((exists i, In i (ir_insights (insights_route nts store uid now)) /\ in_title i = "Top Spending Category")
   <-> exists t, In t store /\ userId t = uid /\ type_ t = "expense" /\ (currentMonthStart now <= date t)%Z).
Proof.
  unfold insights_route; cbv zeta. cbn [ir_topCategories ir_insights].
  set (E := filter (fun t => String.eqb (type_ t) "expense")
              (filter (fun t => (currentMonthStart now <=? date t)%Z)
                 (filter (fun t => String.eqb (userId t) uid) store))).
  set (L := sort _ (map _ (group_by String.eqb category E))).
  assert (HE : forall t, In t E <-> In t store /\ userId t = uid /\ type_ t = "expense" /\ (currentMonthStart now <= date t)%Z).
  { intro t. unfold E. rewrite !filter_In, String.eqb_eq, String.eqb_eq, Z.leb_le. tauto. }
  assert (HL : L = [] <-> E = []).
  { split; intro H.
    - apply CollFacts.sort_nil, map_eq_nil, CollFacts.group_by_nil in H. exact H.
    - unfold L. rewrite H. reflexivity. }
  split; [apply firstn_le_length|]. split; [|split].
  - apply ListRouteFacts.sorted_firstn.
    exact (CollFacts.sort_desc_sorted (fun x : string * Q * nat => snd (fst x)) _).
  - intros c tot n Hin. apply ListRouteFacts.in_firstn in Hin.
    apply (Permutation_in _ (CollFacts.sort_perm _ _)) in Hin.
    apply in_map_iff in Hin as [[k xs] [Heq Hg]]. cbn in Heq. inversion Heq; subst k tot n.
    pose proof (CollFacts.group_by_nonempty String.eqb category E c xs Hg) as Hne.
    rewrite (CollFacts.group_by_filter String.eqb category String.eqb_eq E c xs Hg) in *.
    assert (Hf : filter (fun y => String.eqb (category y) c) E
                 = filter (fun t => String.eqb (userId t) uid && (currentMonthStart now <=? date t)%Z
                                    && String.eqb (type_ t) "expense" && String.eqb (category t) c) store).
    { unfold E. rewrite !CollFacts.filter_filter. apply filter_ext. intro x. rewrite !andb_assoc. reflexivity. }
    rewrite Hf in *. split; [reflexivity|]. split; [reflexivity|].
    match goal with |- (0 < List.length ?F)%nat =>
      assert (List.length F <> 0%nat) by (rewrite length_zero_iff_nil; exact Hne) end.
    lia.
  - split.
    + intros [i [Hi Ht]]. split_insights_of Hi.
      * no_title Hi Ht.
      * destruct (firstn 5 L) as [|[[c tot] n] r] eqn:Ef; [destruct Hi|].
        destruct L as [|x L'] eqn:EL; [discriminate Ef|].
        destruct E as [|t E'] eqn:EE; [pose proof (proj2 HL eq_refl); discriminate|].
        exists t. apply HE. left; reflexivity.
      * no_title Hi Ht.
    + intros [t Ht]. apply HE in Ht.
      destruct L as [|[[c tot] n] L'] eqn:EL.
      * pose proof (proj1 HL eq_refl) as E0. rewrite E0 in Ht. destruct Ht.
      * eexists. split.
        -- unfold insights_of; cbv zeta. apply in_or_app; right; apply in_or_app; left.
           cbn [firstn]. left; reflexivity.
        -- reflexivity.
Qed.

Lemma insights_top_categories_witness :
  (List.length (ir_topCategories (insights_route (fun _ => "") ExtSamples.store7 "u1" Samples.now0)) <= 5)%nat /\
  exists i, In i (ir_insights (insights_route (fun _ => "") ExtSamples.store7 "u1" Samples.now0)) /\
            in_title i = "Top Spending Category".
Proof.
  destruct (insights_top_categories (fun _ => "") ExtSamples.store7 "u1" Samples.now0) as [Hlen [_ [_ Hiff]]].
  split; [exact Hlen|].
  apply Hiff. eexists. split; [apply in_cons, in_eq|].
  vm_compute. split; [reflexivity|]. split; [reflexivity|]. discriminate.
Defined.

End InsightsFacts.

Module DashboardFacts.
Import Cal CalFacts Analytics Dashboard.
Local Open Scope Z_scope.

Lemma digit_ok n : 0 <= n < 10 ->
  Fallback.is_digit (Num.digit n) = true /\ Fallback.digit_val (Num.digit n) = n.
Proof.
  intro H. unfold Num.digit, Fallback.is_digit, Fallback.digit_val.
  rewrite nat_ascii_embedding by lia.
  split.
  - apply andb_true_iff; split; apply Nat.leb_le; lia.
  - lia.
Qed.

Lemma pad2 n : 0 <= n < 100 ->
  Num.pad_fixed 2 n = String (Num.digit (n / 10 mod 10)) (String (Num.digit (n mod 10)) EmptyString).
Proof. intros _. reflexivity. Qed.

Lemma pad4 n :
  Num.pad_fixed 4 n = String (Num.digit (n / 10 / 10 / 10 mod 10)) (String (Num.digit (n / 10 / 10 mod 10))
                        (String (Num.digit (n / 10 mod 10)) (String (Num.digit (n mod 10)) EmptyString))).
Proof. reflexivity. Qed.

Lemma mod10_bound n : 0 <= n mod 10 < 10.
Proof. apply Z.mod_pos_bound; lia. Qed.

Lemma civil_bounds z :
  let '(_, m, d) := civil_from_days z in 1 <= m <= 12 /\ 1 <= d <= 31.
Proof.
  pose proof (civil_roundtrip z) as Hr.
  pose proof (AnalyticsFacts.getDate_bounds (z * msPerDay)) as Hd.
  unfold getDate, Day in Hd.
  rewrite Z.div_mul in Hd by (unfold msPerDay; lia).
  destruct (civil_from_days z) as [[y m] d]. tauto.
Qed.

(** [new Date(s)] of [t.toISOString().split("T")[0]] is 00:00 of the day
    of [t], for years 0 to 9999. *)
Lemma parse_isoDate t : 0 <= getFullYear t <= 9999 ->
  parse_ymd (isoDate t) = Some (Day t * msPerDay).
Proof.
  intro Hy.
  pose proof (MakeDay_same_month t (getDate t)) as Hmd.
  pose proof (civil_bounds (Day t)) as Hb.
  unfold getFullYear, getMonth, getDate in *. unfold isoDate.
  destruct (civil_from_days (Day t)) as [[y m] d].
  destruct Hb as [Hm Hd].
  replace ((0 <=? y) && (y <=? 9999)) with true
    by (symmetry; apply andb_true_iff; split; apply Z.leb_le; lia).
  rewrite pad4, (pad2 m), (pad2 d) by lia.
  pose proof (mod10_bound (y / 10 / 10 / 10)) as B1.
  pose proof (mod10_bound (y / 10 / 10)) as B2.
  pose proof (mod10_bound (y / 10)) as B3.
  pose proof (mod10_bound y) as B4.
  pose proof (mod10_bound (m / 10)) as B5.
  pose proof (mod10_bound m) as B6.
  pose proof (mod10_bound (d / 10)) as B7.
  pose proof (mod10_bound d) as B8.
  destruct (digit_ok _ B1) as [D1 V1], (digit_ok _ B2) as [D2 V2],
           (digit_ok _ B3) as [D3 V3], (digit_ok _ B4) as [D4 V4],
           (digit_ok _ B5) as [D5 V5], (digit_ok _ B6) as [D6 V6],
           (digit_ok _ B7) as [D7 V7], (digit_ok _ B8) as [D8 V8].
  cbn [String.append]. unfold parse_ymd, JS.ymd_shape.
  rewrite D1, D2, D3, D4, D5, D6, D7, D8. cbn [andb Ascii.eqb Bool.eqb].
  rewrite V1, V2, V3, V4, V5, V6, V7, V8.
  assert (Ey : 1000 * (y / 10 / 10 / 10 mod 10) + 100 * (y / 10 / 10 mod 10)
               + 10 * (y / 10 mod 10) + y mod 10 = y)
    by (Z.div_mod_to_equations; lia).
  assert (Em : 10 * (m / 10 mod 10) + m mod 10 = m) by (Z.div_mod_to_equations; lia).
  assert (Ed : 10 * (d / 10 mod 10) + d mod 10 = d) by (Z.div_mod_to_equations; lia).
  rewrite Ey, Em, Ed.
  replace ((1 <=? m) && (m <=? 12) && (1 <=? d) && (d <=? 31)) with true
    by (symmetry; rewrite !andb_true_iff, !Z.leb_le; lia).
  unfold MakeDate. rewrite Hmd. f_equal; lia.
Qed.

Lemma Day_sub_days t k : Day (t - k * msPerDay) = Day t - k.
Proof.
  unfold Day. replace (t - k * msPerDay) with (t + (- k) * msPerDay) by lia.
  rewrite Z.div_add by (unfold msPerDay; lia). lia.
Qed.

Lemma Day_mul x : Day (x * msPerDay) = x.
Proof. unfold Day. apply Z.div_mul. unfold msPerDay; lia. Qed.

Lemma today_midnight now :
  new_Date3 (getFullYear now) (getMonth now) (getDate now) = Day now * msPerDay.
Proof. unfold new_Date3, MakeDate. rewrite MakeDay_same_month. lia. Qed.

Lemma setDate_back t k : setDate t (getDate t - k) = t - k * msPerDay.
Proof.
  unfold setDate, MakeDate; rewrite MakeDay_same_month.
  pose proof (time_split t); lia.
Qed.

Definition period_days (p : TimePeriod) : option Z :=
  match p with Today => Some 0 | Week => Some 7 | Last30 => Some 30 | _ => None end.

(** The UTC day of [x * msPerDay - tz], for an offset of less than a day. *)
Lemma Day_shift x tz : - msPerDay < tz < msPerDay ->
  Day (x * msPerDay - tz) = x - (if 0 <? tz then 1 else 0).
Proof.
  intro H. unfold Day. destruct (0 <? tz) eqn:E; [apply Z.ltb_lt in E | apply Z.ltb_ge in E];
    unfold msPerDay in *; Z.div_mod_to_equations; lia.
Qed.

Lemma getFullYear_Day t : getFullYear t = getFullYear (Day t * msPerDay).
Proof. unfold getFullYear. rewrite Day_mul. reflexivity. Qed.

(** X19: for the "today", "week" and "last30" periods of the dashboard, in
    a browser whose local time is [tz] milliseconds ahead of UTC (less
    than a day either way), the summary query built from
    [getDateRangeFromPeriod] counts exactly the transactions dated from
    00:00 UTC [k] days before day [D] up to 00:00 UTC of [D], [k] being 0,
    7 or 30 and [D] the local day of [now] west of or at UTC, the day
    before it east of UTC (for years 0 to 9999, where [toISOString] writes
    four year digits).  For "today" only a transaction dated exactly at
    that midnight is counted. *)
Theorem dashboard_period_window (tz : Z) (p : TimePeriod) (now k : Z) :
  period_days p = Some k ->
  - msPerDay < tz < msPerDay ->
  let D := Day (now + tz) - (if 0 <? tz then 1 else 0) in
  0 <= getFullYear (D * msPerDay) <= 9999 ->
  0 <= getFullYear ((D - k) * msPerDay) <= 9999 ->
  exists q, summary_query (getDateRangeFromPeriod tz p now) = Some q /\
    summary_window q now = Some (Between ((D - k) * msPerDay) (D * msPerDay)) /\
    forall t, in_window (Between ((D - k) * msPerDay) (D * msPerDay)) t = true <->
              D - k <= Day t /\ t <= D * msPerDay.
Proof.
  intros Hp Htz D Hy Hy'.
  assert (Hwin : forall t, in_window (Between ((D - k) * msPerDay) (D * msPerDay)) t = true <->
              D - k <= Day t /\ t <= D * msPerDay).
  { intro t. cbn [in_window]. rewrite andb_true_iff, !Z.leb_le.
    pose proof (time_split t). pose proof (AnalyticsFacts.TimeWithinDay_bounds t).
    unfold msPerDay in *. nia. }
  set (L := Day (now + tz)).
  assert (Hiso : forall x, 0 <= getFullYear ((x - (if 0 <? tz then 1 else 0)) * msPerDay) <= 9999 ->
            parse_ymd (isoDate (x * msPerDay - tz)) = Some ((x - (if 0 <? tz then 1 else 0)) * msPerDay)).
  { intros x Hx. rewrite parse_isoDate, Day_shift by (try exact Htz; rewrite getFullYear_Day, Day_shift by exact Htz; exact Hx).
    reflexivity. }
  assert (Htoday : local_Date3 tz (getFullYear (now + tz)) (getMonth (now + tz)) (getDate (now + tz))
                   = L * msPerDay - tz) by (unfold local_Date3; rewrite today_midnight; reflexivity).
  assert (Hback : forall j, local_setDate tz (L * msPerDay - tz) (getDate (L * msPerDay - tz + tz) - j)
                            = (L - j) * msPerDay - tz).
  { intro j. unfold local_setDate. replace (L * msPerDay - tz + tz) with (L * msPerDay) by lia.
    rewrite setDate_back. lia. }
  assert (Hpt : parse_ymd (isoDate (L * msPerDay - tz)) = Some (D * msPerDay)) by (apply Hiso; exact Hy).
  assert (Hpb : parse_ymd (isoDate ((L - k) * msPerDay - tz)) = Some ((D - k) * msPerDay)).
  { rewrite Hiso; [f_equal; unfold D; fold L; lia|].
    replace (L - k - (if 0 <? tz then 1 else 0)) with (D - k) by (unfold D; fold L; lia). exact Hy'. }
  destruct p; cbn [period_days] in Hp; try discriminate; injection Hp as <-;
    unfold getDateRangeFromPeriod; rewrite Htoday;
    try rewrite Hback; unfold summary_query; cbn [f_startDate f_endDate f_period].
  - replace (D - 0) with D in * by lia.
    rewrite Hpt. eexists; split; [reflexivity|]. split; [reflexivity | exact Hwin].
  - rewrite Hpb, Hpt. eexists; split; [reflexivity|]. split; [reflexivity | exact Hwin].
  - rewrite Hpb, Hpt. eexists; split; [reflexivity|]. split; [reflexivity | exact Hwin].
Qed.

(** In a browser at UTC+1 on 2024-03-15 12:00 UTC, "today" asks for
    2024-03-14 only. *)
Lemma dashboard_period_window_witness :
  period_days Today = Some 0 /\ - msPerDay < 3600000 < msPerDay /\
  exists q, summary_query (getDateRangeFromPeriod 3600000 Today Samples.now0) = Some q /\
    summary_window q Samples.now0
      = Some (Between (Cal.MakeDate (Cal.days_from_civil 2024 3 14) 0)
                      (Cal.MakeDate (Cal.days_from_civil 2024 3 14) 0)).
Proof.
  assert (Htz : - msPerDay < 3600000 < msPerDay) by (unfold msPerDay; lia).
  split; [reflexivity|]. split; [exact Htz|].
  destruct (dashboard_period_window 3600000 Today Samples.now0 0 eq_refl Htz
              ltac:(vm_compute; split; discriminate) ltac:(vm_compute; split; discriminate))
    as [q [Hq [Hw _]]].
  exists q. split; [exact Hq|]. rewrite Hw. vm_compute. reflexivity.
Defined.

End DashboardFacts.
